(** * Brain-MRI slice preprocessing

    A shallow embedding of [docker/processing_script.py]: the script globs
    the volume files of a brain-MRI data set, pairs every volume with its
    segmentation mask, splits the pairs into a training and a validation
    set, writes every second slice of each volume and mask as an 8-bit
    image, and writes a constant label map.

    The file has four layers, in the order the script depends on them:
    - [Py]:  the fragment of the Python runtime the script uses (exceptions,
             [str.split], [str.join], [os.path.join], [os.path.basename],
             [%]-formatting, list indexing);
    - [F64]: IEEE-754 binary64 arithmetic, over the Standard Library's
             [spec_float], and the conversion to [uint8];
    - [Np]:  n-dimensional arrays: a shape and the elements in row-major
             order, with the NumPy operations of the script;
    - the script itself: [process_mris] and [main], running in a monad that
      threads the files written so far and stops at the first exception.

    What the script reads from outside (the directory listing, the volume
    files, the pseudo-random permutation of the split) is collected in the
    record [host]. *)

From Stdlib Require Import ZArith List String Ascii Bool Lia Arith Permutation.
From Stdlib Require Import SpecFloat DecimalString.
From Stdlib Require DecimalNat DecimalFacts.
Import ListNotations.

Local Open Scope string_scope.
Local Open Scope list_scope.
Local Open Scope nat_scope.

(* ================================================================== *)
(** * The Python fragment *)
(* ================================================================== *)

Module Py.

(** The built-in exceptions that the script and its libraries raise. *)
Inductive exn : Type :=
| IndexError
| ValueError
| FileNotFoundError
| FileExistsError.

(** The result of evaluating an expression: a value, or a raised
    exception. *)
Inductive outcome (A : Type) : Type :=
| Ok (a : A)
| Raised (e : exn).

Arguments Ok {A} a.
Arguments Raised {A} e.

Definition obind {A B : Type} (o : outcome A) (k : A -> outcome B) : outcome B :=
  match o with
  | Ok a => k a
  | Raised e => Raised e
  end.

(** [l[i]] for [0 <= i]. *)
Definition index {A : Type} (l : list A) (i : nat) : outcome A :=
  match nth_error l i with
  | Some x => Ok x
  | None => Raised IndexError
  end.

(** [l[-k]] for [1 <= k]. *)
Definition index_neg {A : Type} (l : list A) (k : nat) : outcome A :=
  if (1 <=? k) && (k <=? List.length l) then index l (List.length l - k)
  else Raised IndexError.

(** [s.split(sep)] for a one-character separator: the result is never
    empty, and [''.split(sep) = ['']]. *)
Fixpoint split (sep : ascii) (s : string) : list string :=
  match s with
  | EmptyString => [EmptyString]
  | String c s' =>
      if Ascii.eqb c sep then EmptyString :: split sep s'
      else match split sep s' with
           | [] => [String c EmptyString]
           | t :: ts => String c t :: ts
           end
  end.

(** [sep.join(l)]. *)
Definition join (sep : string) (l : list string) : string :=
  String.concat sep l.

(** ["%i" % n] for a natural number. *)
Definition str_of_nat (n : nat) : string :=
  NilZero.string_of_uint (Nat.to_uint n).

Definition str_of_Z (z : Z) : string :=
  NilZero.string_of_int (Z.to_int z).

Definition startswith (p s : string) : bool := String.prefix p s.

Fixpoint endswith_char (c : ascii) (s : string) : bool :=
  match s with
  | EmptyString => false
  | String x EmptyString => Ascii.eqb x c
  | String _ s' => endswith_char c s'
  end.

(** One step of [posixpath.join]: an absolute component replaces what came
    before, otherwise the component is appended, after a ['/'] unless the
    path so far is empty or already ends with one. *)
Definition path_join2 (path b : string) : string :=
  if startswith "/" b then b
  else if (String.eqb path "" || endswith_char "/" path)%bool then (path ++ b)%string
  else (path ++ "/" ++ b)%string.

(** [os.path.join(a, *p)]. *)
Definition path_join (a : string) (p : list string) : string :=
  fold_left path_join2 p a.

(** [os.path.basename(p)]: what follows the last ['/'] of [p]. *)
Definition basename (p : string) : string :=
  last (split "/" p) EmptyString.

(** [str(t)] for a tuple of integers, as [%s] prints a shape. *)
Definition str_of_tuple (t : list nat) : string :=
  match t with
  | [x] => ("(" ++ str_of_nat x ++ ",)")%string
  | _ => ("(" ++ join ", " (map str_of_nat t) ++ ")")%string
  end.

(** The double-quote character, for JSON text. *)
Definition dquote : string := String "034"%char EmptyString.

(** [json.dumps(d)] for a dictionary from plain strings to integers, with
    the default separators. *)
Definition json_dumps (d : list (string * Z)) : string :=
  ("{" ++ join ", " (map (fun kv => dquote ++ fst kv ++ dquote ++ ": " ++ str_of_Z (snd kv)) d) ++ "}")%string.

End Py.

Export Py.

(* ================================================================== *)
(** * Binary64 arithmetic *)
(* ================================================================== *)

Module F64.

Definition prec : Z := 53.
Definition emax : Z := 1024.

(** [numpy.float64], the element type of [get_fdata()]. *)
Definition float : Type := spec_float.

Definition div : float -> float -> float := SFdiv prec emax.
Definition mul : float -> float -> float := SFmul prec emax.

(** The float an integer literal is converted to. *)
Definition of_Z (z : Z) : float := binary_normalize prec emax z 0 false.

Definition zero : float := S754_zero false.
Definition one : float := Eval vm_compute in of_Z 1.
Definition f255 : float := Eval vm_compute in of_Z 255.

Definition is_nan (x : float) : bool :=
  match x with
  | S754_nan => true
  | _ => false
  end.

Definition is_zero (x : float) : bool :=
  match x with
  | S754_zero _ => true
  | _ => false
  end.

Definition is_finite (x : float) : bool :=
  match x with
  | S754_zero _ | S754_finite _ _ _ => true
  | _ => false
  end.

(** [x >= y] and [x > y]; both are false when an operand is NaN. *)
Definition geb (x y : float) : bool := SFleb y x.
Definition gtb (x y : float) : bool := SFltb y x.

(** [numpy.maximum]: the larger operand, or NaN when one of them is. *)
Definition maximum (a b : float) : float :=
  if (geb a b || is_nan a)%bool then a else b.

(** The integer part of a finite float (rounding toward zero). *)
Definition truncate (x : float) : option Z :=
  match x with
  | S754_zero _ => Some 0%Z
  | S754_finite s m e => Some (cond_Zopp s (Z.shiftl (Zpos m) e))
  | _ => None
  end.

(** The conversion of a float to a signed 32-bit integer, as the x86-64
    instruction does it: the fraction is dropped; an integer part outside
    [[-2^31, 2^31)], NaN and the infinities all give [-2^31]. *)
Definition to_int32 (x : float) : Z :=
  match truncate x with
  | Some z =>
      if ((-2147483648 <=? z) && (z <? 2147483648))%Z%bool then z
      else (-2147483648)%Z
  | None => (-2147483648)%Z
  end.

(** [x.astype(numpy.uint8)] on one element. The fraction is dropped; a
    value in [[0, 256)] is kept as it is. Outside that range the C
    conversion NumPy compiles to is not defined by the language. This
    definition follows the x86-64 builds: the float is converted to a
    32-bit integer and the low byte of that word is kept. An integer part
    that fits the word is so reduced modulo 256; every other finite value,
    NaN and the infinities give 0, the low byte of [-2^31]. NumPy warns
    ("invalid value encountered in cast") and raises nothing. *)
Definition to_uint8 (x : float) : Z := (to_int32 x mod 256)%Z.

End F64.

(* ================================================================== *)
(** * Arrays *)
(* ================================================================== *)

Module Np.

(** An n-dimensional array: its shape and its elements in row-major
    order. *)
Record ndarray (A : Type) : Type := mk_ndarray {
  shape : list nat;
  data : list A
}.

Arguments mk_ndarray {A} shape data.
Arguments shape {A} n.
Arguments data {A} n.

(** The number of elements of an array of shape [sh]. *)
Definition size (sh : list nat) : nat := fold_right Nat.mul 1 sh.

(** The [k]-th run of [r] elements of [l]. *)
Definition block {A : Type} (r k : nat) (l : list A) : list A :=
  firstn r (skipn (k * r) l).

(** [a.squeeze()]: the axes of length one are removed. *)
Definition squeeze_shape (sh : list nat) : list nat :=
  filter (fun d => negb (d =? 1)) sh.

Definition squeeze {A : Type} (a : ndarray A) : ndarray A :=
  mk_ndarray (squeeze_shape (shape a)) (data a).

(** [numpy.arange(start, stop, step)] for natural numbers and a positive
    step: [start, start + step, ...], below [stop]; there are
    [ceil((stop - start) / step)] of them. *)
Definition arange (start stop step : nat) : list nat :=
  map (fun k => start + k * step) (seq 0 ((stop - start + (step - 1)) / step)).

(** [a[idx, :, :]] for an index array [idx]: the array needs three axes at
    least, and every index has to lie inside the first one. *)
Definition take0 {A : Type} (idx : list nat) (a : ndarray A) : outcome (ndarray A) :=
  match shape a with
  | d :: (_ :: _ :: _) as rest =>
      if forallb (fun k => k <? d) idx
      then Ok (mk_ndarray (List.length idx :: rest)
                 (flat_map (fun k => block (size rest) k (data a)) idx))
      else Raised IndexError
  | _ => Raised IndexError
  end.

(** [a[i]] for an integer [i]. *)
Definition get0 {A : Type} (a : ndarray A) (i : nat) : outcome (ndarray A) :=
  match shape a with
  | d :: rest =>
      if i <? d then Ok (mk_ndarray rest (block (size rest) i (data a)))
      else Raised IndexError
  | [] => Raised IndexError
  end.

(** An elementwise operation. *)
Definition amap {A B : Type} (f : A -> B) (a : ndarray A) : ndarray B :=
  mk_ndarray (shape a) (map f (data a)).

(** [a.max()]: the reduction of [numpy.maximum] over all elements; an empty
    array has no maximum. *)
Definition amax (a : ndarray F64.float) : outcome F64.float :=
  match data a with
  | [] => Raised ValueError
  | x :: xs => Ok (fold_left F64.maximum xs x)
  end.

(** [numpy.flip(a, 1)]: the second axis is reversed. *)
Definition flip1 {A : Type} (a : ndarray A) : outcome (ndarray A) :=
  match shape a with
  | h :: w :: rest =>
      Ok (mk_ndarray (h :: w :: rest)
            (flat_map (fun j =>
               flat_map (fun c => block (size rest) (j * w + (w - 1 - c)) (data a))
                        (seq 0 w))
               (seq 0 h)))
  | _ => Raised ValueError
  end.

(** [numpy.transpose(a, (1, 0, 2, ...))]: the first two axes are
    exchanged. *)
Definition swap01 {A : Type} (a : ndarray A) : outcome (ndarray A) :=
  match shape a with
  | h :: w :: rest =>
      Ok (mk_ndarray (w :: h :: rest)
            (flat_map (fun i =>
               flat_map (fun j => block (size rest) (j * w + i) (data a))
                        (seq 0 h))
               (seq 0 w)))
  | _ => Raised ValueError
  end.

(** [numpy.rot90(a)], with the default [k = 1] and [axes = (0, 1)]: NumPy
    computes it as [transpose(flip(a, 1))]. *)
Definition rot90 {A : Type} (a : ndarray A) : outcome (ndarray A) :=
  obind (flip1 a) swap01.

(** [a.astype(numpy.uint8)]. *)
Definition astype_uint8 (a : ndarray F64.float) : ndarray Z :=
  amap F64.to_uint8 a.

(** The element at row [i] and column [j] of a two-dimensional array. *)
Definition at2 {A : Type} (a : ndarray A) (i j : nat) : option A :=
  match shape a with
  | [h; w] => if ((i <? h) && (j <? w))%bool then nth_error (data a) (i * w + j) else None
  | _ => None
  end.

End Np.

(* ================================================================== *)
(** * The script and its environment *)
(* ================================================================== *)

Import Np.

(** What a written file holds: the pixels of an 8-bit image, or text. *)
Inductive content : Type :=
| Png (pixels : ndarray Z)
| Text (s : string).

(** The part of the machine the script changes: every file written so far
    (oldest first), the lines printed, and the directories that exist, each
    under the string of its path (a directory the script creates is added
    at the end). *)
Record world : Type := mk_world {
  files_written : list (string * content);
  stdout : list string;
  dirs : list string
}.

(** What the script reads: the answers of [glob.glob], the volume files
    that [nibabel.load] can open with the array [get_fdata()] returns for
    them (its shape is the [.shape] of the image), and the permutation of
    [0 .. n-1] that NumPy's generator, seeded with a given [random_state],
    draws first. *)
Record host : Type := mk_host {
  glob : string -> list string;
  nib_load : string -> option (ndarray F64.float);
  rng_permutation : Z -> nat -> list nat
}.

(** A computation of the script: it runs in a world and ends with a value
    or with an exception; the world it leaves holds what was written up to
    that point. *)
Definition M (A : Type) : Type := world -> outcome A * world.

Definition ret {A : Type} (a : A) : M A := fun w => (Ok a, w).

Definition bind {A B : Type} (c : M A) (k : A -> M B) : M B :=
  fun w =>
    match c w with
    | (Ok a, w') => k a w'
    | (Raised e, w') => (Raised e, w')
    end.

Definition lift {A : Type} (o : outcome A) : M A := fun w => (o, w).

Notation "x <- c ;; k" := (bind c (fun x => k))
  (at level 61, c at next level, right associativity).
Notation "c ;; k" := (bind c (fun _ => k))
  (at level 61, right associativity).

(** [for x in l: body(x)]. *)
Fixpoint for_each {A : Type} (l : list A) (body : A -> M unit) : M unit :=
  match l with
  | [] => ret tt
  | x :: l' => body x ;; for_each l' body
  end.

(** A list comprehension [[f(x) for x in l]] whose element expression can
    raise. *)
Fixpoint list_comp {A B : Type} (f : A -> outcome B) (l : list A) : outcome (list B) :=
  match l with
  | [] => Ok []
  | x :: l' => obind (f x) (fun y => obind (list_comp f l') (fun ys => Ok (y :: ys)))
  end.

(** [enumerate(l)]. *)
Definition enumerate {A : Type} (l : list A) : list (nat * A) :=
  combine (seq 0 (List.length l)) l.

Definition print (s : string) : M unit :=
  fun w => (Ok tt, mk_world (files_written w) (stdout w ++ [s]) (dirs w)).

(** What [imageio] takes for one image: an array of two axes, or of three
    with one to four channels on the last one. *)
Definition is_image (a : ndarray Z) : bool :=
  match shape a with
  | [_; _] => true
  | [_; _; c] => (1 <=? c) && (c <=? 4)
  | _ => false
  end.

(** [imageio.imsave(path, a)]: an array that is not one image is refused
    with [ValueError] before the file is opened. The directory of [path]
    is taken to exist, as it does at the two calls of the script, which
    [main] reaches after it has created the directories (lines 67 to
    70). *)
Definition imsave (path : string) (a : ndarray Z) : M unit :=
  fun w =>
    if is_image a
    then (Ok tt, mk_world (files_written w ++ [(path, Png a)]) (stdout w) (dirs w))
    else (Raised ValueError, w).

(** [with open(path, 'w') as f: json.dump(d, f)]. *)
Definition json_dump (d : list (string * Z)) (path : string) : M unit :=
  fun w => (Ok tt, mk_world (files_written w ++ [(path, Text (json_dumps d))]) (stdout w) (dirs w)).

(** [nib.load(f)], with the data of the image. *)
Definition load (h : host) (f : string) : M (ndarray F64.float) :=
  lift match nib_load h f with
       | Some a => Ok a
       | None => Raised FileNotFoundError
       end.

(** Equality of two shapes. *)
Fixpoint tuple_eqb (s t : list nat) : bool :=
  match s, t with
  | [], [] => true
  | x :: s', y :: t' => (x =? y) && tuple_eqb s' t'
  | _, _ => false
  end.

Definition input_data_path : string := "/opt/ml/processing/input".
Definition output_data_path : string := "/opt/ml/processing/output".

(** ** Directories

    [os.path.exists] and [os.makedirs] are library functions; they are
    modelled from their documentation, for a file system in which the
    script may create directories and in which a path is written in one
    way only (no ["."] or [".."] component, no doubled or trailing
    ['/']). *)

(** The paths above [p], outermost first: ["/a"] and ["/a/b"] for
    ["/a/b/c"]. *)
Definition ancestors (p : string) : list string :=
  let cs := split "/" p in
  filter (fun q => negb (String.eqb q "") && negb (endswith_char "/" q))
    (map (fun k => join "/" (firstn k cs)) (seq 1 (List.length cs - 1))).

(** The root, however many slashes spell it. *)
Fixpoint all_slashes (p : string) : bool :=
  match p with
  | EmptyString => true
  | String c p' => Ascii.eqb c "/" && all_slashes p'
  end.

(** [os.path.exists(p)], for a directory: the empty path names nothing,
    the root always exists. *)
Definition path_exists (p : string) (w : world) : bool :=
  negb (String.eqb p "")
  && (all_slashes p || existsb (String.eqb p) (dirs w)).

(** [os.makedirs(name)]: the leaf directory is created, and before it
    every directory above it that does not exist yet. The empty path is
    refused with [FileNotFoundError], a leaf that exists with
    [FileExistsError]. *)
Definition makedirs (name : string) : M unit :=
  fun w =>
    if String.eqb name "" then (Raised FileNotFoundError, w)
    else if path_exists name w then (Raised FileExistsError, w)
    else (Ok tt,
          mk_world (files_written w) (stdout w)
            (dirs w
             ++ filter (fun q => negb (path_exists q w)) (ancestors name)
             ++ [name])).

Definition create_dir_if_not_exist (d : string) : M unit :=
  fun w =>
    if negb (path_exists d w) then makedirs d w
    else (Ok tt, w).

(** [a.squeeze()[np.arange(1, nii.shape[0], 2), :, :]], for the data [a] of
    the volume or of its mask; the bound is the first axis of the volume
    [nii] in both uses. *)
Definition select_odd (nii a : ndarray F64.float) : outcome (ndarray F64.float) :=
  obind (index (shape nii) 0) (fun d => take0 (arange 1 d 2) (squeeze a)).

(** [x / m * 255], on one element. *)
Definition rescale (m x : F64.float) : F64.float :=
  F64.mul (F64.div x m) F64.f255.

(** [mris / mris.max() * 255]. *)
Definition normalise (mris : ndarray F64.float) : outcome (ndarray F64.float) :=
  obind (amax mris) (fun m => Ok (amap (rescale m) mris)).

(** ["_".join(os.path.basename(f).split('.')[0].split('_')[:8]) + "_%i.png" % i]. *)
Definition new_fname (f : string) (i : nat) : outcome string :=
  obind (index (split "." (basename f)) 0) (fun stem =>
    Ok (join "_" (firstn 8 (split "_" stem)) ++ ("_" ++ str_of_nat i ++ ".png"))%string).

(** [np.rot90(a[i]).astype(np.uint8)]. *)
Definition rot_slice (a : ndarray F64.float) (i : nat) : outcome (ndarray Z) :=
  obind (obind (get0 a i) rot90) (fun r => Ok (astype_uint8 r)).

(** The body of the inner loop of [process_mris]. *)
Definition save_slice (f target_dir mask_dir : string)
    (mris segmentations : ndarray F64.float) (i : nat) : M unit :=
  fname <- lift (new_fname f i) ;;
  mri_rotate <- lift (rot_slice mris i) ;;
  segmentation_rotate <- lift (rot_slice segmentations i) ;;
  imsave (path_join target_dir [fname]) mri_rotate ;;
  imsave (path_join mask_dir [fname]) segmentation_rotate.

(** The body of the outer loop of [process_mris], for the volume [f] at
    position [idx]. *)
Definition process_pair (h : host) (masks : list string) (target_dir mask_dir : string)
    (idx_f : nat * string) : M unit :=
  let idx := fst idx_f in
  let f := snd idx_f in
  nii <- load h f ;;
  mris <- lift (select_odd nii nii) ;;
  mris <- lift (normalise mris) ;;
  m <- lift (index masks idx) ;;
  nii_mask <- load h m ;;
  segmentations <- lift (select_odd nii nii_mask) ;;
  if negb (tuple_eqb (shape nii) (shape nii_mask)) then
    print ("Dimension of image and mask do not match. "
           ++ str_of_tuple (shape nii) ++ " " ++ str_of_tuple (shape nii_mask))%string
  else
    num_slices <- lift (index (shape mris) 0) ;;
    for_each (seq 0 num_slices) (save_slice f target_dir mask_dir mris segmentations).

Definition process_mris (h : host) (images masks : list string)
    (target_dir mask_dir : string) : M unit :=
  for_each (enumerate images) (process_pair h masks target_dir mask_dir).

(** ** The split

    [sklearn.model_selection.train_test_split] is a library function; its
    code is not part of the script. It is modelled here from its published
    behaviour for two lists, a fractional [test_size] and an integer
    [random_state]: the lists must have one length [n]; the test set gets
    [ceil(test_size * n)] elements and the training set the other ones; an
    empty training set is refused with [ValueError]; the first elements of
    the generator's permutation of [0 .. n-1] index the test set, the ones
    after them the training set, and both lists are indexed with the same
    positions. The fraction is given as a pair [(p, q)] for [p / q]. *)
Definition n_test_samples (test_size : nat * nat) (n : nat) : nat :=
  (n * fst test_size + (snd test_size - 1)) / snd test_size.

Definition safe_indexing {A : Type} (l : list A) (ind : list nat) : outcome (list A) :=
  list_comp (index l) ind.

Definition train_test_split (h : host) (xs ys : list string)
    (test_size : nat * nat) (random_state : Z)
  : outcome (list string * list string * list string * list string) :=
  let n := List.length xs in
  if negb (List.length ys =? n) then Raised ValueError
  else
    let n_test := n_test_samples test_size n in
    let n_train := n - n_test in
    if n_train =? 0 then Raised ValueError
    else
      let p := rng_permutation h random_state n in
      let ind_test := firstn n_test p in
      let ind_train := firstn n_train (skipn n_test p) in
      obind (safe_indexing xs ind_train) (fun x_train =>
      obind (safe_indexing xs ind_test) (fun x_test =>
      obind (safe_indexing ys ind_train) (fun y_train =>
      obind (safe_indexing ys ind_test) (fun y_test =>
      Ok (x_train, x_test, y_train, y_test))))).

(** ** [main] *)

Definition image_pattern : string :=
  path_join input_data_path ["brain_mri"; "disc1"; "*"; "*"; "*"; "*"; "*t88_gfc.img"].

Definition mask_pattern (i : string) : string :=
  path_join input_data_path
    ["brain_mri"; "disc1"; i; "FSL_SEG"; (i ++ "_*_t88_masked_gfc_fseg.img")%string].

(** [[i.split('/')[-5] for i in images]]. *)
Definition subject_indices (images : list string) : outcome (list string) :=
  list_comp (fun i => index_neg (split "/" i) 5) images.

(** [[glob(...)[0] for i in indices]]. *)
Definition select_masks (h : host) (indices : list string) : outcome (list string) :=
  list_comp (fun i => index (glob h (mask_pattern i)) 0) indices.

Definition label_map : list (string * Z) := [("scale", 1%Z)].

Definition label_map_path : string :=
  path_join (path_join output_data_path ["label_map"]) ["train_label_map.json"].

Definition main (h : host) : M unit :=
  let images := glob h image_pattern in
  indices <- lift (subject_indices images) ;;
  masks <- lift (select_masks h indices) ;;
  sets <- lift (train_test_split h images masks (1, 5) 1984%Z) ;;
  let '(train_images, validation_images, train_masks, validation_masks) := sets in
  let train_dir := path_join output_data_path ["train"] in
  let validation_dir := path_join output_data_path ["validation"] in
  let train_mask_dir := path_join output_data_path ["train_annotation"] in
  let validation_mask_dir := path_join output_data_path ["validation_annotation"] in
  create_dir_if_not_exist train_dir ;;
  create_dir_if_not_exist validation_dir ;;
  create_dir_if_not_exist train_mask_dir ;;
  create_dir_if_not_exist validation_mask_dir ;;
  process_mris h train_images train_masks train_dir train_mask_dir ;;
  process_mris h validation_images validation_masks validation_dir validation_mask_dir ;;
  let label_dir := path_join output_data_path ["label_map"] in
  create_dir_if_not_exist label_dir ;;
  json_dump label_map (path_join label_dir ["train_label_map.json"]).

(** The world before the script runs, on a machine that has none of the
    directories yet. *)
Definition initial_world : world := mk_world [] [] [].

(* ================================================================== *)
(** * Notions used in the statements *)
(* ================================================================== *)

(** The character [c] occurs in [s]. *)
Fixpoint occurs (c : ascii) (s : string) : bool :=
  match s with
  | EmptyString => false
  | String x s' => Ascii.eqb x c || occurs c s'
  end.

(** A volume, as the glossary describes it: an array with as many elements
    as its shape announces, no empty axis, and three axes once the axes of
    length one are squeezed out. *)
Definition is_volume (a : ndarray F64.float) : bool :=
  (List.length (data a) =? size (shape a))
  && forallb (fun d => 0 <? d) (shape a)
  && (List.length (squeeze_shape (shape a)) =? 3).

(** The odd indices of the range [[1, d)], in the words of the
    specification. *)
Definition odd_indices (d : nat) : list nat :=
  filter Nat.odd (seq 1 (d - 1)).

(** The pixel values a written file holds. *)
Definition pixels (c : content) : list Z :=
  match c with
  | Png a => data a
  | Text _ => []
  end.

(** The largest value of a list of pixels (pixels are not negative). *)
Definition max_pixel (l : list Z) : Z := fold_right Z.max 0%Z l.

(** The files of [imgs] and [segs] in the order the inner loop writes them:
    the image of a slice, then its mask. *)
Fixpoint interleave {A : Type} (imgs segs : list A) : list A :=
  match imgs, segs with
  | x :: imgs', y :: segs' => x :: y :: interleave imgs' segs'
  | _, _ => []
  end.

(** The value of an expression that does not raise. *)
Definition value_or {A : Type} (d : A) (o : outcome A) : A :=
  match o with
  | Ok a => a
  | Raised _ => d
  end.

(** The world [w] after the files [ws] were written. *)
Definition wrote (w : world) (ws : list (string * content)) : world :=
  mk_world (files_written w ++ ws) (stdout w) (dirs w).

(** The literal text of the label map. *)
Definition scale_one_text : string :=
  ("{" ++ dquote ++ "scale" ++ dquote ++ ": 1}")%string.

(* ================================================================== *)
(** * Example inputs *)
(* ================================================================== *)

(** Small volumes and a host that serves them, for the concrete runs
    below. File names follow the data set the script was written for. *)

Definition fl (z : Z) : F64.float := F64.of_Z z.

Definition subject_image (s : string) : string :=
  ("/opt/ml/processing/input/brain_mri/disc1/" ++ s
   ++ "/PROCESSED/MPRAGE/T88_111/" ++ s ++ "_mpr_n4_anon_111_t88_gfc.img")%string.

Definition subject_mask (s : string) : string :=
  ("/opt/ml/processing/input/brain_mri/disc1/" ++ s
   ++ "/FSL_SEG/" ++ s ++ "_mpr_n4_anon_111_t88_masked_gfc_fseg.img")%string.

Fixpoint lookup {V : Type} (k : string) (l : list (string * V)) : option V :=
  match l with
  | [] => None
  | (k', v) :: l' => if String.eqb k k' then Some v else lookup k l'
  end.

(** A host given by tables: the volumes found, the answer to each mask
    pattern, and the content of each file. Its generator draws the
    identity permutation. *)
Definition table_host (images : list string)
    (mask_matches : list (string * list string))
    (files : list (string * ndarray F64.float)) : host :=
  mk_host
    (fun p => if String.eqb p image_pattern then images
              else match lookup p mask_matches with
                   | Some l => l
                   | None => []
                   end)
    (fun f => lookup f files)
    (fun _ n => seq 0 n).

(** A 4 x 2 x 2 volume stored with a trailing axis of length one, and its
    mask. *)
Definition vol_plain : ndarray F64.float :=
  mk_ndarray [4; 2; 2; 1]
    (map fl [1; 2; 3; 4;  5; 6; 7; 8;  9; 10; 11; 12;  13; 14; 15; 16]%Z).

Definition mask_plain : ndarray F64.float :=
  mk_ndarray [4; 2; 2; 1]
    (map fl [0; 0; 0; 0;  0; 1; 2; 3;  0; 0; 0; 0;  3; 2; 1; 0]%Z).

(** A 2 x 2 x 2 volume whose slice 0 is bright and whose slice 1, the only
    odd one, is zero, and a mask of that shape. *)
Definition vol_dark_odd : ndarray F64.float :=
  mk_ndarray [2; 2; 2] (map fl [5; 5; 5; 5;  0; 0; 0; 0]%Z).

Definition mask_small : ndarray F64.float :=
  mk_ndarray [2; 2; 2] (map fl [0; 0; 0; 0;  0; 1; 2; 3]%Z).

(** A 4 x 2 x 2 volume; [mask_small] is too short a mask for it. *)
Definition vol_four : ndarray F64.float :=
  mk_ndarray [4; 2; 2]
    (map fl [1; 2; 3; 4;  5; 6; 7; 8;  9; 10; 11; 12;  13; 14; 15; 16]%Z).

(** A 4 x 2 x 2 mask with one more slice pair than [vol_dark_odd]. *)
Definition mask_four : ndarray F64.float :=
  mk_ndarray [4; 2; 2]
    (map fl [0; 0; 0; 0;  0; 1; 2; 3;  0; 0; 0; 0;  3; 2; 1; 0]%Z).

Definition s1 : string := "OAS1_0001_MR1".
Definition s2 : string := "OAS1_0002_MR1".

(** Two subjects with a well-formed volume and mask each. *)
Definition host_two : host :=
  table_host
    [subject_image s1; subject_image s2]
    [(mask_pattern s1, [subject_mask s1]);
     (mask_pattern s2, [subject_mask s2; subject_mask s1])]
    [(subject_image s1, vol_plain); (subject_mask s1, mask_plain);
     (subject_image s2, vol_dark_odd); (subject_mask s2, mask_small)].

(** The first subject has a mask shorter than its volume. *)
Definition host_short_mask : host :=
  table_host
    [subject_image s1; subject_image s2]
    [(mask_pattern s1, [subject_mask s1]);
     (mask_pattern s2, [subject_mask s2])]
    [(subject_image s1, vol_four); (subject_mask s1, mask_small);
     (subject_image s2, vol_plain); (subject_mask s2, mask_plain)].

(** The first subject has a mask longer than its volume. *)
Definition host_long_mask : host :=
  table_host
    [subject_image s1; subject_image s2]
    [(mask_pattern s1, [subject_mask s1]);
     (mask_pattern s2, [subject_mask s2])]
    [(subject_image s1, vol_dark_odd); (subject_mask s1, mask_four);
     (subject_image s2, vol_plain); (subject_mask s2, mask_plain)].

(** The second subject has no mask file. *)
Definition host_missing_mask : host :=
  table_host
    [subject_image s1; subject_image s2]
    [(mask_pattern s1, [subject_mask s1])]
    [(subject_image s1, vol_plain); (subject_mask s1, mask_plain);
     (subject_image s2, vol_dark_odd)].

(** Seven subjects, and one, for the split. *)
Definition seven_subjects : list string :=
  ["OAS1_0001_MR1"; "OAS1_0002_MR1"; "OAS1_0003_MR1"; "OAS1_0004_MR1";
   "OAS1_0005_MR1"; "OAS1_0006_MR1"; "OAS1_0007_MR1"].

(** The sizes of the training and of the validation set of a split. *)
Definition split_sizes
    (r : outcome (list string * list string * list string * list string))
  : outcome (nat * nat) :=
  obind r (fun sets =>
    let '(x_train, x_test, _, _) := sets in
    Ok (List.length x_train, List.length x_test)).

(* ================================================================== *)
(** * Notions used in the further properties *)
(* ================================================================== *)

(** A pixel of an 8-bit image. *)
Definition is_byte (p : Z) : Prop := (0 <= p <= 255)%Z.

(** What a computation does to the world, whatever the world it starts in
    and however it ends: it appends files that satisfy [P], lines that
    satisfy [Q] and directories that satisfy [D], and changes nothing
    else. *)
Definition effect (P : string * content -> Prop) (Q D : string -> Prop)
    {A : Type} (c : M A) : Prop :=
  forall w, exists ws lines ds,
    snd (c w)
    = mk_world (files_written w ++ ws) (stdout w ++ lines) (dirs w ++ ds)
    /\ Forall P ws /\ Forall Q lines /\ Forall D ds.

(** A file of a slice: an image of bytes, in one of the two directories,
    under the name [new_fname] gives to a slice of one of the volumes. *)
Definition slice_file (images : list string) (target_dir mask_dir : string)
    (pc : string * content) : Prop :=
  exists f i name a,
    In f images
    /\ new_fname f i = Ok name
    /\ (fst pc = path_join target_dir [name] \/ fst pc = path_join mask_dir [name])
    /\ snd pc = Png a
    /\ Forall is_byte (data a).

(** The line printed for a pair whose shapes differ. *)
Definition mismatch_line (s : string) : Prop :=
  exists sh1 sh2,
    s = ("Dimension of image and mask do not match. "
         ++ str_of_tuple sh1 ++ " " ++ str_of_tuple sh2)%string.

Definition no_directory (d : string) : Prop := False.

(** The number of slices [process_mris] selects from the volume file
    [f]. *)
Definition slices_of (h : host) (f : string) : nat :=
  match nib_load h f with
  | Some nii => hd 0 (shape nii) / 2
  | None => 0
  end.

(** The volume [f] at position [idx] has a mask at that position, both
    load as volumes of one shape, and the first axis has two slices at
    least. *)
Definition good_pair (h : host) (masks : list string) (idx : nat) (f : string) : Prop :=
  exists m nii nii_mask,
    nib_load h f = Some nii
    /\ index masks idx = Ok m
    /\ nib_load h m = Some nii_mask
    /\ is_volume nii = true
    /\ is_volume nii_mask = true
    /\ shape nii_mask = shape nii
    /\ 2 <= hd 0 (shape nii).

(** The part of [main] that comes before anything is created or written:
    the volumes found, their subjects, their masks and the split. *)
Definition discovery (h : host)
  : outcome (list string * list string * list string * list string) :=
  obind (subject_indices (glob h image_pattern)) (fun indices =>
  obind (select_masks h indices) (fun masks =>
  train_test_split h (glob h image_pattern) masks (1, 5) 1984%Z)).

(** The directories [main] creates. *)
Definition slice_dirs : list string :=
  ["/opt/ml/processing/output/train";
   "/opt/ml/processing/output/validation";
   "/opt/ml/processing/output/train_annotation";
   "/opt/ml/processing/output/validation_annotation"].

Definition output_dirs : list string :=
  slice_dirs ++ ["/opt/ml/processing/output/label_map"].

(** The path [q] lies above the path [d]: [d] goes on after [q] with a
    ['/']. *)
Definition above (q d : string) : Prop :=
  q <> ""
  /\ endswith_char "/" q = false
  /\ exists rest, d = (q ++ "/" ++ rest)%string.

(** The directories [main] can create: the ones above the output root, the
    output root, and the five directories inside it. *)
Definition created_dirs : list string :=
  ["/opt"; "/opt/ml"; "/opt/ml/processing"; "/opt/ml/processing/output"]
  ++ output_dirs.

(** A file [main] writes: an image of bytes directly inside one of the
    four slice directories, or the label map. *)
Definition output_file (pc : string * content) : Prop :=
  (exists dir name a,
     In dir slice_dirs
     /\ occurs "/" name = false
     /\ fst pc = (dir ++ "/" ++ name)%string
     /\ snd pc = Png a
     /\ Forall is_byte (data a))
  \/ pc = ("/opt/ml/processing/output/label_map/train_label_map.json",
           Text scale_one_text).

(** A 4 x 1 x 2 array: two axes are left after the squeeze. *)
Definition vol_thin : ndarray F64.float :=
  mk_ndarray [4; 1; 2] (map fl [1; 2; 3; 4; 5; 6; 7; 8]%Z).

(** A 1 x 2 x 2 x 2 array: three axes after the squeeze, but a first axis
    of length one. *)
Definition vol_single : ndarray F64.float :=
  mk_ndarray [1; 2; 2; 2] (map fl [1; 2; 3; 4; 5; 6; 7; 8]%Z).

(** A 2 x 2 x 2 volume with one NaN in its odd slice. *)
Definition vol_nan : ndarray F64.float :=
  mk_ndarray [2; 2; 2] [fl 1; fl 2; fl 3; fl 4; fl 5; S754_nan; fl 7; fl 8].

Definition s3 : string := "OAS1_0003_MR1".
Definition s4 : string := "OAS1_0004_MR1".

(** Subjects with unusual files: a thin array, a single slice, a file that
    cannot be loaded. *)
Definition host_edge : host :=
  table_host
    [subject_image s1; subject_image s2; subject_image s3; subject_image s4]
    [(mask_pattern s1, [subject_mask s1]);
     (mask_pattern s2, [subject_mask s2]);
     (mask_pattern s3, [subject_mask s3]);
     (mask_pattern s4, [subject_mask s4])]
    [(subject_image s1, vol_thin); (subject_mask s1, vol_thin);
     (subject_image s2, vol_single); (subject_mask s2, vol_single);
     (subject_image s4, vol_plain); (subject_mask s4, mask_plain)].

(** No volume at all, and a single subject. *)
Definition host_empty : host := table_host [] [] [].

Definition host_one : host :=
  table_host
    [subject_image s1]
    [(mask_pattern s1, [subject_mask s1])]
    [(subject_image s1, vol_plain); (subject_mask s1, mask_plain)].

(* ================================================================== *)
(** * Strings: [split] and [join] *)
(* ================================================================== *)

Lemma string_app_assoc (a b c : string) :
  ((a ++ b) ++ c = a ++ (b ++ c))%string.
Proof. induction a as [|x a IH]; cbn; [reflexivity|now rewrite IH]. Qed.

Section Strings.

Variable sep : ascii.

Lemma split_not_nil (s : string) : split sep s <> [].
Proof.
  destruct s as [|c s]; simpl; [discriminate|].
  destruct (Ascii.eqb c sep); [discriminate|].
  destruct (split sep s); discriminate.
Qed.

Lemma join_cons_cons (d x y : string) (l : list string) :
  join d (x :: y :: l) = (x ++ d ++ join d (y :: l))%string.
Proof. reflexivity. Qed.

(** Joining the pieces of a split with the separator gives the string
    back. *)
Lemma join_split (s : string) :
  join (String sep EmptyString) (split sep s) = s.
Proof.
  induction s as [|c s IH]; [reflexivity|].
  cbn [split].
  pose proof (split_not_nil s) as Hnil.
  destruct (Ascii.eqb_spec c sep) as [->|Hne];
    destruct (split sep s) as [|t ts]; try contradiction.
  - rewrite join_cons_cons, IH. reflexivity.
  - destruct ts as [|u ts].
    + cbn in IH |- *. now rewrite IH.
    + rewrite join_cons_cons. rewrite join_cons_cons in IH.
      cbn [append] in IH |- *. now rewrite IH.
Qed.

(** No piece of a split holds the separator. *)
Lemma split_no_sep (s : string) :
  Forall (fun t => occurs sep t = false) (split sep s).
Proof.
  induction s as [|c s IH]; simpl.
  - constructor; [reflexivity|constructor].
  - destruct (Ascii.eqb c sep) eqn:E.
    + constructor; [reflexivity|assumption].
    + destruct (split sep s) as [|t ts].
      * constructor; [simpl; now rewrite E|constructor].
      * inversion IH; subst. constructor; [simpl; now rewrite E|assumption].
Qed.

(** The first piece of a split is the part of the string before the first
    separator. *)
Lemma split_head (s : string) :
  exists stem rest,
    split sep s = stem :: rest
    /\ occurs sep stem = false
    /\ (s = stem /\ rest = [] \/
        exists tail, s = (stem ++ String sep tail)%string).
Proof.
  pose proof (join_split s) as J.
  pose proof (split_no_sep s) as F.
  destruct (split sep s) as [|stem rest] eqn:E; [now destruct (split_not_nil s)|].
  exists stem, rest. inversion F as [|? ? Hstem Hrest].
  split; [reflexivity|]. split; [assumption|].
  destruct rest as [|y r].
  - left. cbn in J. now split.
  - right. rewrite join_cons_cons in J. cbn [append] in J.
    exists (join (String sep EmptyString) (y :: r)). now rewrite J.
Qed.

(** The last piece of a split is the part of the string after the last
    separator. *)
Lemma split_last (s : string) :
  occurs sep (last (split sep s) EmptyString) = false
  /\ (s = last (split sep s) EmptyString \/
      exists front, s = (front ++ String sep (last (split sep s) EmptyString))%string).
Proof.
  pose proof (join_split s) as J.
  pose proof (split_no_sep s) as F.
  pose proof (split_not_nil s) as N.
  revert J F N. generalize (split sep s) as l. intros l. revert s.
  induction l as [|x l IH]; intros s J F N; [contradiction|].
  inversion F as [|? ? Hx Hl].
  destruct l as [|y l].
  - cbn in J |- *. rewrite <- J. split; [assumption|now left].
  - rewrite join_cons_cons in J.
    destruct (IH (join (String sep EmptyString) (y :: l)) eq_refl Hl) as [Ho Hs];
      [discriminate|].
    change (last (x :: y :: l) EmptyString) with (last (y :: l) EmptyString).
    split; [assumption|]. right.
    destruct Hs as [Hs|[front Hs]].
    + exists x. rewrite <- Hs. now rewrite <- J.
    + exists (x ++ String sep front)%string.
      rewrite <- J. rewrite Hs at 1.
      now rewrite string_app_assoc.
Qed.

End Strings.

(* ================================================================== *)
(** * Arrays: blocks of the row-major data *)
(* ================================================================== *)

Section Blocks.

Context {A : Type}.

Lemma length_block (r k : nat) (l : list A) :
  (k + 1) * r <= List.length l -> List.length (block r k l) = r.
Proof.
  intros H. unfold block. rewrite length_firstn, length_skipn. nia.
Qed.

Lemma block_map {B : Type} (f : A -> B) (r k : nat) (l : list A) :
  block r k (map f l) = map f (block r k l).
Proof. unfold block. now rewrite skipn_map, firstn_map. Qed.

(** The blocks of a concatenation of runs of length [r] are the runs. *)
Lemma block_flat_map (r : nat) (f : nat -> list A) (idx : list nat) :
  (forall k, In k idx -> List.length (f k) = r) ->
  forall i k, nth_error idx i = Some k -> block r i (flat_map f idx) = f k.
Proof.
  induction idx as [|a idx IH]; intros Hlen i k Hi.
  - destruct i; discriminate.
  - cbn [flat_map]. unfold block.
    assert (Ha : List.length (f a) = r) by (apply Hlen; now left).
    destruct i as [|i]; cbn in Hi.
    + injection Hi as <-. cbn [Nat.mul skipn].
      rewrite firstn_app, firstn_all2 by lia.
      replace (r - List.length (f a)) with 0 by lia.
      cbn. apply app_nil_r.
    + rewrite skipn_app, skipn_all2 by (cbn; nia).
      replace (S i * r - List.length (f a)) with (i * r) by (cbn; nia).
      cbn [app]. apply IH; [|assumption].
      intros k' Hk'. apply Hlen. now right.
Qed.

Lemma length_flat_map_const (r : nat) (f : nat -> list A) (idx : list nat) :
  (forall k, In k idx -> List.length (f k) = r) ->
  List.length (flat_map f idx) = List.length idx * r.
Proof.
  induction idx as [|a idx IH]; intros Hlen; [reflexivity|].
  cbn [flat_map]. rewrite length_app, IH.
  - rewrite Hlen by now left. cbn. lia.
  - intros k Hk. apply Hlen. now right.
Qed.

(** A block of a block. *)
Lemma block_block (r m i j : nat) (l : list A) :
  j < m -> block r j (block (m * r) i l) = block r (i * m + j) l.
Proof.
  intros Hj. unfold block.
  rewrite skipn_firstn_comm, firstn_firstn, skipn_skipn.
  replace (Nat.min r (m * r - j * r)) with r by nia.
  f_equal. f_equal. nia.
Qed.

(** The blocks of a table given row by row. *)
Lemma block_flat_map2 (r n m : nat) (F : nat -> nat -> list A) :
  (forall i j, i < n -> j < m -> List.length (F i j) = r) ->
  forall i j, i < n -> j < m ->
    block r (i * m + j)
      (flat_map (fun i => flat_map (fun j => F i j) (seq 0 m)) (seq 0 n))
    = F i j.
Proof.
  intros Hlen i j Hi Hj.
  rewrite <- block_block by assumption.
  rewrite (block_flat_map (m * r) _ (seq 0 n)) with (k := i).
  - apply block_flat_map.
    + intros k Hk. apply in_seq in Hk. apply Hlen; lia.
    + rewrite nth_error_seq. destruct (Nat.ltb_spec j m); [reflexivity|lia].
  - intros k Hk. apply in_seq in Hk.
    rewrite (length_flat_map_const r), length_seq; [reflexivity|].
    intros k' Hk'. apply in_seq in Hk'. apply Hlen; lia.
  - rewrite nth_error_seq. destruct (Nat.ltb_spec i n); [reflexivity|lia].
Qed.

(** Every element lies in one of the blocks. *)
Lemma In_block (r n : nat) (x : A) (l : list A) :
  List.length l = n * r -> In x l ->
  exists q, q < n /\ In x (block r q l).
Proof.
  revert l. induction n as [|n IH]; intros l Hlen Hx.
  - destruct l; [contradiction|discriminate].
  - rewrite <- (firstn_skipn r l) in Hx. apply in_app_or in Hx.
    destruct Hx as [Hx|Hx].
    + exists 0. split; [lia|]. unfold block. now cbn [Nat.mul skipn].
    + destruct (IH (skipn r l)) as [q [Hq Hin]]; [|assumption|].
      * rewrite length_skipn. cbn in Hlen. lia.
      * exists (S q). split; [lia|]. unfold block in *.
        rewrite skipn_skipn in Hin.
        replace (S q * r) with (q * r + r) by (cbn; lia). exact Hin.
Qed.

Lemma In_block_elim (r q : nat) (x : A) (l : list A) :
  In x (block r q l) -> In x l.
Proof.
  unfold block. intros H.
  rewrite <- (firstn_skipn (q * r) l). apply in_or_app. right.
  rewrite <- (firstn_skipn r (skipn (q * r) l)). apply in_or_app. now left.
Qed.

(** A block of length one is an element. *)
Lemma block_one (k : nat) (l : list A) :
  block 1 k l = match nth_error l k with Some x => [x] | None => [] end.
Proof.
  unfold block. rewrite Nat.mul_1_r.
  revert l. induction k as [|k IH]; intros [|x l]; cbn; try reflexivity.
  apply IH.
Qed.

End Blocks.

Lemma size_squeeze_shape (sh : list nat) :
  size (squeeze_shape sh) = size sh.
Proof.
  induction sh as [|d sh IH]; [reflexivity|].
  unfold squeeze_shape, size in *. cbn [filter].
  destruct (Nat.eqb_spec d 1) as [->|Hd]; cbn [negb fold_right]; rewrite IH; lia.
Qed.

(* ================================================================== *)
(** * The selected indices *)
(* ================================================================== *)

Lemma half_double (m : nat) : (2 * m) / 2 = m.
Proof. symmetry. apply (Nat.div_unique _ 2 m 0); lia. Qed.

Lemma half_double_succ (m : nat) : (2 * m + 1) / 2 = m.
Proof. symmetry. apply (Nat.div_unique _ 2 m 1); lia. Qed.

Lemma parity_split (d : nat) : d = 2 * (d / 2) \/ d = 2 * (d / 2) + 1.
Proof.
  pose proof (Nat.div2_odd d) as H. rewrite Nat.div2_div in H.
  destruct (Nat.odd d); cbn [Nat.b2n] in H; lia.
Qed.

(** [np.arange(1, d, 2)] is [1, 3, ..., 2 * (d / 2) - 1]. *)
Lemma arange_odd (d : nat) :
  arange 1 d 2 = map (fun k => 2 * k + 1) (seq 0 (d / 2)).
Proof.
  unfold arange.
  replace ((d - 1 + (2 - 1)) / 2) with (d / 2).
  - apply map_ext. intros k. lia.
  - destruct d as [|d]; [reflexivity|]. f_equal. lia.
Qed.

Lemma odd_double_succ (m : nat) : Nat.odd (2 * m + 1) = true.
Proof. apply Nat.odd_spec. now exists m. Qed.

Lemma odd_double (m : nat) : Nat.odd (2 * m) = false.
Proof.
  rewrite <- Nat.negb_even. apply negb_false_iff.
  apply Nat.even_spec. now exists m.
Qed.

Lemma odd_indices_halves (m : nat) :
  odd_indices (2 * m) = map (fun k => 2 * k + 1) (seq 0 m)
  /\ odd_indices (2 * m + 1) = map (fun k => 2 * k + 1) (seq 0 m).
Proof.
  unfold odd_indices. induction m as [|m [IH0 IH1]]; [now split|].
  assert (E : filter Nat.odd (seq 1 (2 * S m - 1)) =
              map (fun k => 2 * k + 1) (seq 0 (S m))).
  { replace (2 * S m - 1) with (S (2 * m)) by lia.
    rewrite !seq_S, filter_app, map_app. cbn [filter map].
    replace (1 + 2 * m) with (2 * m + 1) by lia.
    rewrite odd_double_succ. f_equal.
    replace (2 * m) with (2 * m + 1 - 1) by lia. exact IH1. }
  split; [exact E|].
  replace (2 * S m + 1 - 1) with (S (2 * S m - 1)) by lia.
  rewrite seq_S, filter_app, E. cbn [filter].
  replace (1 + (2 * S m - 1)) with (2 * S m) by lia.
  rewrite odd_double. apply app_nil_r.
Qed.

(** The indices the script selects are the odd indices of [[1, d)]. *)
Lemma arange_odd_indices (d : nat) : arange 1 d 2 = odd_indices d.
Proof.
  rewrite arange_odd.
  destruct (odd_indices_halves (d / 2)) as [H0 H1].
  destruct (parity_split d) as [E|E]; rewrite E at 2; symmetry; assumption.
Qed.

Lemma length_arange_odd (d : nat) : List.length (arange 1 d 2) = d / 2.
Proof. now rewrite arange_odd, length_map, length_seq. Qed.

Lemma nth_error_arange_odd (d i : nat) :
  i < d / 2 -> nth_error (arange 1 d 2) i = Some (2 * i + 1).
Proof.
  intros Hi. rewrite arange_odd, nth_error_map, nth_error_seq.
  destruct (Nat.ltb_spec i (d / 2)); [reflexivity|lia].
Qed.

Lemma arange_odd_bound (d k : nat) : In k (arange 1 d 2) -> k < d.
Proof.
  rewrite arange_odd. intros H. apply in_map_iff in H.
  destruct H as [i [<- Hi]]. apply in_seq in Hi.
  destruct (parity_split d); lia.
Qed.

(* ================================================================== *)
(** * Volumes and their slices *)
(* ================================================================== *)

Lemma tuple_eqb_refl (s : list nat) : tuple_eqb s s = true.
Proof. induction s as [|x s IH]; cbn; [reflexivity|]. now rewrite Nat.eqb_refl. Qed.

Lemma tuple_eqb_eq (s t : list nat) : tuple_eqb s t = true <-> s = t.
Proof.
  split; [|intros ->; apply tuple_eqb_refl].
  revert t. induction s as [|x s IH]; intros [|y t] H; cbn in H; try discriminate.
  - reflexivity.
  - apply andb_true_iff in H. destruct H as [Hx Hs].
    apply Nat.eqb_eq in Hx. f_equal; [assumption|now apply IH].
Qed.

(** The geometry of a volume: its first axis [d], and the shape
    [[d'; b; c]] of the squeezed array, where [d' = d] unless [d = 1]. *)
Lemma volume_geometry (a : ndarray F64.float) :
  is_volume a = true ->
  exists d t d' b c,
    shape a = d :: t /\ 0 < d
    /\ squeeze_shape (shape a) = [d'; b; c]
    /\ 0 < d' /\ 0 < b /\ 0 < c
    /\ List.length (data a) = d' * size [b; c]
    /\ (2 <= d -> d' = d).
Proof.
  unfold is_volume. intros H.
  apply andb_true_iff in H. destruct H as [H H3].
  apply andb_true_iff in H. destruct H as [Hlen Hpos].
  apply Nat.eqb_eq in Hlen, H3.
  assert (Hall : forall x, In x (squeeze_shape (shape a)) -> 0 < x).
  { intros x Hx. apply filter_In in Hx. destruct Hx as [Hx _].
    rewrite forallb_forall in Hpos. apply Nat.ltb_lt. now apply Hpos. }
  rewrite <- size_squeeze_shape in Hlen.
  destruct (shape a) as [|d t] eqn:Es; [discriminate|].
  assert (Hd : 0 < d).
  { rewrite forallb_forall in Hpos. apply Nat.ltb_lt. apply Hpos. now left. }
  destruct (squeeze_shape (d :: t)) as [|d' [|b [|c [|? ?]]]] eqn:Eq; try discriminate.
  exists d, t, d', b, c.
  repeat split; try assumption; try (apply Hall; cbn; tauto).
  intros H2. unfold squeeze_shape in Eq. cbn [filter] in Eq.
  destruct (Nat.eqb_spec d 1); [lia|]. cbn [negb] in Eq. congruence.
Qed.

Section Selection.

Variables nii a : ndarray F64.float.
Hypothesis Vnii : is_volume nii = true.
Hypothesis Va : is_volume a = true.
Hypothesis Hshape : shape a = shape nii.

(** A volume whose first axis has length one has no odd index: the
    selection is empty. *)
Lemma select_odd_flat :
  hd 0 (shape nii) < 2 ->
  exists rest, select_odd nii a = Ok (mk_ndarray (0 :: rest) []).
Proof.
  intros Hd.
  destruct (volume_geometry nii Vnii)
    as (d & t & d' & b & c & Es & Hd0 & Eq & _).
  rewrite Es in Hd. cbn in Hd. assert (d = 1) by lia. subst d.
  exists [b; c]. unfold select_odd, take0, squeeze. rewrite Es. cbn [index nth_error obind shape].
  rewrite Hshape, Es in *. rewrite Eq. reflexivity.
Qed.

(** Otherwise the selection holds the slices [1, 3, ...] of the squeezed
    array, and slice [i] of the selection is slice [2 * i + 1] of the
    array. *)
Lemma select_odd_slices :
  2 <= hd 0 (shape nii) ->
  exists b c sel,
    let d := hd 0 (shape nii) in
    0 < b /\ 0 < c
    /\ select_odd nii a = Ok sel
    /\ shape sel = [d / 2; b; c]
    /\ List.length (data sel) = d / 2 * size [b; c]
    /\ (forall x, In x (data sel) -> In x (data a))
    /\ forall i, i < d / 2 ->
         exists sl,
           get0 sel i = Ok sl
           /\ get0 (squeeze a) (2 * i + 1) = Ok sl
           /\ shape sl = [b; c]
           /\ List.length (data sl) = size [b; c].
Proof.
  intros Hd.
  destruct (volume_geometry a Va)
    as (d & t & d' & b & c & Es & Hd0 & Eq & _ & Hb & Hc & Hlen & Hdd).
  rewrite Hshape in Es, Eq. rewrite Es in Hd |- *. cbn [hd] in Hd |- *.
  specialize (Hdd Hd). subst d'.
  assert (Hblk : forall k, k < d ->
            List.length (block (size [b; c]) k (data a)) = size [b; c]).
  { intros k Hk. apply length_block. rewrite Hlen. nia. }
  exists b, c.
  exists (mk_ndarray [d / 2; b; c]
            (flat_map (fun k => block (size [b; c]) k (data a)) (arange 1 d 2))).
  cbn zeta. repeat split; try assumption.
  - unfold select_odd, take0, squeeze. rewrite Es.
    cbn [index nth_error obind shape data]. rewrite Hshape, Eq.
    replace (forallb (fun k => k <? d) (arange 1 d 2)) with true.
    + now rewrite length_arange_odd.
    + symmetry. apply forallb_forall. intros k Hk. apply Nat.ltb_lt.
      now apply arange_odd_bound.
  - cbn [data]. rewrite (length_flat_map_const (size [b; c])).
    + now rewrite length_arange_odd.
    + intros k Hk. apply Hblk. now apply arange_odd_bound.
  - cbn [data]. intros x Hx. apply in_flat_map in Hx.
    destruct Hx as [k [_ Hx]]. now apply In_block_elim in Hx.
  - intros i Hi.
    exists (mk_ndarray [b; c] (block (size [b; c]) (2 * i + 1) (data a))).
    assert (Hk : 2 * i + 1 < d) by (destruct (parity_split d); lia).
    unfold get0, squeeze. cbn [shape data]. rewrite Hshape, Eq.
    destruct (Nat.ltb_spec i (d / 2)); [|lia].
    destruct (Nat.ltb_spec (2 * i + 1) d); [|lia].
    repeat split.
    + f_equal. f_equal.
      apply (block_flat_map (size [b; c]) (fun k => block (size [b; c]) k (data a))).
      * intros k Hk'. apply Hblk. now apply arange_odd_bound.
      * now apply nth_error_arange_odd.
    + cbn [data]. now apply Hblk.
Qed.

End Selection.

(* ================================================================== *)
(** * Binary64: the facts the normalisation rests on *)
(* ================================================================== *)

Lemma div_eucl_exact (a b : Z) :
  (b <> 0)%Z -> Z.div_eucl (a * b) b = (a, 0%Z).
Proof.
  intros Hb.
  pose proof (Z.div_mul a b Hb) as Hq.
  pose proof (Z.mod_mul a b Hb) as Hr.
  unfold Z.div, Z.modulo in Hq, Hr.
  destruct (Z.div_eucl (a * b) b) as [q r]. cbn in Hq, Hr. now subst.
Qed.

(** A finite float divided by itself is exactly one. *)
Lemma div_self (s : bool) (m : positive) (e : Z) :
  F64.div (S754_finite s m e) (S754_finite s m e) = F64.one.
Proof.
  unfold F64.div, SFdiv, SFdiv_core_binary.
  rewrite !Z.sub_diag.
  change (fexp F64.prec F64.emax 0) with (-53)%Z.
  change (Z.min (-53) 0) with (-53)%Z.
  change (0 - -53)%Z with 53%Z.
  rewrite Z.shiftl_mul_pow2 by discriminate.
  rewrite Z.mul_comm, Z.mul_comm.
  rewrite (Z.mul_comm (Z.pos m)), div_eucl_exact by discriminate.
  rewrite xorb_nilpotent.
  unfold new_location, new_location_even, new_location_odd.
  destruct (Z.even (Z.pos m)); reflexivity.
Qed.

(** The largest selected value is rescaled to exactly 255. *)
Lemma rescale_self (mx : F64.float) :
  F64.is_finite mx = true -> F64.is_zero mx = false ->
  rescale mx mx = F64.f255.
Proof.
  destruct mx as [s|s| |s m e]; try discriminate. intros _ _.
  unfold rescale. rewrite div_self. reflexivity.
Qed.

Lemma to_uint8_255 : F64.to_uint8 F64.f255 = 255%Z.
Proof. reflexivity. Qed.

(** A converted element is a byte. *)
Lemma to_uint8_range (x : F64.float) : (0 <= F64.to_uint8 x <= 255)%Z.
Proof.
  unfold F64.to_uint8.
  pose proof (Z.mod_pos_bound (F64.to_int32 x) 256). lia.
Qed.

(** Inside the range of a byte the conversion only drops the fraction. *)
Lemma to_uint8_truncates (x : F64.float) (z : Z) :
  F64.truncate x = Some z -> (0 <= z < 256)%Z -> F64.to_uint8 x = z.
Proof.
  intros H Hz. unfold F64.to_uint8, F64.to_int32. rewrite H.
  destruct (Z.leb_spec (-2147483648) z); [|lia].
  destruct (Z.ltb_spec z 2147483648); [|lia].
  cbn [andb]. now apply Z.mod_small.
Qed.

(** A value that does not fit a 32-bit word is converted to 0. *)
Lemma to_uint8_overflow (x : F64.float) (z : Z) :
  F64.truncate x = Some z -> (z < -2147483648 \/ 2147483648 <= z)%Z ->
  F64.to_uint8 x = 0%Z.
Proof.
  intros H Hz. unfold F64.to_uint8, F64.to_int32. rewrite H.
  destruct (Z.leb_spec (-2147483648) z); destruct (Z.ltb_spec z 2147483648);
    cbn [andb]; try reflexivity; lia.
Qed.

Lemma maximum_cases (x y : F64.float) :
  F64.maximum x y = x \/ F64.maximum x y = y.
Proof. unfold F64.maximum. destruct (_ || _)%bool; auto. Qed.

Lemma fold_maximum_In (xs : list F64.float) (x : F64.float) :
  In (fold_left F64.maximum xs x) (x :: xs).
Proof.
  revert x. induction xs as [|y xs IH]; intros x; [now left|].
  cbn [fold_left]. destruct (IH (F64.maximum x y)) as [H|H].
  - rewrite <- H. destruct (maximum_cases x y) as [-> | ->]; cbn; auto.
  - right. now right.
Qed.

(** The maximum of an array is one of its elements; only an empty array
    has none. *)
Lemma amax_In (a : ndarray F64.float) :
  data a <> [] -> exists m, amax a = Ok m /\ In m (data a).
Proof.
  unfold amax. destruct (data a) as [|x xs]; [contradiction|]. intros _.
  eexists. split; [reflexivity|]. apply fold_maximum_In.
Qed.

Lemma amax_empty (a : ndarray F64.float) :
  data a = [] -> amax a = Raised ValueError.
Proof. unfold amax. now intros ->. Qed.

(* ================================================================== *)
(** * The rotation of a two-dimensional slice *)
(* ================================================================== *)

Section Rotation.

Context {A : Type}.

Lemma block_one_nth (k : nat) (l : list A) (x : A) :
  block 1 k l = [x] <-> nth_error l k = Some x.
Proof.
  rewrite block_one. destruct (nth_error l k); split; intros H;
    try discriminate; congruence.
Qed.

Lemma block_one_some (k : nat) (l : list A) :
  k < List.length l -> exists x, nth_error l k = Some x /\ block 1 k l = [x].
Proof.
  intros Hk. destruct (nth_error l k) as [x|] eqn:E.
  - exists x. split; [reflexivity|]. now apply block_one_nth.
  - apply nth_error_None in E. lia.
Qed.

Variables (h w : nat) (dat : list A).
Hypothesis Hlen : List.length dat = h * w.

(** [rot90] of an [h] by [w] slice is a [w] by [h] slice whose element at
    row [i], column [j] is the element of the slice at row [j], column
    [w - 1 - i]: the last column becomes the first row, which is a quarter
    turn against the clock. *)
Lemma rot90_quarter_turn :
  exists r,
    rot90 (mk_ndarray [h; w] dat) = Ok r
    /\ shape r = [w; h]
    /\ forall i j, i < w -> j < h ->
         exists x,
           at2 r i j = Some x
           /\ at2 (mk_ndarray [h; w] dat) j (w - 1 - i) = Some x.
Proof.
  eexists. split; [reflexivity|]. split; [reflexivity|].
  intros i j Hi Hj.
  assert (Hsrc : (j * w + (w - 1 - i)) < List.length dat) by nia.
  destruct (block_one_some _ _ Hsrc) as [x [Hx Hbx]].
  exists x. unfold at2. cbn [shape data size fold_right].
  destruct (Nat.ltb_spec i w); [|lia]. destruct (Nat.ltb_spec j h); [|lia].
  destruct (Nat.ltb_spec (w - 1 - i) w); [|lia]. cbn [andb].
  split; [|exact Hx].
  apply block_one_nth.
  assert (Hflip : forall j' k, j' < h -> k < w ->
            block 1 (j' * w + k)
              (flat_map (fun j0 => flat_map (fun c => block 1 (j0 * w + (w - 1 - c)) dat)
                                   (seq 0 w)) (seq 0 h))
            = block 1 (j' * w + (w - 1 - k)) dat).
  { intros j' k Hj' Hk.
    apply (block_flat_map2 1 h w (fun j0 c => block 1 (j0 * w + (w - 1 - c)) dat));
      try assumption.
    intros a b Ha Hb. apply length_block. nia. }
  rewrite (block_flat_map2 1 w h
             (fun i0 j0 => block 1 (j0 * w + i0)
                (flat_map (fun j1 => flat_map (fun c => block 1 (j1 * w + (w - 1 - c)) dat)
                                     (seq 0 w)) (seq 0 h)))); try assumption.
  - rewrite Hflip by assumption. exact Hbx.
  - intros a b Ha Hb. rewrite Hflip by assumption. apply length_block. nia.
Qed.

(** The rotation moves the elements and loses none. *)
Lemma rot90_keeps (x : A) :
  In x dat ->
  exists r, rot90 (mk_ndarray [h; w] dat) = Ok r /\ In x (data r).
Proof.
  intros Hx.
  destruct rot90_quarter_turn as (r & Hr & Hs & Hat).
  exists r. split; [assumption|].
  apply In_nth_error in Hx. destruct Hx as [p Hp].
  assert (Hpl : p < h * w).
  { rewrite <- Hlen. apply nth_error_Some. congruence. }
  assert (Hw : w <> 0) by nia.
  pose proof (Nat.div_mod_eq p w) as Hdm.
  pose proof (Nat.mod_upper_bound p w Hw) as Hm.
  assert (Hq : p / w < h) by (apply Nat.Div0.div_lt_upper_bound; nia).
  destruct (Hat (w - 1 - p mod w) (p / w)) as (y & Hy & Hy'); [lia|assumption|].
  replace (w - 1 - (w - 1 - p mod w)) with (p mod w) in Hy' by lia.
  unfold at2 in Hy'. cbn [shape data] in Hy'.
  destruct (Nat.ltb_spec (p / w) h); [|lia].
  destruct (Nat.ltb_spec (p mod w) w); [|lia]. cbn [andb] in Hy'.
  replace (p / w * w + p mod w) with p in Hy' by nia.
  assert (y = x) by congruence. subst y.
  unfold at2 in Hy. rewrite Hs in Hy.
  destruct ((w - 1 - p mod w <? w) && (p / w <? h))%bool; [|discriminate].
  now apply nth_error_In in Hy.
Qed.

End Rotation.

(* ================================================================== *)
(** * Runs of the script *)
(* ================================================================== *)

Lemma bind_lift_ok {A B : Type} (o : outcome A) (a : A) (k : A -> M B) (w : world) :
  o = Ok a -> bind (lift o) k w = k a w.
Proof. now intros ->. Qed.

Lemma bind_lift_raised {A B : Type} (o : outcome A) (e : exn) (k : A -> M B) (w : world) :
  o = Raised e -> bind (lift o) k w = (Raised e, w).
Proof. now intros ->. Qed.

Lemma wrote_nil (w : world) : wrote w [] = w.
Proof. destruct w. unfold wrote. cbn. now rewrite app_nil_r. Qed.

Lemma wrote_wrote (w : world) (a b : list (string * content)) :
  wrote (wrote w a) b = wrote w (a ++ b).
Proof. unfold wrote. cbn. now rewrite app_assoc. Qed.

Lemma interleave_flat_map {A : Type} (a b : nat -> A) (l : list nat) :
  flat_map (fun i => [a i; b i]) l = interleave (map a l) (map b l).
Proof. induction l as [|i l IH]; cbn; [reflexivity|now rewrite IH]. Qed.

(** The stem of a file name exists whatever the name: a split is never
    empty. *)
Lemma new_fname_ok (f : string) (i : nat) :
  new_fname f i = Ok (value_or EmptyString (new_fname f i)).
Proof.
  unfold new_fname.
  pose proof (split_not_nil "." (basename f)) as H.
  destruct (split "." (basename f)); [contradiction|reflexivity].
Qed.

(** The quarter turn of a slice of two axes is one image. *)
Lemma rot90_image (a r : ndarray F64.float) (b c : nat) :
  shape a = [b; c] -> rot90 a = Ok r -> is_image (astype_uint8 r) = true.
Proof.
  unfold rot90, flip1, swap01. intros ->. cbn [obind shape].
  intros H. injection H as <-. reflexivity.
Qed.

Lemma get0_amap {A B : Type} (g : A -> B) (a sl : ndarray A) (i : nat) :
  get0 a i = Ok sl -> get0 (amap g a) i = Ok (amap g sl).
Proof.
  unfold get0, amap. cbn [shape data].
  destruct (shape a) as [|d rest]; [discriminate|].
  destruct (i <? d); [|discriminate].
  intros H. injection H as <-. cbn [shape data]. now rewrite block_map.
Qed.

Section InnerLoop.

Variables (f target_dir mask_dir : string).
Variables (mris segmentations : ndarray F64.float).

Lemma save_slice_run (i : nat) (name : string) (x y : ndarray Z) (w : world) :
  new_fname f i = Ok name ->
  rot_slice mris i = Ok x ->
  rot_slice segmentations i = Ok y ->
  is_image x = true ->
  is_image y = true ->
  save_slice f target_dir mask_dir mris segmentations i w
  = (Ok tt, wrote w [(path_join target_dir [name], Png x);
                     (path_join mask_dir [name], Png y)]).
Proof.
  intros Hn Hx Hy Ix Iy. unfold save_slice.
  rewrite (bind_lift_ok _ _ _ _ Hn), (bind_lift_ok _ _ _ _ Hx), (bind_lift_ok _ _ _ _ Hy).
  unfold bind, imsave, wrote. rewrite Ix, Iy. cbn. now rewrite <- app_assoc.
Qed.

Lemma save_slices_run (name : nat -> string) (xs ys : nat -> ndarray Z) (l : list nat) :
  (forall i, In i l ->
     new_fname f i = Ok (name i)
     /\ rot_slice mris i = Ok (xs i)
     /\ rot_slice segmentations i = Ok (ys i)
     /\ is_image (xs i) = true
     /\ is_image (ys i) = true) ->
  forall w,
    for_each l (save_slice f target_dir mask_dir mris segmentations) w
    = (Ok tt, wrote w (flat_map (fun i => [(path_join target_dir [name i], Png (xs i));
                                           (path_join mask_dir [name i], Png (ys i))]) l)).
Proof.
  induction l as [|i l IH]; intros H w.
  - cbn. now rewrite wrote_nil.
  - destruct (H i (or_introl eq_refl)) as (Hn & Hx & Hy & Ix & Iy).
    cbn [for_each flat_map]. unfold bind at 1.
    rewrite (save_slice_run i _ _ _ w Hn Hx Hy Ix Iy).
    rewrite IH by (intros j Hj; apply H; now right).
    now rewrite wrote_wrote.
Qed.

End InnerLoop.

Section OuterLoopBody.

Variable h : host.
Variables (masks : list string) (target_dir mask_dir : string).
Variables (idx : nat) (f m : string).
Variables nii nii_mask : ndarray F64.float.

Hypothesis Hf : nib_load h f = Some nii.
Hypothesis Hidx : index masks idx = Ok m.
Hypothesis Hm : nib_load h m = Some nii_mask.
Hypothesis Vnii : is_volume nii = true.
Hypothesis Vmask : is_volume nii_mask = true.
Hypothesis Hshape : shape nii_mask = shape nii.

(** The pair of a volume with a first axis of length one: nothing is
    selected, the maximum of nothing is asked for, and [ValueError] ends
    the run before a file is written. *)
Lemma process_pair_flat (w : world) :
  hd 0 (shape nii) < 2 ->
  process_pair h masks target_dir mask_dir (idx, f) w = (Raised ValueError, w).
Proof.
  intros Hd.
  destruct (select_odd_flat nii nii Vnii eq_refl Hd) as [rest Hsel].
  unfold process_pair, load. cbn [fst snd]. rewrite Hf.
  rewrite (bind_lift_ok _ _ _ _ eq_refl).
  rewrite (bind_lift_ok _ _ _ _ Hsel).
  now rewrite (bind_lift_raised _ ValueError).
Qed.

(** The pair of a volume with a longer first axis [d]: the run succeeds
    and writes, for [i = 0, ..., d / 2 - 1], the rotated rescaled slice
    [2 * i + 1] of the volume and the rotated slice [2 * i + 1] of the
    mask, under one name. *)
Lemma process_pair_files (w : world) :
  2 <= hd 0 (shape nii) ->
  exists (mris : ndarray F64.float) (mx : F64.float) (b c : nat)
         (name : nat -> string)
         (img seg rimg rseg : nat -> ndarray F64.float),
    let d := hd 0 (shape nii) in
    select_odd nii nii = Ok mris
    /\ amax mris = Ok mx
    /\ (forall x, In x (data mris) -> exists i, i < d / 2 /\ In x (data (img i)))
    /\ (forall x, In x (data mris) -> In x (data nii))
    /\ (forall i, i < d / 2 ->
          new_fname f i = Ok (name i)
          /\ get0 (squeeze nii) (2 * i + 1) = Ok (img i)
          /\ get0 (squeeze nii_mask) (2 * i + 1) = Ok (seg i)
          /\ shape (img i) = [b; c] /\ List.length (data (img i)) = b * c
          /\ shape (seg i) = [b; c] /\ List.length (data (seg i)) = b * c
          /\ rot90 (amap (rescale mx) (img i)) = Ok (rimg i)
          /\ rot90 (seg i) = Ok (rseg i))
    /\ process_pair h masks target_dir mask_dir (idx, f) w
       = (Ok tt,
          wrote w (flat_map (fun i =>
                     [(path_join target_dir [name i], Png (astype_uint8 (rimg i)));
                      (path_join mask_dir [name i], Png (astype_uint8 (rseg i)))])
                     (seq 0 (d / 2)))).
Proof.
  intros Hd.
  destruct (select_odd_slices nii nii Vnii eq_refl Hd)
    as (b & c & mris & Hb & Hc & Hsel & Hsh & Hlen & Hsub & Hsl).
  destruct (select_odd_slices nii nii_mask Vmask Hshape Hd)
    as (b' & c' & segs & Hb' & Hc' & Hsel' & Hsh' & Hlen' & _ & Hsl').
  cbn zeta in *. set (d := hd 0 (shape nii)) in *.
  assert (Hbc : b' = b /\ c' = c).
  { destruct (volume_geometry nii Vnii) as (d1 & t1 & d1' & b1 & c1 & Es1 & _ & Eq1 & _).
    destruct (Hsl 0) as (s0 & _ & G0 & S0 & _).
    { subst d. destruct (parity_split (hd 0 (shape nii))); lia. }
    destruct (Hsl' 0) as (s0' & _ & G0' & S0' & _).
    { subst d. destruct (parity_split (hd 0 (shape nii))); lia. }
    unfold get0, squeeze in G0, G0'. cbn [shape data] in G0, G0'.
    rewrite Hshape in G0'. rewrite Eq1 in G0, G0'.
    destruct (2 * 0 + 1 <? d1'); [|discriminate].
    injection G0 as <-. injection G0' as <-. cbn [shape] in S0, S0'.
    split; congruence. }
  destruct Hbc as [-> ->].
  assert (Hhalf : 0 < d / 2) by (subst d; destruct (parity_split (hd 0 (shape nii))); lia).
  assert (Hne : data mris <> []).
  { intros E. rewrite E in Hlen. cbn [List.length size fold_right] in Hlen.
    assert (0 < d / 2 * (b * (c * 1))) by (repeat apply Nat.mul_pos_pos; lia).
    lia. }
  destruct (amax_In mris Hne) as (mx & Hmx & Hin).
  set (norm := amap (rescale mx) mris).
  assert (Hnorm : normalise mris = Ok norm) by (unfold normalise; now rewrite Hmx).
  set (img := fun i => value_or mris (get0 (squeeze nii) (2 * i + 1))).
  set (seg := fun i => value_or mris (get0 (squeeze nii_mask) (2 * i + 1))).
  set (rimg := fun i => value_or mris (rot90 (amap (rescale mx) (img i)))).
  set (rseg := fun i => value_or mris (rot90 (seg i))).
  set (name := fun i => value_or EmptyString (new_fname f i)).
  assert (Hall : forall i, i < d / 2 ->
            new_fname f i = Ok (name i)
            /\ get0 mris i = Ok (img i)
            /\ get0 segs i = Ok (seg i)
            /\ get0 (squeeze nii) (2 * i + 1) = Ok (img i)
            /\ get0 (squeeze nii_mask) (2 * i + 1) = Ok (seg i)
            /\ shape (img i) = [b; c] /\ List.length (data (img i)) = b * c
            /\ shape (seg i) = [b; c] /\ List.length (data (seg i)) = b * c
            /\ rot90 (amap (rescale mx) (img i)) = Ok (rimg i)
            /\ rot90 (seg i) = Ok (rseg i)).
  { intros i Hi.
    destruct (Hsl i Hi) as (sl & G1 & G2 & S1 & L1).
    destruct (Hsl' i Hi) as (sl' & G1' & G2' & S1' & L1').
    assert (Ei : img i = sl) by (unfold img; now rewrite G2).
    assert (Ei' : seg i = sl') by (unfold seg; now rewrite G2').
    unfold rimg, rseg. rewrite Ei, Ei'.
    cbn [size fold_right] in L1, L1'.
    repeat split; try assumption; try (apply new_fname_ok); try lia.
    - destruct sl as [ssh sdat]. cbn [shape data] in *. subst ssh. reflexivity.
    - destruct sl' as [ssh sdat]. cbn [shape data] in *. subst ssh. reflexivity. }
  exists mris, mx, b, c, name, img, seg, rimg, rseg. cbn zeta. fold d.
  split; [assumption|]. split; [assumption|].
  split.
  { intros x Hx.
    destruct (In_block (size [b; c]) (d / 2) x (data mris) Hlen Hx) as (q & Hq & Hxq).
    exists q. split; [assumption|].
    destruct (Hall q Hq) as (_ & G & _).
    unfold get0 in G. rewrite Hsh in G.
    destruct (q <? d / 2); [|discriminate].
    injection G as G. rewrite <- G. exact Hxq. }
  split; [assumption|].
  split.
  { intros i Hi. destruct (Hall i Hi) as (H1 & _ & _ & H4). now split. }
  unfold process_pair, load. cbn [fst snd]. rewrite Hf.
  rewrite (bind_lift_ok _ _ _ _ eq_refl).
  rewrite (bind_lift_ok _ _ _ _ Hsel).
  rewrite (bind_lift_ok _ _ _ _ Hnorm).
  rewrite (bind_lift_ok _ _ _ _ Hidx). rewrite Hm.
  rewrite (bind_lift_ok _ _ _ _ eq_refl).
  rewrite (bind_lift_ok _ _ _ _ Hsel').
  rewrite Hshape, tuple_eqb_refl. cbn [negb].
  assert (Hns : index (shape norm) 0 = Ok (d / 2)).
  { unfold norm, amap. cbn [shape]. now rewrite Hsh. }
  rewrite (bind_lift_ok _ _ _ _ Hns).
  apply save_slices_run.
  intros i Hi. apply in_seq in Hi.
  destruct (Hall i) as (H1 & G1 & G1' & _ & _ & S1 & _ & S1' & _ & R1 & R1'); [lia|].
  split; [assumption|]. unfold rot_slice. split; [|split; [|split]].
  - unfold norm. rewrite (get0_amap _ _ _ _ G1). cbn [obind]. now rewrite R1.
  - rewrite G1'. cbn [obind]. now rewrite R1'.
  - exact (rot90_image (amap (rescale mx) (img i)) _ b c S1 R1).
  - exact (rot90_image _ _ b c S1' R1').
Qed.

End OuterLoopBody.

(** The pair whose shapes differ, when both selections succeed: the
    mismatch is printed, nothing is written, and the loop goes on. *)
Lemma process_pair_mismatch_skipped (h : host) (masks : list string)
    (target_dir mask_dir : string) (idx : nat) (f m : string)
    (nii nii_mask mris norm segs : ndarray F64.float) (w : world) :
  nib_load h f = Some nii ->
  index masks idx = Ok m ->
  nib_load h m = Some nii_mask ->
  select_odd nii nii = Ok mris ->
  normalise mris = Ok norm ->
  select_odd nii nii_mask = Ok segs ->
  shape nii <> shape nii_mask ->
  process_pair h masks target_dir mask_dir (idx, f) w
  = (Ok tt,
     mk_world (files_written w)
       (stdout w ++ [("Dimension of image and mask do not match. "
                      ++ str_of_tuple (shape nii) ++ " "
                      ++ str_of_tuple (shape nii_mask))%string])
       (dirs w)).
Proof.
  intros Hf Hidx Hm Hsel Hnorm Hsel' Hne.
  unfold process_pair, load. cbn [fst snd]. rewrite Hf.
  rewrite (bind_lift_ok _ _ _ _ eq_refl).
  rewrite (bind_lift_ok _ _ _ _ Hsel).
  rewrite (bind_lift_ok _ _ _ _ Hnorm).
  rewrite (bind_lift_ok _ _ _ _ Hidx). rewrite Hm.
  rewrite (bind_lift_ok _ _ _ _ eq_refl).
  rewrite (bind_lift_ok _ _ _ _ Hsel').
  destruct (tuple_eqb (shape nii) (shape nii_mask)) eqn:E.
  - apply tuple_eqb_eq in E. contradiction.
  - reflexivity.
Qed.

(** ** The outer loop

    [process_mris] runs the body [process_pair] on the volumes in their
    order, each with its position; the run of a volume starts in the world
    the volumes before it left, and an exception raised for one volume
    ends the loop: the volumes after it are not processed. *)

Lemma for_each_app {A : Type} (l1 l2 : list A) (body : A -> M unit) (w : world) :
  for_each (l1 ++ l2) body w
  = match for_each l1 body w with
    | (Ok _, w1) => for_each l2 body w1
    | (Raised e, w1) => (Raised e, w1)
    end.
Proof.
  revert w. induction l1 as [|x l1 IH]; intros w; [reflexivity|].
  cbn [app for_each]. unfold bind.
  destruct (body x w) as [[u|e] w1]; [apply IH|reflexivity].
Qed.

Lemma combine_app_same_length {A B : Type} (a1 a2 : list A) (b1 b2 : list B) :
  List.length a1 = List.length b1 ->
  combine (a1 ++ a2) (b1 ++ b2) = combine a1 b1 ++ combine a2 b2.
Proof.
  revert b1. induction a1 as [|x a1 IH]; intros [|y b1] H; try discriminate.
  - reflexivity.
  - cbn. f_equal. apply IH. cbn in H. lia.
Qed.

Lemma enumerate_app {A : Type} (l1 l2 : list A) :
  enumerate (l1 ++ l2)
  = enumerate l1 ++ combine (seq (List.length l1) (List.length l2)) l2.
Proof.
  unfold enumerate. rewrite length_app, seq_app, combine_app_same_length.
  - reflexivity.
  - now rewrite length_seq.
Qed.

Lemma process_mris_at (h : host) (before after : list string) (f : string)
    (masks : list string) (target_dir mask_dir : string) (w w1 : world) :
  process_mris h before masks target_dir mask_dir w = (Ok tt, w1) ->
  process_mris h (before ++ f :: after) masks target_dir mask_dir w
  = match process_pair h masks target_dir mask_dir (List.length before, f) w1 with
    | (Ok _, w2) =>
        for_each (combine (seq (S (List.length before)) (List.length after)) after)
          (process_pair h masks target_dir mask_dir) w2
    | (Raised e, w2) => (Raised e, w2)
    end.
Proof.
  unfold process_mris. intros Hbefore.
  rewrite enumerate_app, for_each_app, Hbefore.
  cbn [List.length seq combine for_each]. unfold bind at 1.
  reflexivity.
Qed.

(** ** Directories

    [create_dir_if_not_exist] has three outcomes: the path exists and
    nothing happens; the path is empty and [os.makedirs] refuses it; the
    path is created, with the paths above it that are missing. *)

Lemma existsb_eqb_In (d : string) (l : list string) :
  existsb (String.eqb d) l = true <-> In d l.
Proof.
  rewrite existsb_exists. split.
  - intros (x & Hx & E). apply String.eqb_eq in E. now subst.
  - intros H. exists d. split; [assumption|apply String.eqb_refl].
Qed.

Lemma create_dir_cases (d : string) (w : world) :
  (path_exists d w = true /\ create_dir_if_not_exist d w = (Ok tt, w))
  \/ (d = "" /\ create_dir_if_not_exist d w = (Raised FileNotFoundError, w))
  \/ (d <> "" /\ path_exists d w = false
      /\ create_dir_if_not_exist d w
         = (Ok tt,
            mk_world (files_written w) (stdout w)
              (dirs w
               ++ filter (fun q => negb (path_exists q w)) (ancestors d)
               ++ [d]))).
Proof.
  unfold create_dir_if_not_exist, makedirs.
  destruct (path_exists d w) eqn:E; cbn [negb]; [now left|right].
  destruct (String.eqb_spec d "") as [Hd|Hd]; [now left|right].
  now repeat split.
Qed.

Lemma path_exists_existsb (d : string) (w : world) :
  path_exists d w = true -> all_slashes d = false ->
  existsb (String.eqb d) (dirs w) = true.
Proof.
  unfold path_exists. intros H Hs. rewrite Hs in H.
  apply andb_true_iff in H. exact (proj2 H).
Qed.

Lemma path_exists_In (d : string) (w : world) :
  d <> "" -> In d (dirs w) -> path_exists d w = true.
Proof.
  intros Hd Hin. unfold path_exists.
  destruct (String.eqb_spec d "") as [E|_]; [contradiction|]. cbn [negb andb].
  apply orb_true_iff. right. now apply existsb_eqb_In.
Qed.

Lemma path_exists_mono (q : string) (w w' : world) :
  (forall x, In x (dirs w) -> In x (dirs w')) ->
  path_exists q w = true -> path_exists q w' = true.
Proof.
  unfold path_exists. intros Hsub H.
  apply andb_true_iff in H. destruct H as [Hq H]. rewrite Hq. cbn [andb].
  apply orb_true_iff in H. apply orb_true_iff.
  destruct H as [H|H]; [now left|right].
  apply existsb_eqb_In. apply Hsub. now apply existsb_eqb_In.
Qed.

Lemma create_dir_files (d : string) (w : world) :
  files_written (snd (create_dir_if_not_exist d w)) = files_written w.
Proof.
  destruct (create_dir_cases d w) as [[_ E]|[[_ E]|(_ & _ & E)]]; now rewrite E.
Qed.

Lemma create_dir_stdout (d : string) (w : world) :
  stdout (snd (create_dir_if_not_exist d w)) = stdout w.
Proof.
  destruct (create_dir_cases d w) as [[_ E]|[[_ E]|(_ & _ & E)]]; now rewrite E.
Qed.

Lemma create_dir_keeps (d q : string) (w : world) :
  In q (dirs w) -> In q (dirs (snd (create_dir_if_not_exist d w))).
Proof.
  intros H.
  destruct (create_dir_cases d w) as [[_ E]|[[_ E]|(_ & _ & E)]];
    rewrite E; cbn [snd dirs]; [assumption|assumption|].
  apply in_or_app. now left.
Qed.

Lemma create_dir_exists (d : string) (w : world) :
  d <> "" -> path_exists d (snd (create_dir_if_not_exist d w)) = true.
Proof.
  intros Hd.
  destruct (create_dir_cases d w) as [[Hex E]|[[Hd' _]|(_ & _ & E)]];
    [now rewrite E|contradiction|].
  rewrite E. cbn [snd]. apply path_exists_In; [assumption|].
  cbn [dirs]. apply in_or_app. right. apply in_or_app. right. now left.
Qed.

Lemma create_dir_adds (d : string) (w : world) :
  d <> "" -> all_slashes d = false ->
  In d (dirs (snd (create_dir_if_not_exist d w))).
Proof.
  intros Hd Hs. apply existsb_eqb_In.
  apply path_exists_existsb; [now apply create_dir_exists|assumption].
Qed.

Lemma create_dir_returns (d : string) (w : world) :
  d <> "" -> fst (create_dir_if_not_exist d w) = Ok tt.
Proof.
  intros Hd.
  destruct (create_dir_cases d w) as [[_ E]|[[Hd' _]|(_ & _ & E)]];
    [now rewrite E|contradiction|now rewrite E].
Qed.

Lemma bind_create_dir {B : Type} (d : string) (k : unit -> M B) (w : world) :
  d <> "" ->
  bind (create_dir_if_not_exist d) k w = k tt (snd (create_dir_if_not_exist d w)).
Proof.
  intros Hd. unfold bind.
  pose proof (create_dir_returns d w Hd) as E.
  destruct (create_dir_if_not_exist d w) as [[[]|e] w']; [reflexivity|discriminate].
Qed.

(* ================================================================== *)
(** * Concrete runs *)
(* ================================================================== *)

Example arange_small :
  map (fun d => arange 1 d 2) [0; 1; 2; 3; 4; 5; 6]
  = [[]; []; [1]; [1]; [1; 3]; [1; 3]; [1; 3; 5]].
Proof. reflexivity. Qed.

Example new_fname_of_subject :
  new_fname (subject_image s1) 3 = Ok "OAS1_0001_MR1_mpr_n4_anon_111_t88_3.png".
Proof. reflexivity. Qed.

(** The stem ends at the first ['.'] of the base name. *)
Example new_fname_two_dots : new_fname "/data/a.b_c.img" 0 = Ok "a_0.png".
Proof. reflexivity. Qed.

Example rot90_two_by_two :
  rot90 (mk_ndarray [2; 2] [1; 2; 3; 4]) = Ok (mk_ndarray [2; 2] [2; 4; 1; 3]).
Proof. reflexivity. Qed.

Example to_uint8_small :
  map F64.to_uint8 [fl 0; fl 255; F64.div (fl 7) (fl 2); S754_nan]
  = [0; 255; 3; 0]%Z.
Proof. vm_compute. reflexivity. Qed.

(** Outside the range of a byte: a value that fits a 32-bit word keeps
    its low byte, a larger one gives 0. *)
Example to_uint8_outside :
  map F64.to_uint8
    [fl 256; fl 511; fl (-1); fl 2147483647; fl 2147483648; fl 4294967305;
     fl (-2147483649); S754_infinity false]
  = [0; 255; 255; 255; 0; 0; 0; 0]%Z.
Proof. vm_compute. reflexivity. Qed.

(** A volume of four axes gives slices of three axes; with five values on
    the last axis a slice is no image, and [imageio] refuses the first
    one: nothing is written. *)
Example slice_of_three_axes_refused :
  let v := mk_ndarray [2; 1; 1; 5] (map fl [1; 2; 3; 4; 5; 6; 7; 8; 9; 10]%Z) in
  let v4 := mk_ndarray [2; 2; 2; 5] (map fl (map Z.of_nat (seq 1 40))) in
  process_pair (table_host [] [] [("v", v); ("v4", v4)]) ["v"; "v4"] "train" "train_annotation"
    (0, "v") initial_world
  = (Raised IndexError, initial_world)
  /\ process_pair (table_host [] [] [("v", v); ("v4", v4)]) ["v"; "v4"] "train" "train_annotation"
       (1, "v4") initial_world
     = (Raised ValueError, initial_world).
Proof. split; vm_compute; reflexivity. Qed.

(** A whole run on two subjects, in a world without any directory. With
    the identity permutation the first subject is the validation set and
    the second the training set. The second volume is [vol_dark_odd]: its
    image is black. The first directory is created with the ones above
    it. *)
Example main_two_subjects :
  main host_two initial_world
  = (Ok tt,
     mk_world
       [("/opt/ml/processing/output/train/OAS1_0002_MR1_mpr_n4_anon_111_t88_0.png",
         Png (mk_ndarray [2; 2] [0; 0; 0; 0]%Z));
        ("/opt/ml/processing/output/train_annotation/OAS1_0002_MR1_mpr_n4_anon_111_t88_0.png",
         Png (mk_ndarray [2; 2] [1; 3; 0; 2]%Z));
        ("/opt/ml/processing/output/validation/OAS1_0001_MR1_mpr_n4_anon_111_t88_0.png",
         Png (mk_ndarray [2; 2] [95; 127; 79; 111]%Z));
        ("/opt/ml/processing/output/validation_annotation/OAS1_0001_MR1_mpr_n4_anon_111_t88_0.png",
         Png (mk_ndarray [2; 2] [1; 3; 0; 2]%Z));
        ("/opt/ml/processing/output/validation/OAS1_0001_MR1_mpr_n4_anon_111_t88_1.png",
         Png (mk_ndarray [2; 2] [223; 255; 207; 239]%Z));
        ("/opt/ml/processing/output/validation_annotation/OAS1_0001_MR1_mpr_n4_anon_111_t88_1.png",
         Png (mk_ndarray [2; 2] [2; 0; 3; 1]%Z));
        ("/opt/ml/processing/output/label_map/train_label_map.json",
         Text scale_one_text)]
       []
       ["/opt"; "/opt/ml"; "/opt/ml/processing"; "/opt/ml/processing/output";
        "/opt/ml/processing/output/train";
        "/opt/ml/processing/output/validation";
        "/opt/ml/processing/output/train_annotation";
        "/opt/ml/processing/output/validation_annotation";
        "/opt/ml/processing/output/label_map"]).
Proof. vm_compute. reflexivity. Qed.

(* ================================================================== *)
(** * The claims *)
(* ================================================================== *)

(** C1 (the code departs from the claim). A pair whose mask has fewer
    slices than the volume does not reach the dimension check: the mask is
    indexed with the odd indices of the volume first, index 3 lies outside
    a mask of two slices, and [IndexError] ends [process_mris]. Nothing is
    printed, and the well-formed pair that follows is never processed. *)
Theorem short_mask_raises_before_dimension_check :
  process_mris host_short_mask
    [subject_image s1; subject_image s2] [subject_mask s1; subject_mask s2]
    "/opt/ml/processing/output/train" "/opt/ml/processing/output/train_annotation"
    initial_world
  = (Raised IndexError, initial_world)
  /\ shape vol_four <> shape mask_small
  /\ is_volume vol_four = true /\ is_volume mask_small = true.
Proof.
  split; [vm_compute; reflexivity|].
  split; [discriminate|]. split; reflexivity.
Qed.

(** When the mask is the longer one, the check is reached and the pair is
    skipped as intended. *)
Example long_mask_is_skipped :
  process_mris host_long_mask
    [subject_image s1] [subject_mask s1]
    "/opt/ml/processing/output/train" "/opt/ml/processing/output/train_annotation"
    initial_world
  = (Ok tt,
     mk_world []
       ["Dimension of image and mask do not match. (2, 2, 2) (4, 2, 2)"] []).
Proof. vm_compute. reflexivity. Qed.

Lemma nth_error_odd_indices (d i k : nat) :
  nth_error (odd_indices d) i = Some k -> i < d / 2 /\ k = 2 * i + 1.
Proof.
  rewrite <- arange_odd_indices, arange_odd, nth_error_map, nth_error_seq.
  destruct (Nat.ltb_spec i (d / 2)) as [Hlt|Hge]; cbn; [|discriminate].
  intros E. injection E as <-. split; [assumption|lia].
Qed.

Lemma nth_error_map_seq {A : Type} (g : nat -> A) (n i : nat) :
  i < n -> nth_error (map g (seq 0 n)) i = Some (g i).
Proof.
  intros Hi. rewrite nth_error_map, nth_error_seq.
  destruct (Nat.ltb_spec i n); [reflexivity|lia].
Qed.

(** C2. For a volume and a mask of one shape, with a first axis of length
    [d], [process_mris] runs [process_pair] on the pair; the indices it
    selects, [np.arange(1, d, 2)], are the odd indices of [[1, d)]; it
    writes as many image files as mask files, one of each per odd index;
    and the files of the [i]-th odd index [k] hold slice [k] of the volume
    (rescaled by the maximum [mx] of the selection) and slice [k] of the
    mask, rotated and converted. *)
Theorem odd_slices_emitted (h : host) (masks : list string)
    (target_dir mask_dir : string) (idx : nat) (f m : string)
    (nii nii_mask : ndarray F64.float) (w : world) :
  nib_load h f = Some nii ->
  index masks idx = Ok m ->
  nib_load h m = Some nii_mask ->
  is_volume nii = true ->
  is_volume nii_mask = true ->
  shape nii_mask = shape nii ->
  exists out imgs segs,
    process_pair h masks target_dir mask_dir (idx, f) w
    = (out, wrote w (interleave imgs segs))
    /\ arange 1 (hd 0 (shape nii)) 2 = odd_indices (hd 0 (shape nii))
    /\ List.length imgs = List.length (odd_indices (hd 0 (shape nii)))
    /\ List.length segs = List.length (odd_indices (hd 0 (shape nii)))
    /\ forall i k, nth_error (odd_indices (hd 0 (shape nii))) i = Some k ->
         exists mris mx name vol_slice mask_slice x y,
           select_odd nii nii = Ok mris
           /\ amax mris = Ok mx
           /\ new_fname f i = Ok name
           /\ get0 (squeeze nii) k = Ok vol_slice
           /\ get0 (squeeze nii_mask) k = Ok mask_slice
           /\ rot90 (amap (rescale mx) vol_slice) = Ok x
           /\ rot90 mask_slice = Ok y
           /\ nth_error imgs i = Some (path_join target_dir [name], Png (astype_uint8 x))
           /\ nth_error segs i = Some (path_join mask_dir [name], Png (astype_uint8 y)).
Proof.
  intros Hf Hidx Hm Vn Vm Hs.
  destruct (Nat.lt_ge_cases (hd 0 (shape nii)) 2) as [Hd|Hd].
  - exists (Raised ValueError), [], [].
    rewrite (process_pair_flat h masks target_dir mask_dir idx f nii Hf Vn w Hd).
    cbn [interleave]. rewrite wrote_nil.
    split; [reflexivity|]. split; [apply arange_odd_indices|].
    assert (E : odd_indices (hd 0 (shape nii)) = []).
    { destruct (hd 0 (shape nii)) as [|[|d]]; [reflexivity|reflexivity|lia]. }
    rewrite E. repeat split. intros [|i] k Hk; discriminate.
  - destruct (process_pair_files h masks target_dir mask_dir idx f m nii nii_mask
                Hf Hidx Hm Vn Vm Hs w Hd)
      as (mris & mx & b & c & name & img & seg & rimg & rseg
          & Hsel & Hmx & _ & _ & Hall & Hrun).
    cbn zeta in *.
    exists (Ok tt).
    exists (map (fun i => (path_join target_dir [name i], Png (astype_uint8 (rimg i))))
              (seq 0 (hd 0 (shape nii) / 2))).
    exists (map (fun i => (path_join mask_dir [name i], Png (astype_uint8 (rseg i))))
              (seq 0 (hd 0 (shape nii) / 2))).
    rewrite <- interleave_flat_map.
    split; [exact Hrun|]. split; [apply arange_odd_indices|].
    assert (Hlen : List.length (odd_indices (hd 0 (shape nii))) = hd 0 (shape nii) / 2)
      by (rewrite <- arange_odd_indices; apply length_arange_odd).
    split; [now rewrite length_map, length_seq|].
    split; [now rewrite length_map, length_seq|].
    intros i k Hk. apply nth_error_odd_indices in Hk. destruct Hk as [Hi ->].
    destruct (Hall i Hi) as (H1 & H2 & H3 & _ & _ & _ & _ & H8 & H9).
    exists mris, mx, (name i), (img i), (seg i), (rimg i), (rseg i).
    rewrite !nth_error_map_seq by assumption.
    repeat split; assumption.
Qed.

Lemma odd_slices_emitted_witness :
  nib_load host_two (subject_image s1) = Some vol_plain
  /\ index [subject_mask s1] 0 = Ok (subject_mask s1)
  /\ nib_load host_two (subject_mask s1) = Some mask_plain
  /\ is_volume vol_plain = true
  /\ is_volume mask_plain = true
  /\ shape mask_plain = shape vol_plain
  /\ exists out imgs segs,
       process_pair host_two [subject_mask s1] "train" "train_annotation"
         (0, subject_image s1) initial_world
       = (out, wrote initial_world (interleave imgs segs))
       /\ List.length imgs = List.length (odd_indices 4)
       /\ List.length segs = List.length (odd_indices 4).
Proof.
  repeat (split; [reflexivity|]).
  destruct (odd_slices_emitted host_two [subject_mask s1] "train" "train_annotation"
              0 (subject_image s1) (subject_mask s1) vol_plain mask_plain initial_world
              eq_refl eq_refl eq_refl eq_refl eq_refl eq_refl)
    as (out & imgs & segs & Hrun & _ & Hi & Hs & _).
  exists out, imgs, segs. repeat split; assumption.
Defined.

Lemma amax_Ok_In (a : ndarray F64.float) (m : F64.float) :
  amax a = Ok m -> In m (data a).
Proof.
  unfold amax. destruct (data a) as [|x xs]; [discriminate|].
  intros H. injection H as <-. apply fold_maximum_In.
Qed.

Lemma max_pixel_top (l : list Z) (top : Z) :
  (0 <= top)%Z -> Forall (fun p => (p <= top)%Z) l -> In top l -> max_pixel l = top.
Proof.
  intros Htop Hall Hin. unfold max_pixel.
  assert (Hle : (fold_right Z.max 0 l <= top)%Z).
  { clear Hin. induction Hall as [|p l Hp _ IH]; cbn [fold_right]; lia. }
  assert (Hge : (top <= fold_right Z.max 0 l)%Z).
  { clear Hall Hle. induction l as [|p l IH]; [contradiction|].
    cbn [fold_right]. destruct Hin as [->|Hin]; [lia|]. specialize (IH Hin). lia. }
  lia.
Qed.

(** C3, against the claim as stated. The bright slice of [vol_dark_odd] has
    an even index: the maximum of the volume is 5, the maximum of what is
    selected is 0, every selected voxel becomes 0 / 0, and the one image
    written holds the pixel 0 four times. *)
Lemma whole_volume_maximum_counterexample :
  amax vol_dark_odd = Ok (fl 5)
  /\ F64.gtb (fl 5) F64.zero = true
  /\ process_pair host_two [subject_mask s2] "train" "train_annotation"
       (0, subject_image s2) initial_world
     = (Ok tt,
        wrote initial_world
          [("train/OAS1_0002_MR1_mpr_n4_anon_111_t88_0.png",
            Png (mk_ndarray [2; 2] [0; 0; 0; 0]%Z));
           ("train_annotation/OAS1_0002_MR1_mpr_n4_anon_111_t88_0.png",
            Png (mk_ndarray [2; 2] [1; 3; 0; 2]%Z))])
  /\ max_pixel (pixels (Png (mk_ndarray [2; 2] [0; 0; 0; 0]%Z))) <> 255%Z.
Proof.
  split; [vm_compute; reflexivity|]. split; [vm_compute; reflexivity|].
  split; [vm_compute; reflexivity|]. discriminate.
Qed.

(** C3, amended. The voxels are divided by the maximum [mx] of the
    selected slices and multiplied by 255, and the result is converted to
    [uint8]; when [mx] is finite and not zero (so when it is a positive
    intensity) the largest pixel of the images written for the volume is
    255. *)
Theorem selected_maximum_maps_to_255 (h : host) (masks : list string)
    (target_dir mask_dir : string) (idx : nat) (f m : string)
    (nii nii_mask mris : ndarray F64.float) (mx : F64.float) (w : world) :
  nib_load h f = Some nii ->
  index masks idx = Ok m ->
  nib_load h m = Some nii_mask ->
  is_volume nii = true ->
  is_volume nii_mask = true ->
  shape nii_mask = shape nii ->
  select_odd nii nii = Ok mris ->
  amax mris = Ok mx ->
  F64.is_finite mx = true ->
  F64.is_zero mx = false ->
  exists imgs segs,
    process_pair h masks target_dir mask_dir (idx, f) w
    = (Ok tt, wrote w (interleave imgs segs))
    /\ List.length imgs = List.length segs
    /\ (forall pc, In pc imgs ->
          exists i sl x,
            get0 mris i = Ok sl
            /\ rot90 (amap (fun v => F64.mul (F64.div v mx) F64.f255) sl) = Ok x
            /\ snd pc = Png (amap F64.to_uint8 x))
    /\ max_pixel (flat_map (fun pc => pixels (snd pc)) imgs) = 255%Z.
Proof.
  intros Hf Hidx Hm Vn Vm Hs Hsel Hmx Hfin Hnz.
  assert (Hd : 2 <= hd 0 (shape nii)).
  { destruct (Nat.lt_ge_cases (hd 0 (shape nii)) 2) as [Hd|Hd]; [|assumption].
    destruct (select_odd_flat nii nii Vn eq_refl Hd) as [rest E].
    rewrite E in Hsel. injection Hsel as <-. discriminate. }
  destruct (process_pair_files h masks target_dir mask_dir idx f m nii nii_mask
              Hf Hidx Hm Vn Vm Hs w Hd)
    as (mris' & mx' & b & c & name & img & seg & rimg & rseg
        & Hsel' & Hmx' & Hcover & _ & Hall & Hrun).
  cbn zeta in *.
  rewrite Hsel in Hsel'. injection Hsel' as <-.
  rewrite Hmx in Hmx'. injection Hmx' as <-.
  set (n := hd 0 (shape nii) / 2) in *.
  exists (map (fun i => (path_join target_dir [name i], Png (astype_uint8 (rimg i))))
            (seq 0 n)).
  exists (map (fun i => (path_join mask_dir [name i], Png (astype_uint8 (rseg i))))
            (seq 0 n)).
  rewrite <- interleave_flat_map.
  split; [exact Hrun|]. split; [now rewrite !length_map|].
  assert (Hslice : forall i, i < n ->
            get0 mris i = Ok (img i) /\ amap (rescale mx) (img i)
            = mk_ndarray [b; c] (map (rescale mx) (data (img i)))).
  { intros i Hi. destruct (Hall i Hi) as (_ & G & _ & S & _).
    split.
    - destruct (select_odd_slices nii nii Vn eq_refl Hd)
        as (b0 & c0 & sel & _ & _ & Hsel0 & _ & _ & _ & Hsl0).
      cbn zeta in Hsl0. rewrite Hsel in Hsel0. injection Hsel0 as <-.
      destruct (Hsl0 i Hi) as (sl & G1 & G2 & _). congruence.
    - unfold amap. now rewrite S. }
  split.
  { intros pc Hpc. apply in_map_iff in Hpc. destruct Hpc as (i & <- & Hi).
    apply in_seq in Hi. cbn [snd].
    destruct (Hall i) as (_ & _ & _ & _ & _ & _ & _ & R & _); [lia|].
    destruct (Hslice i) as [G _]; [lia|].
    exists i, (img i), (rimg i). repeat split; assumption. }
  apply max_pixel_top; [lia| |].
  - apply Forall_forall. intros p Hp. apply in_flat_map in Hp.
    destruct Hp as (pc & Hpc & Hp). apply in_map_iff in Hpc.
    destruct Hpc as (i & <- & _). cbn [snd pixels astype_uint8 amap data] in Hp.
    apply in_map_iff in Hp. destruct Hp as (v & <- & _).
    apply to_uint8_range.
  - destruct (Hcover mx (amax_Ok_In _ _ Hmx)) as (i & Hi & Hin).
    destruct (Hall i Hi) as (_ & _ & _ & S & L & _ & _ & R & _).
    destruct (Hslice i Hi) as [_ E]. rewrite E in R.
    destruct (rot90_keeps b c (map (rescale mx) (data (img i)))
                (ltac:(now rewrite length_map)) (rescale mx mx))
      as (r & Hr & Hinr); [now apply in_map|].
    rewrite R in Hr. injection Hr as <-.
    rewrite (rescale_self mx Hfin Hnz) in Hinr.
    apply in_flat_map.
    exists (path_join target_dir [name i], Png (astype_uint8 (rimg i))).
    split.
    + apply in_map_iff. exists i. split; [reflexivity|]. apply in_seq. lia.
    + cbn [snd pixels astype_uint8 amap data]. rewrite <- to_uint8_255.
      now apply in_map.
Qed.

Lemma selected_maximum_maps_to_255_witness :
  nib_load host_two (subject_image s1) = Some vol_plain
  /\ index [subject_mask s1] 0 = Ok (subject_mask s1)
  /\ nib_load host_two (subject_mask s1) = Some mask_plain
  /\ is_volume vol_plain = true
  /\ is_volume mask_plain = true
  /\ shape mask_plain = shape vol_plain
  /\ select_odd vol_plain vol_plain
     = Ok (mk_ndarray [2; 2; 2] (map fl [5; 6; 7; 8; 13; 14; 15; 16]%Z))
  /\ amax (mk_ndarray [2; 2; 2] (map fl [5; 6; 7; 8; 13; 14; 15; 16]%Z)) = Ok (fl 16)
  /\ F64.is_finite (fl 16) = true
  /\ F64.is_zero (fl 16) = false
  /\ exists imgs segs,
       process_pair host_two [subject_mask s1] "train" "train_annotation"
         (0, subject_image s1) initial_world
       = (Ok tt, wrote initial_world (interleave imgs segs))
       /\ max_pixel (flat_map (fun pc => pixels (snd pc)) imgs) = 255%Z.
Proof.
  repeat (split; [reflexivity|]).
  destruct (selected_maximum_maps_to_255 host_two [subject_mask s1]
              "train" "train_annotation" 0 (subject_image s1) (subject_mask s1)
              vol_plain mask_plain
              (mk_ndarray [2; 2; 2] (map fl [5; 6; 7; 8; 13; 14; 15; 16]%Z)) (fl 16)
              initial_world
              eq_refl eq_refl eq_refl eq_refl eq_refl eq_refl eq_refl eq_refl
              eq_refl eq_refl)
    as (imgs & segs & Hrun & _ & _ & Hmax).
  exists imgs, segs. split; assumption.
Defined.

(* ------------------------------------------------------------------ *)
(** ** The split *)

Lemma list_comp_index {A : Type} (d : A) (l : list A) (ind : list nat) :
  (forall i, In i ind -> i < List.length l) ->
  safe_indexing l ind = Ok (map (fun i => nth i l d) ind).
Proof.
  unfold safe_indexing.
  induction ind as [|i ind IH]; intros H; [reflexivity|].
  cbn [list_comp map]. unfold index at 1.
  destruct (nth_error l i) as [x|] eqn:E.
  - cbn [obind]. rewrite IH by (intros j Hj; apply H; now right).
    cbn [obind]. now rewrite (nth_error_nth _ _ d E).
  - apply nth_error_None in E. specialize (H i (or_introl eq_refl)). lia.
Qed.

Lemma combine_map_same {A B C : Type} (g1 : A -> B) (g2 : A -> C) (l : list A) :
  combine (map g1 l) (map g2 l) = map (fun i => (g1 i, g2 i)) l.
Proof. induction l as [|a l IH]; cbn; [reflexivity|now rewrite IH]. Qed.

Lemma combine_by_position {A B : Type} (da : A) (db : B) (xs : list A) (ys : list B) :
  List.length ys = List.length xs ->
  map (fun i => (nth i xs da, nth i ys db)) (seq 0 (List.length xs)) = combine xs ys.
Proof.
  revert ys. induction xs as [|x xs IH]; intros ys Hlen; [reflexivity|].
  destruct ys as [|y ys]; [discriminate|].
  cbn [List.length seq map combine nth]. f_equal.
  rewrite <- seq_shift, map_map. cbn [nth]. apply IH.
  cbn in Hlen. lia.
Qed.

(** C4, against the claim as stated. Seven pairs are split into five and
    two, which is neither 80% nor 20% of seven; and a single pair is not
    split at all: the training set would be empty, and the split raises
    [ValueError]. *)
Lemma split_sizes_counterexample :
  split_sizes (train_test_split host_two (map subject_image seven_subjects)
                 (map subject_mask seven_subjects) (1, 5) 1984%Z)
  = Ok (5, 2)
  /\ 5 * 2 <> 7
  /\ train_test_split host_two [subject_image s1] [subject_mask s1] (1, 5) 1984%Z
     = Raised ValueError.
Proof.
  split; [vm_compute; reflexivity|]. split; [discriminate|].
  vm_compute. reflexivity.
Qed.

(** C4, amended. Two or more pairs are split into [ceil(n / 5)] validation
    pairs and [n - ceil(n / 5)] training pairs, which is 20% and 80% when
    five divides [n], and 2 and 8 for [n = 10]; the permutation the seed
    1984 fixes decides which: its first positions index the validation
    set, the other ones the training set, and images and masks are taken
    at the same positions, so the pairs of the two sets are the pairs of
    the input. *)
Theorem split_is_aligned_partition (h : host) (images masks : list string) :
  List.length masks = List.length images ->
  2 <= List.length images ->
  Permutation (rng_permutation h 1984%Z (List.length images))
              (seq 0 (List.length images)) ->
  exists train_images validation_images train_masks validation_masks,
    let n := List.length images in
    let p := rng_permutation h 1984%Z n in
    let n_test := (n + 4) / 5 in
    train_test_split h images masks (1, 5) 1984%Z
    = Ok (train_images, validation_images, train_masks, validation_masks)
    /\ validation_images = map (fun i => nth i images EmptyString) (firstn n_test p)
    /\ validation_masks = map (fun i => nth i masks EmptyString) (firstn n_test p)
    /\ train_images = map (fun i => nth i images EmptyString) (skipn n_test p)
    /\ train_masks = map (fun i => nth i masks EmptyString) (skipn n_test p)
    /\ List.length validation_images = n_test
    /\ List.length train_images = n - n_test
    /\ 0 < List.length train_images
    /\ Permutation (combine train_images train_masks
                    ++ combine validation_images validation_masks)
                   (combine images masks)
    /\ (n = 10 -> List.length train_images = 8 /\ List.length validation_images = 2)
    /\ (forall q, n = 5 * q ->
          List.length train_images = 4 * q /\ List.length validation_images = q).
Proof.
  intros Hlen Hn Hperm.
  set (n := List.length images) in *.
  set (p := rng_permutation h 1984%Z n) in *.
  set (n_test := (n + 4) / 5).
  assert (Hp : List.length p = n).
  { rewrite (Permutation_length Hperm). apply length_seq. }
  assert (Hin : forall i, In i p -> i < n).
  { intros i Hi. apply (Permutation_in _ Hperm) in Hi. apply in_seq in Hi. lia. }
  assert (Hnt : n_test < n).
  { unfold n_test. apply Nat.Div0.div_lt_upper_bound. lia. }
  assert (Hfirst : forall i, In i (firstn n_test p) -> i < n).
  { intros i Hi. apply Hin. rewrite <- (firstn_skipn n_test p).
    apply in_or_app. now left. }
  assert (Hskip : forall i, In i (skipn n_test p) -> i < n).
  { intros i Hi. apply Hin. rewrite <- (firstn_skipn n_test p).
    apply in_or_app. now right. }
  exists (map (fun i => nth i images EmptyString) (skipn n_test p)),
         (map (fun i => nth i images EmptyString) (firstn n_test p)),
         (map (fun i => nth i masks EmptyString) (skipn n_test p)),
         (map (fun i => nth i masks EmptyString) (firstn n_test p)).
  cbn zeta. fold n. fold p. fold n_test.
  assert (Hlv : List.length (firstn n_test p) = n_test)
    by (rewrite length_firstn; lia).
  assert (Hlt : List.length (skipn n_test p) = n - n_test)
    by (rewrite length_skipn; lia).
  split.
  { unfold train_test_split. fold n. rewrite Hlen, Nat.eqb_refl. cbn [negb].
    unfold n_test_samples. cbn [fst snd].
    replace ((n * 1 + (5 - 1)) / 5) with n_test
      by (unfold n_test; f_equal; lia).
    destruct (Nat.eqb_spec (n - n_test) 0) as [E|_]; [lia|].
    fold p. rewrite (firstn_all2 (n := n - n_test)) by lia.
    rewrite (list_comp_index EmptyString images (skipn n_test p)) by assumption.
    rewrite (list_comp_index EmptyString images (firstn n_test p)) by assumption.
    rewrite (list_comp_index EmptyString masks (skipn n_test p))
      by (intros i Hi; rewrite Hlen; now apply Hskip).
    rewrite (list_comp_index EmptyString masks (firstn n_test p))
      by (intros i Hi; rewrite Hlen; now apply Hfirst).
    reflexivity. }
  repeat (split; [reflexivity|]).
  rewrite !length_map, Hlv, Hlt.
  split; [reflexivity|]. split; [reflexivity|]. split; [lia|].
  split.
  { rewrite !combine_map_same, <- map_app.
    rewrite <- (combine_by_position EmptyString EmptyString images masks Hlen).
    apply Permutation_map. fold n.
    rewrite <- Hperm. rewrite <- (firstn_skipn n_test p) at 3.
    apply Permutation_app_comm. }
  split.
  - intros E. unfold n_test. rewrite E. split; reflexivity.
  - intros q E. unfold n_test. rewrite E.
    assert (Hq : (5 * q + 4) / 5 = q)
      by (symmetry; apply (Nat.div_unique _ 5 q 4); lia).
    rewrite Hq. lia.
Qed.

Lemma split_is_aligned_partition_witness :
  List.length (map subject_mask seven_subjects)
  = List.length (map subject_image seven_subjects)
  /\ 2 <= List.length (map subject_image seven_subjects)
  /\ exists train_images validation_images train_masks validation_masks,
       train_test_split host_two (map subject_image seven_subjects)
         (map subject_mask seven_subjects) (1, 5) 1984%Z
       = Ok (train_images, validation_images, train_masks, validation_masks)
       /\ List.length validation_images = 2
       /\ List.length train_images = 5.
Proof.
  split; [reflexivity|]. split; [cbn; lia|].
  destruct (split_is_aligned_partition host_two (map subject_image seven_subjects)
              (map subject_mask seven_subjects) eq_refl
              ltac:(cbn; lia) (Permutation_refl _))
    as (tr & va & trm & vam & Hrun & _ & _ & _ & _ & Hva & Htr & _).
  exists tr, va, trm, vam. repeat split; assumption.
Defined.

(* ------------------------------------------------------------------ *)
(** ** The masks of the subjects *)

Lemma select_masks_empty_match (h : host) (indices : list string) :
  (exists i, In i indices /\ glob h (mask_pattern i) = []) ->
  select_masks h indices = Raised IndexError.
Proof.
  unfold select_masks.
  induction indices as [|j indices IH]; intros (i & Hi & Hg); [contradiction|].
  cbn [list_comp]. unfold index at 1.
  destruct (glob h (mask_pattern j)) as [|x xs] eqn:E; [reflexivity|].
  cbn [nth_error obind].
  destruct Hi as [->|Hi]; [congruence|].
  rewrite IH; [reflexivity|]. now exists i.
Qed.

Lemma select_masks_first_match (h : host) (indices : list string) :
  (forall i, In i indices -> glob h (mask_pattern i) <> []) ->
  select_masks h indices
  = Ok (map (fun i => hd EmptyString (glob h (mask_pattern i))) indices).
Proof.
  unfold select_masks.
  induction indices as [|j indices IH]; intros H; [reflexivity|].
  cbn [list_comp map]. unfold index at 1.
  pose proof (H j (or_introl eq_refl)) as Hj.
  destruct (glob h (mask_pattern j)) as [|x xs]; [contradiction|].
  cbn [nth_error obind hd].
  rewrite IH by (intros i Hi; apply H; now right). reflexivity.
Qed.

(** C5. With the subjects [indices] of the volumes found: when the mask
    pattern of one of them matches no file, [main] ends with [IndexError]
    at the mask selection, before anything is written or created; when
    every pattern matches one file or more, no error is raised there and
    the first match of each subject is its mask. *)
Theorem mask_selection_takes_first_or_raises (h : host) (indices : list string)
    (w : world) :
  subject_indices (glob h image_pattern) = Ok indices ->
  ((exists i, In i indices /\ glob h (mask_pattern i) = []) ->
     main h w = (Raised IndexError, w))
  /\ ((forall i, In i indices -> glob h (mask_pattern i) <> []) ->
        select_masks h indices
        = Ok (map (fun i => hd EmptyString (glob h (mask_pattern i))) indices)).
Proof.
  intros Hind. split.
  - intros Hex. unfold main.
    rewrite (bind_lift_ok _ _ _ _ Hind).
    now rewrite (bind_lift_raised _ _ _ _ (select_masks_empty_match h indices Hex)).
  - apply select_masks_first_match.
Qed.

Lemma mask_selection_takes_first_or_raises_witness :
  (subject_indices (glob host_missing_mask image_pattern) = Ok [s1; s2]
   /\ glob host_missing_mask (mask_pattern s2) = []
   /\ main host_missing_mask initial_world = (Raised IndexError, initial_world))
  /\ (subject_indices (glob host_two image_pattern) = Ok [s1; s2]
      /\ glob host_two (mask_pattern s2) = [subject_mask s2; subject_mask s1]
      /\ select_masks host_two [s1; s2] = Ok [subject_mask s1; subject_mask s2]).
Proof.
  split.
  - split; [reflexivity|]. split; [reflexivity|].
    apply (proj1 (mask_selection_takes_first_or_raises host_missing_mask [s1; s2]
                    initial_world eq_refl)).
    exists s2. split; [right; left; reflexivity|reflexivity].
  - split; [reflexivity|]. split; [reflexivity|].
    apply (proj2 (mask_selection_takes_first_or_raises host_two [s1; s2]
                    initial_world eq_refl)).
    intros i [<-|[<-|[]]]; discriminate.
Defined.

(* ------------------------------------------------------------------ *)
(** ** The division by the maximum of the selection *)

Lemma fold_maximum_zero (xs : list F64.float) (x : F64.float) :
  Forall (fun v => F64.is_zero v = true) (x :: xs) ->
  F64.is_zero (fold_left F64.maximum xs x) = true.
Proof.
  intros H. rewrite Forall_forall in H. apply H. apply fold_maximum_In.
Qed.

Lemma rescale_zero_by_zero (mx v : F64.float) :
  F64.is_zero mx = true -> F64.is_zero v = true ->
  F64.div v mx = S754_nan /\ F64.is_nan (rescale mx v) = true.
Proof.
  destruct mx; try discriminate. destruct v; try discriminate.
  intros _ _. split; reflexivity.
Qed.

(** C7. The divisor of the normalisation is the maximum of the selected
    slices, whatever the other slices hold, and nothing tests it: when the
    selected voxels are all zero the divisor is zero, every quotient is
    the undefined 0 / 0, and the normalised array holds no number at
    all. *)
Theorem zero_selection_divides_by_zero (nii mris : ndarray F64.float) :
  select_odd nii nii = Ok mris ->
  data mris <> [] ->
  Forall (fun v => F64.is_zero v = true) (data mris) ->
  exists mx norm,
    amax mris = Ok mx
    /\ F64.is_zero mx = true
    /\ obind (select_odd nii nii) normalise = Ok norm
    /\ norm = amap (fun v => F64.mul (F64.div v mx) F64.f255) mris
    /\ Forall (fun v => F64.div v mx = S754_nan) (data mris)
    /\ Forall (fun v => F64.is_nan v = true) (data norm).
Proof.
  intros Hsel Hne Hzero. rewrite Hsel. cbn [obind].
  unfold normalise, amax.
  destruct (data mris) as [|x xs] eqn:E; [contradiction|].
  pose proof (fold_maximum_zero xs x Hzero) as Hmx.
  exists (fold_left F64.maximum xs x).
  eexists. split; [reflexivity|]. split; [assumption|].
  split; [reflexivity|]. split; [reflexivity|].
  split.
  - rewrite Forall_forall in Hzero |- *. intros v Hv.
    now apply rescale_zero_by_zero, Hzero.
  - unfold amap. cbn [data]. rewrite E.
    rewrite Forall_forall in Hzero |- *. intros v Hv.
    apply in_map_iff in Hv. destruct Hv as (u & <- & Hu).
    now apply rescale_zero_by_zero, Hzero.
Qed.

Lemma zero_selection_divides_by_zero_witness :
  select_odd vol_dark_odd vol_dark_odd
  = Ok (mk_ndarray [1; 2; 2] [F64.zero; F64.zero; F64.zero; F64.zero])
  /\ amax vol_dark_odd = Ok (fl 5)
  /\ exists mx norm,
       amax (mk_ndarray [1; 2; 2] [F64.zero; F64.zero; F64.zero; F64.zero]) = Ok mx
       /\ F64.is_zero mx = true
       /\ obind (select_odd vol_dark_odd vol_dark_odd) normalise = Ok norm
       /\ Forall (fun v => F64.is_nan v = true) (data norm).
Proof.
  split; [reflexivity|]. split; [reflexivity|].
  destruct (zero_selection_divides_by_zero vol_dark_odd
              (mk_ndarray [1; 2; 2] [F64.zero; F64.zero; F64.zero; F64.zero])
              eq_refl ltac:(discriminate) ltac:(repeat constructor))
    as (mx & norm & H1 & H2 & H3 & _ & _ & H6).
  exists mx, norm. repeat split; assumption.
Defined.

(* ------------------------------------------------------------------ *)
(** ** What the written files hold *)

Lemma rot90_from {A : Type} (a r : ndarray A) (x : A) :
  rot90 a = Ok r -> In x (data r) -> In x (data a).
Proof.
  unfold rot90, flip1, swap01.
  destruct (shape a) as [|hh [|ww rest]]; try discriminate.
  cbn [obind shape data]. intros H. injection H as <-. cbn [data].
  intros Hx.
  apply in_flat_map in Hx. destruct Hx as (i & _ & Hx).
  apply in_flat_map in Hx. destruct Hx as (j & _ & Hx).
  apply In_block_elim in Hx.
  apply in_flat_map in Hx. destruct Hx as (j' & _ & Hx).
  apply in_flat_map in Hx. destruct Hx as (k & _ & Hx).
  now apply In_block_elim in Hx.
Qed.

Lemma at2_amap {A B : Type} (g : A -> B) (a : ndarray A) (i j : nat) :
  at2 (amap g a) i j = option_map g (at2 a i j).
Proof.
  unfold at2, amap. cbn [shape data].
  destruct (shape a) as [|hh [|ww [|? ?]]]; try reflexivity.
  destruct ((i <? hh) && (j <? ww))%bool; [|reflexivity].
  apply nth_error_map.
Qed.

(** C6. For a volume and a mask of one shape, with a first axis of length
    [d], the loop body writes one mask file per odd index of [[1, d)], as
    many as image files. The mask file of the [i]-th odd index [k] holds
    the slice [k] of the mask as loaded, rotated, each element converted
    to [uint8] on its own: the pixel at row [r], column [q] is the
    conversion of the label at row [q], column [c - 1 - r] of the slice.
    No maximum and no rescaling come between, and a label whose integer
    part is in [[0, 256)] is written as that integer part. *)
Theorem mask_written_without_rescaling (h : host) (masks : list string)
    (target_dir mask_dir : string) (idx : nat) (f m : string)
    (nii nii_mask : ndarray F64.float) (w : world) :
  nib_load h f = Some nii ->
  index masks idx = Ok m ->
  nib_load h m = Some nii_mask ->
  is_volume nii = true ->
  is_volume nii_mask = true ->
  shape nii_mask = shape nii ->
  exists out imgs segs,
    process_pair h masks target_dir mask_dir (idx, f) w
    = (out, wrote w (interleave imgs segs))
    /\ List.length imgs = List.length (odd_indices (hd 0 (shape nii)))
    /\ List.length segs = List.length (odd_indices (hd 0 (shape nii)))
    /\ (odd_indices (hd 0 (shape nii)) <> [] -> out = Ok tt)
    /\ forall i k, nth_error (odd_indices (hd 0 (shape nii))) i = Some k ->
         exists name raw turned b c,
           new_fname f i = Ok name
           /\ get0 (squeeze nii_mask) k = Ok raw
           /\ shape raw = [b; c]
           /\ rot90 raw = Ok turned
           /\ nth_error segs i
              = Some (path_join mask_dir [name], Png (amap F64.to_uint8 turned))
           /\ forall r q, r < c -> q < b ->
                exists v,
                  at2 raw q (c - 1 - r) = Some v
                  /\ at2 (amap F64.to_uint8 turned) r q = Some (F64.to_uint8 v)
                  /\ forall z, F64.truncate v = Some z -> (0 <= z < 256)%Z ->
                       at2 (amap F64.to_uint8 turned) r q = Some z.
Proof.
  intros Hf Hidx Hm Vn Vm Hs.
  destruct (Nat.lt_ge_cases (hd 0 (shape nii)) 2) as [Hd|Hd].
  - exists (Raised ValueError), [], [].
    rewrite (process_pair_flat h masks target_dir mask_dir idx f nii Hf Vn w Hd).
    cbn [interleave]. rewrite wrote_nil.
    assert (E : odd_indices (hd 0 (shape nii)) = []).
    { destruct (hd 0 (shape nii)) as [|[|d]]; [reflexivity|reflexivity|lia]. }
    rewrite E. split; [reflexivity|]. split; [reflexivity|]. split; [reflexivity|].
    split; [intros Hne; now contradiction Hne|].
    intros [|i] k Hk; discriminate.
  - destruct (process_pair_files h masks target_dir mask_dir idx f m nii nii_mask
                Hf Hidx Hm Vn Vm Hs w Hd)
      as (mris & mx & b & c & name & img & seg & rimg & rseg
          & _ & _ & _ & _ & Hall & Hrun).
    cbn zeta in *. set (n := hd 0 (shape nii) / 2) in *.
    exists (Ok tt).
    exists (map (fun i => (path_join target_dir [name i], Png (astype_uint8 (rimg i))))
              (seq 0 n)).
    exists (map (fun i => (path_join mask_dir [name i], Png (astype_uint8 (rseg i))))
              (seq 0 n)).
    rewrite <- interleave_flat_map.
    assert (Hlen : List.length (odd_indices (hd 0 (shape nii))) = n)
      by (rewrite <- arange_odd_indices; apply length_arange_odd).
    split; [exact Hrun|].
    split; [now rewrite length_map, length_seq|].
    split; [now rewrite length_map, length_seq|].
    split; [reflexivity|].
    intros i k Hk. apply nth_error_odd_indices in Hk. destruct Hk as [Hi ->].
    fold n in Hi.
    destruct (Hall i Hi) as (Hname & _ & G & _ & _ & S & L & _ & R).
    exists (name i), (seg i), (rseg i), b, c.
    rewrite nth_error_map_seq by assumption.
    do 4 (split; [assumption|]). split; [reflexivity|].
    intros r q Hr Hq.
    destruct (seg i) as [ssh sdat] eqn:Es. cbn [shape data] in S, L. subst ssh.
    destruct (rot90_quarter_turn b c sdat L) as (y & Hy & _ & Ty).
    rewrite R in Hy. injection Hy as <-.
    destruct (Ty r q Hr Hq) as (v & Hv1 & Hv2).
    exists v. split; [assumption|].
    rewrite at2_amap, Hv1. cbn [option_map]. split; [reflexivity|].
    intros z Hz Hrange. now rewrite (to_uint8_truncates v z Hz Hrange).
Qed.

Lemma mask_written_without_rescaling_witness :
  nib_load host_two (subject_image s1) = Some vol_plain
  /\ index [subject_mask s1] 0 = Ok (subject_mask s1)
  /\ nib_load host_two (subject_mask s1) = Some mask_plain
  /\ is_volume vol_plain = true
  /\ is_volume mask_plain = true
  /\ shape mask_plain = shape vol_plain
  /\ get0 (squeeze mask_plain) 1 = Ok (mk_ndarray [2; 2] (map fl [0; 1; 2; 3]%Z))
  /\ get0 (squeeze mask_plain) 3 = Ok (mk_ndarray [2; 2] (map fl [3; 2; 1; 0]%Z))
  /\ exists imgs segs,
       process_pair host_two [subject_mask s1] "train" "train_annotation"
         (0, subject_image s1) initial_world
       = (Ok tt, wrote initial_world (interleave imgs segs))
       /\ List.length imgs = 2
       /\ List.length segs = 2
       /\ nth_error segs 0
          = Some ("train_annotation/OAS1_0001_MR1_mpr_n4_anon_111_t88_0.png",
                  Png (mk_ndarray [2; 2] [1; 3; 0; 2]%Z))
       /\ nth_error segs 1
          = Some ("train_annotation/OAS1_0001_MR1_mpr_n4_anon_111_t88_1.png",
                  Png (mk_ndarray [2; 2] [2; 0; 3; 1]%Z)).
Proof.
  repeat (split; [reflexivity|]).
  destruct (mask_written_without_rescaling host_two [subject_mask s1]
              "train" "train_annotation" 0 (subject_image s1) (subject_mask s1)
              vol_plain mask_plain initial_world
              eq_refl eq_refl eq_refl eq_refl eq_refl eq_refl)
    as (out & imgs & segs & Hrun & Hli & Hls & Hout & Hall).
  rewrite (Hout ltac:(discriminate)) in Hrun.
  exists imgs, segs.
  split; [exact Hrun|]. split; [exact Hli|]. split; [exact Hls|].
  split.
  - destruct (Hall 0 1 eq_refl) as (name & raw & turned & b & c & Hn & Hg & _ & Hr & Hw & _).
    vm_compute in Hn. injection Hn as <-.
    vm_compute in Hg. injection Hg as <-.
    vm_compute in Hr. injection Hr as <-.
    exact Hw.
  - destruct (Hall 1 3 eq_refl) as (name & raw & turned & b & c & Hn & Hg & _ & Hr & Hw & _).
    vm_compute in Hn. injection Hn as <-.
    vm_compute in Hg. injection Hg as <-.
    vm_compute in Hr. injection Hr as <-.
    exact Hw.
Defined.

(* ------------------------------------------------------------------ *)
(** ** The names of the written files *)

(** The name [new_fname] builds: with [stem] the part of the base name of
    [f] before its first ['.'], and [tokens] the pieces of [stem] between
    its underscores, the first eight tokens joined by underscores, then
    ["_<i>.png"]. *)
Lemma new_fname_structure (f : string) (i : nat) :
  exists stem tokens,
    occurs "/" (basename f) = false
    /\ (f = basename f \/ exists dir, f = (dir ++ String "/" (basename f))%string)
    /\ occurs "." stem = false
    /\ (basename f = stem \/ exists ext, basename f = (stem ++ String "." ext)%string)
    /\ join "_" tokens = stem
    /\ Forall (fun t => occurs "_" t = false) tokens
    /\ new_fname f i
       = Ok (join "_" (firstn 8 tokens) ++ ("_" ++ str_of_nat i ++ ".png"))%string.
Proof.
  destruct (split_last "/" f) as [Hb Hdir].
  destruct (split_head "." (basename f)) as (stem & rest & Hsplit & Hstem & Hext).
  exists stem, (split "_" stem).
  split; [exact Hb|]. split; [exact Hdir|]. split; [exact Hstem|].
  split.
  { destruct Hext as [[E _]|[tail E]]; [now left|right; now exists tail]. }
  split; [apply join_split|]. split; [apply split_no_sep|].
  unfold new_fname. now rewrite Hsplit.
Qed.

(** C8. For a volume and a mask of one shape, with a first axis of length
    [d], the loop body writes one image file and one mask file per odd
    index of [[1, d)]. The two files of the [i]-th one carry one file
    name, joined to the image directory and to the mask directory; the
    name is made of the first eight underscore-separated tokens of the
    base name of [f] cut at its first ['.'], joined by underscores, and of
    ["_<i>.png"]. *)
Theorem slice_files_share_name (h : host) (masks : list string)
    (target_dir mask_dir : string) (idx : nat) (f m : string)
    (nii nii_mask : ndarray F64.float) (w : world) :
  nib_load h f = Some nii ->
  index masks idx = Ok m ->
  nib_load h m = Some nii_mask ->
  is_volume nii = true ->
  is_volume nii_mask = true ->
  shape nii_mask = shape nii ->
  exists out imgs segs,
    process_pair h masks target_dir mask_dir (idx, f) w
    = (out, wrote w (interleave imgs segs))
    /\ List.length imgs = List.length (odd_indices (hd 0 (shape nii)))
    /\ List.length segs = List.length (odd_indices (hd 0 (shape nii)))
    /\ (odd_indices (hd 0 (shape nii)) <> [] -> out = Ok tt)
    /\ forall i, i < List.length (odd_indices (hd 0 (shape nii))) ->
         exists stem tokens name x y,
           occurs "/" (basename f) = false
           /\ (f = basename f \/ exists dir, f = (dir ++ String "/" (basename f))%string)
           /\ occurs "." stem = false
           /\ (basename f = stem
               \/ exists ext, basename f = (stem ++ String "." ext)%string)
           /\ join "_" tokens = stem
           /\ Forall (fun t => occurs "_" t = false) tokens
           /\ name = (join "_" (firstn 8 tokens) ++ ("_" ++ str_of_nat i ++ ".png"))%string
           /\ new_fname f i = Ok name
           /\ nth_error imgs i = Some (path_join target_dir [name], Png x)
           /\ nth_error segs i = Some (path_join mask_dir [name], Png y).
Proof.
  intros Hf Hidx Hm Vn Vm Hs.
  destruct (Nat.lt_ge_cases (hd 0 (shape nii)) 2) as [Hd|Hd].
  - exists (Raised ValueError), [], [].
    rewrite (process_pair_flat h masks target_dir mask_dir idx f nii Hf Vn w Hd).
    cbn [interleave]. rewrite wrote_nil.
    assert (E : odd_indices (hd 0 (shape nii)) = []).
    { destruct (hd 0 (shape nii)) as [|[|d]]; [reflexivity|reflexivity|lia]. }
    rewrite E. split; [reflexivity|]. split; [reflexivity|]. split; [reflexivity|].
    split; [intros Hne; now contradiction Hne|].
    cbn [List.length]. intros i Hi. lia.
  - destruct (process_pair_files h masks target_dir mask_dir idx f m nii nii_mask
                Hf Hidx Hm Vn Vm Hs w Hd)
      as (mris & mx & b & c & name & img & seg & rimg & rseg
          & _ & _ & _ & _ & Hall & Hrun).
    cbn zeta in *. set (n := hd 0 (shape nii) / 2) in *.
    exists (Ok tt).
    exists (map (fun i => (path_join target_dir [name i], Png (astype_uint8 (rimg i))))
              (seq 0 n)).
    exists (map (fun i => (path_join mask_dir [name i], Png (astype_uint8 (rseg i))))
              (seq 0 n)).
    rewrite <- interleave_flat_map.
    assert (Hlen : List.length (odd_indices (hd 0 (shape nii))) = n)
      by (rewrite <- arange_odd_indices; apply length_arange_odd).
    rewrite Hlen.
    split; [exact Hrun|].
    split; [now rewrite length_map, length_seq|].
    split; [now rewrite length_map, length_seq|].
    split; [reflexivity|].
    intros i Hi.
    rewrite !nth_error_map_seq by assumption.
    destruct (Hall i Hi) as (Hname & _).
    destruct (new_fname_structure f i) as (stem & tokens & H1 & H2 & H3 & H4 & H5 & H6 & H7).
    exists stem, tokens, (name i), (astype_uint8 (rimg i)), (astype_uint8 (rseg i)).
    assert (E : name i
                = (join "_" (firstn 8 tokens) ++ ("_" ++ str_of_nat i ++ ".png"))%string)
      by congruence.
    repeat split; try assumption.
Qed.

Lemma slice_files_share_name_witness :
  nib_load host_two (subject_image s1) = Some vol_plain
  /\ index [subject_mask s1] 0 = Ok (subject_mask s1)
  /\ nib_load host_two (subject_mask s1) = Some mask_plain
  /\ is_volume vol_plain = true
  /\ is_volume mask_plain = true
  /\ shape mask_plain = shape vol_plain
  /\ basename (subject_image s1) = "OAS1_0001_MR1_mpr_n4_anon_111_t88_gfc.img"
  /\ exists imgs segs x0 y0 x1 y1,
       process_pair host_two [subject_mask s1] "train" "train_annotation"
         (0, subject_image s1) initial_world
       = (Ok tt, wrote initial_world (interleave imgs segs))
       /\ imgs = [("train/OAS1_0001_MR1_mpr_n4_anon_111_t88_0.png", Png x0);
                  ("train/OAS1_0001_MR1_mpr_n4_anon_111_t88_1.png", Png x1)]
       /\ segs = [("train_annotation/OAS1_0001_MR1_mpr_n4_anon_111_t88_0.png", Png y0);
                  ("train_annotation/OAS1_0001_MR1_mpr_n4_anon_111_t88_1.png", Png y1)].
Proof.
  repeat (split; [reflexivity|]).
  destruct (slice_files_share_name host_two [subject_mask s1]
              "train" "train_annotation" 0 (subject_image s1) (subject_mask s1)
              vol_plain mask_plain initial_world
              eq_refl eq_refl eq_refl eq_refl eq_refl eq_refl)
    as (out & imgs & segs & Hrun & Hli & Hls & Hout & Hall).
  rewrite (Hout ltac:(discriminate)) in Hrun.
  destruct (Hall 0 ltac:(cbn; lia))
    as (st0 & tk0 & n0 & x0 & y0 & _ & _ & _ & _ & _ & _ & _ & Hn0 & Hi0 & Hs0).
  destruct (Hall 1 ltac:(cbn; lia))
    as (st1 & tk1 & n1 & x1 & y1 & _ & _ & _ & _ & _ & _ & _ & Hn1 & Hi1 & Hs1).
  vm_compute in Hn0. injection Hn0 as <-.
  vm_compute in Hn1. injection Hn1 as <-.
  exists imgs, segs, x0, y0, x1, y1.
  split; [exact Hrun|].
  destruct imgs as [|a0 [|a1 [|a2 imgs]]]; try discriminate Hli.
  destruct segs as [|b0 [|b1 [|b2 segs]]]; try discriminate Hls.
  cbn in Hi0, Hi1, Hs0, Hs1.
  injection Hi0 as ->. injection Hi1 as ->. injection Hs0 as ->. injection Hs1 as ->.
  split; reflexivity.
Defined.

(* ------------------------------------------------------------------ *)
(** ** The rotation of the written slices *)

(** C9. For a volume and a mask of one shape, with a first axis of length
    [d], the loop body writes one image file and one mask file per odd
    index of [[1, d)]. The two files of the [i]-th odd index [k] are
    [rot90], applied once, of the [b] by [c] slice [k] of the rescaled
    volume and of the mask: they have [c] rows and [b] columns, and the
    pixel at row [r], column [q] is the converted element at row [q],
    column [c - 1 - r] of the slice, so that the last column of the slice
    is the first row of the file: a quarter turn against the clock. *)
Theorem slices_turned_once_counter_clockwise (h : host) (masks : list string)
    (target_dir mask_dir : string) (idx : nat) (f m : string)
    (nii nii_mask : ndarray F64.float) (w : world) :
  nib_load h f = Some nii ->
  index masks idx = Ok m ->
  nib_load h m = Some nii_mask ->
  is_volume nii = true ->
  is_volume nii_mask = true ->
  shape nii_mask = shape nii ->
  exists out imgs segs,
    process_pair h masks target_dir mask_dir (idx, f) w
    = (out, wrote w (interleave imgs segs))
    /\ List.length imgs = List.length (odd_indices (hd 0 (shape nii)))
    /\ List.length segs = List.length (odd_indices (hd 0 (shape nii)))
    /\ (odd_indices (hd 0 (shape nii)) <> [] -> out = Ok tt)
    /\ forall i k, nth_error (odd_indices (hd 0 (shape nii))) i = Some k ->
         exists mris mx name vol_slice mask_slice x y b c,
           select_odd nii nii = Ok mris /\ amax mris = Ok mx
           /\ new_fname f i = Ok name
           /\ get0 (squeeze nii) k = Ok vol_slice
           /\ get0 (squeeze nii_mask) k = Ok mask_slice
           /\ shape vol_slice = [b; c] /\ shape mask_slice = [b; c]
           /\ rot90 (amap (rescale mx) vol_slice) = Ok x
           /\ rot90 mask_slice = Ok y
           /\ nth_error imgs i = Some (path_join target_dir [name], Png (astype_uint8 x))
           /\ nth_error segs i = Some (path_join mask_dir [name], Png (astype_uint8 y))
           /\ shape (astype_uint8 x) = [c; b] /\ shape (astype_uint8 y) = [c; b]
           /\ forall r q, r < c -> q < b ->
                (exists v,
                   at2 vol_slice q (c - 1 - r) = Some v
                   /\ at2 (astype_uint8 x) r q = Some (F64.to_uint8 (rescale mx v)))
                /\ (exists v,
                      at2 mask_slice q (c - 1 - r) = Some v
                      /\ at2 (astype_uint8 y) r q = Some (F64.to_uint8 v)).
Proof.
  intros Hf Hidx Hm Vn Vm Hs.
  destruct (Nat.lt_ge_cases (hd 0 (shape nii)) 2) as [Hd|Hd].
  - exists (Raised ValueError), [], [].
    rewrite (process_pair_flat h masks target_dir mask_dir idx f nii Hf Vn w Hd).
    cbn [interleave]. rewrite wrote_nil.
    assert (E : odd_indices (hd 0 (shape nii)) = []).
    { destruct (hd 0 (shape nii)) as [|[|d]]; [reflexivity|reflexivity|lia]. }
    rewrite E. split; [reflexivity|]. split; [reflexivity|]. split; [reflexivity|].
    split; [intros Hne; now contradiction Hne|].
    intros [|i] k Hk; discriminate.
  - destruct (process_pair_files h masks target_dir mask_dir idx f m nii nii_mask
                Hf Hidx Hm Vn Vm Hs w Hd)
      as (mris & mx & b & c & name & img & seg & rimg & rseg
          & Hsel & Hmx & _ & _ & Hall & Hrun).
    cbn zeta in *. set (n := hd 0 (shape nii) / 2) in *.
    exists (Ok tt).
    exists (map (fun i => (path_join target_dir [name i], Png (astype_uint8 (rimg i))))
              (seq 0 n)).
    exists (map (fun i => (path_join mask_dir [name i], Png (astype_uint8 (rseg i))))
              (seq 0 n)).
    rewrite <- interleave_flat_map.
    split; [exact Hrun|].
    assert (Hlen : List.length (odd_indices (hd 0 (shape nii))) = n)
      by (rewrite <- arange_odd_indices; apply length_arange_odd).
    split; [now rewrite length_map, length_seq|].
    split; [now rewrite length_map, length_seq|].
    split; [reflexivity|].
    intros i k Hk. apply nth_error_odd_indices in Hk. destruct Hk as [Hi ->].
    fold n in Hi.
    rewrite !nth_error_map_seq by assumption.
    destruct (Hall i Hi) as (Hname & G & G' & S & L & S' & L' & R & R').
    exists mris, mx, (name i), (img i), (seg i), (rimg i), (rseg i), b, c.
    destruct (img i) as [ish idat] eqn:Ei. destruct (seg i) as [ssh sdat] eqn:Es.
    cbn [shape data] in S, L, S', L'. subst ish ssh.
    destruct (rot90_quarter_turn b c (map (rescale mx) idat)
                ltac:(now rewrite length_map)) as (x & Hx & Sx & Tx).
    destruct (rot90_quarter_turn b c sdat L') as (y & Hy & Sy & Ty).
    unfold amap in R. cbn [shape data] in R.
    rewrite R in Hx. injection Hx as <-. rewrite R' in Hy. injection Hy as <-.
    do 13 (split; [first [assumption | reflexivity]|]).
    intros r q Hr Hq. split.
    + destruct (Tx r q Hr Hq) as (v & Hv1 & Hv2).
      change (mk_ndarray [b; c] (map (rescale mx) idat))
        with (amap (rescale mx) (mk_ndarray [b; c] idat)) in Hv2.
      rewrite at2_amap in Hv2.
      destruct (at2 (mk_ndarray [b; c] idat) q (c - 1 - r)) as [u|]; [|discriminate].
      cbn in Hv2. injection Hv2 as <-.
      exists u. split; [reflexivity|].
      unfold astype_uint8. rewrite at2_amap, Hv1. reflexivity.
    + destruct (Ty r q Hr Hq) as (v & Hv1 & Hv2).
      exists v. split; [assumption|].
      unfold astype_uint8. rewrite at2_amap, Hv1. reflexivity.
Qed.

Lemma slices_turned_once_counter_clockwise_witness :
  nib_load host_two (subject_image s1) = Some vol_plain
  /\ index [subject_mask s1] 0 = Ok (subject_mask s1)
  /\ nib_load host_two (subject_mask s1) = Some mask_plain
  /\ is_volume vol_plain = true
  /\ is_volume mask_plain = true
  /\ shape mask_plain = shape vol_plain
  /\ get0 (squeeze vol_plain) 1 = Ok (mk_ndarray [2; 2] (map fl [5; 6; 7; 8]%Z))
  /\ get0 (squeeze mask_plain) 1 = Ok (mk_ndarray [2; 2] (map fl [0; 1; 2; 3]%Z))
  /\ exists imgs segs,
       process_pair host_two [subject_mask s1] "train" "train_annotation"
         (0, subject_image s1) initial_world
       = (Ok tt, wrote initial_world (interleave imgs segs))
       /\ List.length imgs = 2
       /\ List.length segs = 2
       /\ nth_error imgs 0
          = Some ("train/OAS1_0001_MR1_mpr_n4_anon_111_t88_0.png",
                  Png (mk_ndarray [2; 2] [95; 127; 79; 111]%Z))
       /\ nth_error segs 0
          = Some ("train_annotation/OAS1_0001_MR1_mpr_n4_anon_111_t88_0.png",
                  Png (mk_ndarray [2; 2] [1; 3; 0; 2]%Z)).
Proof.
  repeat (split; [reflexivity|]).
  destruct (slices_turned_once_counter_clockwise host_two [subject_mask s1]
              "train" "train_annotation" 0 (subject_image s1) (subject_mask s1)
              vol_plain mask_plain initial_world
              eq_refl eq_refl eq_refl eq_refl eq_refl eq_refl)
    as (out & imgs & segs & Hrun & Hli & Hls & Hout & Hall).
  rewrite (Hout ltac:(discriminate)) in Hrun.
  exists imgs, segs.
  split; [exact Hrun|]. split; [exact Hli|]. split; [exact Hls|].
  destruct (Hall 0 1 eq_refl)
    as (mris & mx & name & vs & ms & x & y & b & c
        & Hsel & Hmx & Hn & Hv & Hm & _ & _ & Hx & Hy & Hwi & Hws & _).
  vm_compute in Hsel. injection Hsel as <-.
  vm_compute in Hmx. injection Hmx as <-.
  vm_compute in Hn. injection Hn as <-.
  vm_compute in Hv. injection Hv as <-.
  vm_compute in Hm. injection Hm as <-.
  vm_compute in Hx. injection Hx as <-.
  vm_compute in Hy. injection Hy as <-.
  split; [exact Hwi | exact Hws].
Defined.

(* ------------------------------------------------------------------ *)
(** ** The label map *)

Lemma bind_ok_inv {A B : Type} (c : M A) (k : A -> M B) (w w' : world) (b : B) :
  bind c k w = (Ok b, w') ->
  exists a w1, c w = (Ok a, w1) /\ k a w1 = (Ok b, w').
Proof.
  unfold bind. destruct (c w) as [[a|e] w1]; [|discriminate].
  intros H. now exists a, w1.
Qed.

(** C10, against the claim as stated. A run that an exception ends before
    the last statement writes no label map: with a subject that has no
    mask file, [main] ends with [IndexError] at the mask selection and no
    file at all is written. *)
Lemma label_map_not_written_counterexample :
  main host_missing_mask initial_world = (Raised IndexError, initial_world)
  /\ existsb (fun pc => String.eqb (fst pc) label_map_path)
       (files_written (snd (main host_missing_mask initial_world))) = false.
Proof. split; vm_compute; reflexivity. Qed.

(** C10, amended. Whatever the input, a run of [main] that reaches its end
    has written, last of all, the file [train_label_map.json] of the
    directory [label_map] of the output, and the text of that file is the
    JSON object with the one member ["scale"] of value 1. *)
Theorem label_map_is_constant (h : host) (w w' : world) :
  main h w = (Ok tt, w') ->
  exists earlier,
    files_written w'
    = earlier ++ [("/opt/ml/processing/output/label_map/train_label_map.json",
                   Text scale_one_text)]
    /\ scale_one_text = json_dumps label_map
    /\ existsb (String.eqb "/opt/ml/processing/output/label_map") (dirs w') = true.
Proof.
  unfold main. intros H.
  apply bind_ok_inv in H. destruct H as (indices & w1 & _ & H).
  apply bind_ok_inv in H. destruct H as (masks & w2 & _ & H).
  apply bind_ok_inv in H. destruct H as ([[[tri vai] trm] vam] & w3 & _ & H).
  cbn beta iota in H.
  do 6 (apply bind_ok_inv in H; destruct H as (? & ? & _ & H)).
  apply bind_ok_inv in H. destruct H as ([] & wd & Hdir & H).
  unfold json_dump in H. injection H as <-. cbn [files_written dirs].
  exists (files_written wd). split; [reflexivity|]. split; [reflexivity|].
  apply (f_equal snd) in Hdir. cbn [snd] in Hdir. rewrite <- Hdir.
  apply existsb_eqb_In.
  apply (create_dir_adds (path_join output_data_path ["label_map"]));
    [discriminate|reflexivity].
Qed.

Lemma label_map_is_constant_witness :
  main host_two initial_world = (Ok tt, snd (main host_two initial_world))
  /\ exists earlier,
       files_written (snd (main host_two initial_world))
       = earlier ++ [("/opt/ml/processing/output/label_map/train_label_map.json",
                      Text scale_one_text)].
Proof.
  split; [vm_compute; reflexivity|].
  destruct (label_map_is_constant host_two initial_world
              (snd (main host_two initial_world))
              ltac:(vm_compute; reflexivity))
    as (earlier & H & _).
  exists earlier. exact H.
Defined.

(* ================================================================== *)
(** * Further properties *)
(* ================================================================== *)

(* ------------------------------------------------------------------ *)
(** ** What a run can change *)

Section Effects.

Variables (P : string * content -> Prop) (Q D : string -> Prop).

Lemma effect_ret {A : Type} (a : A) : effect P Q D (ret a).
Proof.
  intros w. exists [], [], []. cbn. rewrite !app_nil_r.
  destruct w; repeat split; constructor.
Qed.

Lemma effect_lift {A : Type} (o : outcome A) : effect P Q D (lift o).
Proof.
  intros w. exists [], [], []. cbn. rewrite !app_nil_r.
  destruct w; repeat split; constructor.
Qed.

Lemma effect_bind {A B : Type} (c : M A) (k : A -> M B) :
  effect P Q D c ->
  (forall a w w', c w = (Ok a, w') -> effect P Q D (k a)) ->
  effect P Q D (bind c k).
Proof.
  intros Hc Hk w. unfold bind.
  destruct (Hc w) as (ws & ls & ds & E & HP & HQ & HD).
  destruct (c w) as [[a|e] w1] eqn:Ec; cbn [snd] in E.
  - destruct (Hk a w w1 Ec w1) as (ws' & ls' & ds' & E' & HP' & HQ' & HD').
    exists (ws ++ ws'), (ls ++ ls'), (ds ++ ds').
    rewrite E'. subst w1. cbn [files_written stdout dirs].
    rewrite !app_assoc. repeat split; try reflexivity; now apply Forall_app.
  - exists ws, ls, ds. cbn [snd]. now repeat split.
Qed.

Lemma effect_bind_lift {A B : Type} (o : outcome A) (k : A -> M B) :
  (forall a, o = Ok a -> effect P Q D (k a)) ->
  effect P Q D (bind (lift o) k).
Proof.
  intros Hk. apply effect_bind; [apply effect_lift|].
  intros a w w' E. apply Hk. unfold lift in E. congruence.
Qed.

Lemma effect_for_each {A : Type} (l : list A) (body : A -> M unit) :
  (forall x, In x l -> effect P Q D (body x)) ->
  effect P Q D (for_each l body).
Proof.
  induction l as [|x l IH]; intros H; [apply effect_ret|].
  cbn [for_each]. apply effect_bind; [apply H; now left|].
  intros _ _ _ _. apply IH. intros y Hy. apply H. now right.
Qed.

Lemma effect_imsave (path : string) (a : ndarray Z) :
  P (path, Png a) -> effect P Q D (imsave path a).
Proof.
  intros HP w. unfold imsave. destruct (is_image a).
  - exists [(path, Png a)], [], []. cbn. rewrite !app_nil_r.
    repeat split; repeat constructor. assumption.
  - exists [], [], []. cbn. rewrite !app_nil_r.
    destruct w; repeat split; constructor.
Qed.

Lemma effect_print (s : string) : Q s -> effect P Q D (print s).
Proof.
  intros HQ w. exists [], [s], []. cbn. rewrite !app_nil_r.
  repeat split; repeat constructor. assumption.
Qed.

Lemma effect_json_dump (d : list (string * Z)) (path : string) :
  P (path, Text (json_dumps d)) -> effect P Q D (json_dump d path).
Proof.
  intros HP w. exists [(path, Text (json_dumps d))], [], []. cbn.
  rewrite !app_nil_r. repeat split; repeat constructor. assumption.
Qed.

Lemma effect_create_dir (d : string) :
  (forall q, In q (ancestors d) -> D q) -> D d ->
  effect P Q D (create_dir_if_not_exist d).
Proof.
  intros HA HD w.
  destruct (create_dir_cases d w) as [[_ E]|[[_ E]|(_ & _ & E)]]; rewrite E.
  - exists [], [], []. cbn. rewrite !app_nil_r.
    destruct w; repeat split; constructor.
  - exists [], [], []. cbn. rewrite !app_nil_r.
    destruct w; repeat split; constructor.
  - exists [], [], (filter (fun q => negb (path_exists q w)) (ancestors d) ++ [d]).
    cbn. rewrite !app_nil_r. repeat split; try constructor.
    apply Forall_app. split; [|now repeat constructor].
    apply Forall_forall. intros q Hq. apply filter_In in Hq. now apply HA.
Qed.

End Effects.

Lemma effect_weaken (P P' : string * content -> Prop) (Q Q' D D' : string -> Prop)
    {A : Type} (c : M A) :
  (forall x, P x -> P' x) -> (forall x, Q x -> Q' x) -> (forall x, D x -> D' x) ->
  effect P Q D c -> effect P' Q' D' c.
Proof.
  intros HP HQ HD Hc w.
  destruct (Hc w) as (ws & ls & ds & E & H1 & H2 & H3).
  exists ws, ls, ds. split; [assumption|].
  repeat split; eapply Forall_impl; eauto.
Qed.

Lemma rot_slice_bytes (a : ndarray F64.float) (i : nat) (x : ndarray Z) :
  rot_slice a i = Ok x -> Forall is_byte (data x).
Proof.
  unfold rot_slice.
  destruct (obind (get0 a i) rot90) as [r|e]; [|discriminate].
  cbn [obind]. intros H. injection H as <-.
  unfold astype_uint8, amap. cbn [data].
  apply Forall_forall. intros p Hp. apply in_map_iff in Hp.
  destruct Hp as (v & <- & _). apply to_uint8_range.
Qed.

(** The loop body appends slice files of its volume and mismatch lines,
    and nothing else. *)
Lemma process_pair_effect (h : host) (images masks : list string)
    (target_dir mask_dir : string) (idx : nat) (f : string) :
  In f images ->
  effect (slice_file images target_dir mask_dir) mismatch_line no_directory
    (process_pair h masks target_dir mask_dir (idx, f)).
Proof.
  intros Hin. unfold process_pair. cbn [fst snd].
  unfold load. apply effect_bind_lift. intros nii _.
  apply effect_bind_lift. intros mris0 _.
  apply effect_bind_lift. intros mris _.
  apply effect_bind_lift. intros m _.
  apply effect_bind_lift. intros nii_mask _.
  apply effect_bind_lift. intros segs _.
  destruct (negb (tuple_eqb (shape nii) (shape nii_mask))).
  - apply effect_print. now exists (shape nii), (shape nii_mask).
  - apply effect_bind_lift. intros n _.
    apply effect_for_each. intros i _.
    unfold save_slice.
    apply effect_bind_lift. intros name Hname.
    apply effect_bind_lift. intros x Hx.
    apply effect_bind_lift. intros y Hy.
    apply effect_bind.
    + apply effect_imsave. exists f, i, name, x. cbn [fst snd].
      repeat split; auto. exact (rot_slice_bytes _ _ _ Hx).
    + intros _ _ _ _.
      apply effect_imsave. exists f, i, name, y. cbn [fst snd].
      repeat split; auto. exact (rot_slice_bytes _ _ _ Hy).
Qed.

(** X2. Whatever the files hold and however the run ends, [process_mris]
    only appends to the world: the files it writes are images of bytes
    (every pixel in [[0, 255]]) in the image or in the mask directory,
    under a name [new_fname] gives to one of its volumes; the lines it
    prints are shape-mismatch lines; it creates no directory; and no file
    written or line printed before is changed. *)
Theorem process_mris_only_appends_slice_files (h : host) (images masks : list string)
    (target_dir mask_dir : string) :
  effect (slice_file images target_dir mask_dir) mismatch_line no_directory
    (process_mris h images masks target_dir mask_dir).
Proof.
  unfold process_mris. apply effect_for_each.
  intros [idx f] Hin. apply in_combine_r in Hin.
  now apply process_pair_effect.
Qed.

(* ------------------------------------------------------------------ *)
(** ** A pair that is not processed *)

Lemma largest_odd_index (d : nat) :
  0 < d / 2 -> In (2 * (d / 2) - 1) (arange 1 d 2).
Proof.
  intros H. rewrite arange_odd. apply in_map_iff.
  exists (d / 2 - 1). split; [lia|]. apply in_seq. lia.
Qed.

(** The selection from an array [a] with the odd indices of the volume
    [nii]: it succeeds when the squeezed [a] has three axes or more and a
    first axis that holds the largest index, and raises [IndexError]
    otherwise. *)
Lemma select_odd_other (nii a : ndarray F64.float) (d : nat) (t : list nat) :
  shape nii = d :: t ->
  (forall da r1 r2 rest,
     squeeze_shape (shape a) = da :: r1 :: r2 :: rest -> 2 * (d / 2) <= da ->
     exists sel, select_odd nii a = Ok sel)
  /\ ((forall da r1 r2 rest,
         squeeze_shape (shape a) = da :: r1 :: r2 :: rest -> da < 2 * (d / 2)) ->
      select_odd nii a = Raised IndexError).
Proof.
  intros Es. unfold select_odd, take0, squeeze. rewrite Es.
  cbn [index nth_error obind shape data]. split.
  - intros da r1 r2 rest Eq Hda. rewrite Eq.
    replace (forallb (fun k => k <? da) (arange 1 d 2)) with true; [eauto|].
    symmetry. apply forallb_forall. intros k Hk. apply Nat.ltb_lt.
    rewrite arange_odd in Hk. apply in_map_iff in Hk.
    destruct Hk as (i & <- & Hi). apply in_seq in Hi. lia.
  - intros Hshort.
    destruct (squeeze_shape (shape a)) as [|da [|r1 [|r2 rest]]]; try reflexivity.
    specialize (Hshort da r1 r2 rest eq_refl).
    destruct (forallb (fun k => k <? da) (arange 1 d 2)) eqn:E; [|reflexivity].
    rewrite forallb_forall in E.
    assert (Hpos : 0 < d / 2) by lia.
    specialize (E _ (largest_odd_index d Hpos)). apply Nat.ltb_lt in E. lia.
Qed.

Lemma volume_normalises (nii : ndarray F64.float) :
  is_volume nii = true -> 2 <= hd 0 (shape nii) ->
  exists d t mris norm,
    shape nii = d :: t /\ hd 0 (shape nii) = d
    /\ select_odd nii nii = Ok mris /\ normalise mris = Ok norm.
Proof.
  intros V Hd.
  destruct (select_odd_slices nii nii V eq_refl Hd)
    as (b & c & mris & Hb & Hc & Hsel & _ & Hlen & _).
  cbn zeta in Hlen.
  destruct (volume_geometry nii V) as (d & t & _ & _ & _ & Es & _).
  rewrite Es in Hd, Hlen. cbn [hd] in Hd, Hlen.
  assert (Hne : data mris <> []).
  { intros E. rewrite E in Hlen. cbn [List.length size fold_right] in Hlen.
    assert (0 < d / 2) by (destruct (parity_split d); lia).
    assert (0 < d / 2 * (b * (c * 1))) by (repeat apply Nat.mul_pos_pos; lia).
    lia. }
  destruct (amax_In mris Hne) as (mx & Hmx & _).
  exists d, t, mris, (amap (rescale mx) mris).
  rewrite Es. repeat split; try assumption.
  unfold normalise. now rewrite Hmx.
Qed.

(** X3. The dimension check as it works: for a volume with two slices or
    more and a mask of another shape, whose squeezed array has three axes
    or more and a first axis long enough for the odd indices of the
    volume, the pair is skipped: one line with the two shapes is printed,
    no file is written, and the loop body ends normally. *)
Theorem longer_mask_of_other_shape_is_skipped (h : host) (masks : list string)
    (target_dir mask_dir : string) (idx : nat) (f m : string)
    (nii nii_mask : ndarray F64.float) (da r1 r2 : nat) (rest : list nat)
    (w : world) :
  nib_load h f = Some nii ->
  index masks idx = Ok m ->
  nib_load h m = Some nii_mask ->
  is_volume nii = true ->
  2 <= hd 0 (shape nii) ->
  squeeze_shape (shape nii_mask) = da :: r1 :: r2 :: rest ->
  2 * (hd 0 (shape nii) / 2) <= da ->
  shape nii <> shape nii_mask ->
  process_pair h masks target_dir mask_dir (idx, f) w
  = (Ok tt,
     mk_world (files_written w)
       (stdout w ++ [("Dimension of image and mask do not match. "
                      ++ str_of_tuple (shape nii) ++ " "
                      ++ str_of_tuple (shape nii_mask))%string])
       (dirs w)).
Proof.
  intros Hf Hidx Hm V Hd Eq Hda Hne.
  destruct (volume_normalises nii V Hd) as (d & t & mris & norm & Es & Ed & Hsel & Hnorm).
  rewrite Ed in Hda.
  destruct (proj1 (select_odd_other nii nii_mask d t Es) da r1 r2 rest Eq Hda)
    as (segs & Hsegs).
  exact (process_pair_mismatch_skipped h masks target_dir mask_dir idx f m
           nii nii_mask mris norm segs w Hf Hidx Hm Hsel Hnorm Hsegs Hne).
Qed.

Lemma longer_mask_of_other_shape_is_skipped_witness :
  nib_load host_long_mask (subject_image s1) = Some vol_dark_odd
  /\ nib_load host_long_mask (subject_mask s1) = Some mask_four
  /\ process_pair host_long_mask [subject_mask s1] "train" "train_annotation"
       (0, subject_image s1) initial_world
     = (Ok tt,
        mk_world []
          ["Dimension of image and mask do not match. (2, 2, 2) (4, 2, 2)"] []).
Proof.
  split; [reflexivity|]. split; [reflexivity|].
  exact (longer_mask_of_other_shape_is_skipped host_long_mask [subject_mask s1]
           "train" "train_annotation" 0 (subject_image s1) (subject_mask s1)
           vol_dark_odd mask_four 4 2 2 [] initial_world
           eq_refl eq_refl eq_refl eq_refl ltac:(cbn; lia) eq_refl ltac:(cbn; lia)
           ltac:(discriminate)).
Defined.

(** X4. The mask side of a pair can end the run: for a volume with two
    slices or more, [IndexError] is raised when there is no mask at the
    position of the volume, or when the squeezed mask has fewer than three
    axes or a first axis too short for the largest odd index of the
    volume; [FileNotFoundError] is raised when the mask cannot be loaded.
    In each case nothing is written and nothing is printed: the dimension
    check is not reached. *)
Theorem mask_errors_end_the_pair (h : host) (masks : list string)
    (target_dir mask_dir : string) (idx : nat) (f : string)
    (nii : ndarray F64.float) (w : world) :
  nib_load h f = Some nii ->
  is_volume nii = true ->
  2 <= hd 0 (shape nii) ->
  (index masks idx = Raised IndexError ->
     process_pair h masks target_dir mask_dir (idx, f) w = (Raised IndexError, w))
  /\ (forall m, index masks idx = Ok m -> nib_load h m = None ->
        process_pair h masks target_dir mask_dir (idx, f) w
        = (Raised FileNotFoundError, w))
  /\ (forall m nii_mask,
        index masks idx = Ok m -> nib_load h m = Some nii_mask ->
        (forall da r1 r2 rest,
           squeeze_shape (shape nii_mask) = da :: r1 :: r2 :: rest ->
           da < 2 * (hd 0 (shape nii) / 2)) ->
        process_pair h masks target_dir mask_dir (idx, f) w = (Raised IndexError, w)).
Proof.
  intros Hf V Hd.
  destruct (volume_normalises nii V Hd) as (d & t & mris & norm & Es & Ed & Hsel & Hnorm).
  split; [|split].
  - intros Hidx. unfold process_pair, load. cbn [fst snd]. rewrite Hf.
    rewrite (bind_lift_ok _ _ _ _ eq_refl).
    rewrite (bind_lift_ok _ _ _ _ Hsel).
    rewrite (bind_lift_ok _ _ _ _ Hnorm).
    now rewrite (bind_lift_raised _ _ _ _ Hidx).
  - intros m Hidx Hm. unfold process_pair, load. cbn [fst snd]. rewrite Hf.
    rewrite (bind_lift_ok _ _ _ _ eq_refl).
    rewrite (bind_lift_ok _ _ _ _ Hsel).
    rewrite (bind_lift_ok _ _ _ _ Hnorm).
    rewrite (bind_lift_ok _ _ _ _ Hidx). rewrite Hm.
    now rewrite (bind_lift_raised _ FileNotFoundError).
  - intros m nii_mask Hidx Hm Hshort. rewrite Ed in Hshort.
    pose proof (proj2 (select_odd_other nii nii_mask d t Es) Hshort) as Hsegs.
    unfold process_pair, load. cbn [fst snd]. rewrite Hf.
    rewrite (bind_lift_ok _ _ _ _ eq_refl).
    rewrite (bind_lift_ok _ _ _ _ Hsel).
    rewrite (bind_lift_ok _ _ _ _ Hnorm).
    rewrite (bind_lift_ok _ _ _ _ Hidx). rewrite Hm.
    rewrite (bind_lift_ok _ _ _ _ eq_refl).
    now rewrite (bind_lift_raised _ _ _ _ Hsegs).
Qed.

Lemma mask_errors_end_the_pair_witness :
  nib_load host_short_mask (subject_image s1) = Some vol_four
  /\ is_volume vol_four = true
  /\ process_pair host_short_mask [] "train" "train_annotation"
       (0, subject_image s1) initial_world
     = (Raised IndexError, initial_world)
  /\ process_pair host_short_mask ["no_such_file"] "train" "train_annotation"
       (0, subject_image s1) initial_world
     = (Raised FileNotFoundError, initial_world)
  /\ process_pair host_short_mask [subject_mask s1] "train" "train_annotation"
       (0, subject_image s1) initial_world
     = (Raised IndexError, initial_world).
Proof.
  split; [reflexivity|]. split; [reflexivity|].
  pose proof (fun masks =>
    mask_errors_end_the_pair host_short_mask masks "train" "train_annotation" 0
      (subject_image s1) vol_four initial_world eq_refl eq_refl ltac:(cbn; lia)) as H.
  split; [|split].
  - exact (proj1 (H []) eq_refl).
  - exact (proj1 (proj2 (H ["no_such_file"])) "no_such_file" eq_refl eq_refl).
  - apply (proj2 (proj2 (H [subject_mask s1])) (subject_mask s1) mask_small
             eq_refl eq_refl).
    intros da r1 r2 rest E. injection E as <- _ _ _. cbn. lia.
Defined.

(** X5. The volume side of a pair can end the run before the mask is
    looked at: [FileNotFoundError] when the volume cannot be loaded,
    [IndexError] when its squeezed array has fewer than three axes, and
    [ValueError] (the maximum of an empty selection) when it is a volume
    whose first axis has length one. Nothing is written or printed. *)
Theorem volume_errors_end_the_pair (h : host) (masks : list string)
    (target_dir mask_dir : string) (idx : nat) (f : string) (w : world) :
  (nib_load h f = None ->
     process_pair h masks target_dir mask_dir (idx, f) w
     = (Raised FileNotFoundError, w))
  /\ (forall nii, nib_load h f = Some nii ->
        List.length (squeeze_shape (shape nii)) < 3 ->
        process_pair h masks target_dir mask_dir (idx, f) w = (Raised IndexError, w))
  /\ (forall nii, nib_load h f = Some nii ->
        is_volume nii = true -> hd 0 (shape nii) < 2 ->
        process_pair h masks target_dir mask_dir (idx, f) w = (Raised ValueError, w)).
Proof.
  split; [|split].
  - intros Hf. unfold process_pair, load. cbn [fst snd]. rewrite Hf.
    now rewrite (bind_lift_raised _ FileNotFoundError).
  - intros nii Hf Hax. unfold process_pair, load. cbn [fst snd]. rewrite Hf.
    rewrite (bind_lift_ok _ _ _ _ eq_refl).
    assert (Hsel : select_odd nii nii = Raised IndexError).
    { unfold select_odd, take0, squeeze. cbn [shape data].
      destruct (shape nii) as [|d t]; [reflexivity|].
      cbn [index nth_error obind].
      destruct (squeeze_shape (d :: t)) as [|d' [|r1 [|r2 rest]]];
        try reflexivity.
      cbn in Hax. lia. }
    now rewrite (bind_lift_raised _ _ _ _ Hsel).
  - intros nii Hf V Hd.
    exact (process_pair_flat h masks target_dir mask_dir idx f nii Hf V w Hd).
Qed.

Lemma volume_errors_end_the_pair_witness :
  process_pair host_edge [subject_mask s3] "train" "train_annotation"
    (0, subject_image s3) initial_world
  = (Raised FileNotFoundError, initial_world)
  /\ process_pair host_edge [subject_mask s1] "train" "train_annotation"
       (0, subject_image s1) initial_world
     = (Raised IndexError, initial_world)
  /\ process_pair host_edge [subject_mask s2] "train" "train_annotation"
       (0, subject_image s2) initial_world
     = (Raised ValueError, initial_world).
Proof.
  split; [|split].
  - exact (proj1 (volume_errors_end_the_pair host_edge [subject_mask s3]
                    "train" "train_annotation" 0 (subject_image s3) initial_world)
             eq_refl).
  - exact (proj1 (proj2 (volume_errors_end_the_pair host_edge [subject_mask s1]
                           "train" "train_annotation" 0 (subject_image s1)
                           initial_world))
             vol_thin eq_refl ltac:(cbn; lia)).
  - exact (proj2 (proj2 (volume_errors_end_the_pair host_edge [subject_mask s2]
                           "train" "train_annotation" 0 (subject_image s2)
                           initial_world))
             vol_single eq_refl eq_refl ltac:(cbn; lia)).
Defined.

(* ------------------------------------------------------------------ *)
(** ** The whole list of volumes *)

(** X6. An exception in the pair of one volume ends [process_mris] there:
    when the volumes before it were processed without exception, the run
    ends with that exception in the world the failing pair left, so that
    the files of the earlier volumes stay written and the later volumes
    are not looked at. *)
Theorem process_mris_stops_at_first_exception (h : host)
    (before after : list string) (f : string) (masks : list string)
    (target_dir mask_dir : string) (w w1 w2 : world) (e : exn) :
  process_mris h before masks target_dir mask_dir w = (Ok tt, w1) ->
  process_pair h masks target_dir mask_dir (List.length before, f) w1 = (Raised e, w2) ->
  process_mris h (before ++ f :: after) masks target_dir mask_dir w = (Raised e, w2)
  /\ exists ws lines,
       files_written w2 = files_written w ++ ws
       /\ stdout w2 = stdout w ++ lines.
Proof.
  intros Hb Hp. split.
  - rewrite (process_mris_at h before after f masks target_dir mask_dir w w1 Hb).
    now rewrite Hp.
  - assert (Heff : effect (slice_file (before ++ [f]) target_dir mask_dir)
                     mismatch_line no_directory
                     (process_mris h (before ++ [f]) masks target_dir mask_dir)).
    { unfold process_mris. apply effect_for_each.
      intros [i g] Hin. apply in_combine_r in Hin. now apply process_pair_effect. }
    destruct (Heff w) as (ws & lines & ds & E & _).
    rewrite (process_mris_at h before [] f masks target_dir mask_dir w w1 Hb) in E.
    rewrite Hp in E. cbn [snd] in E. exists ws, lines. now rewrite E.
Qed.

Lemma process_mris_stops_at_first_exception_witness :
  process_mris host_short_mask [subject_image s2]
    [subject_mask s2; subject_mask s1; subject_mask s2] "train" "train_annotation"
    initial_world
  = (Ok tt,
     snd (process_mris host_short_mask [subject_image s2]
            [subject_mask s2; subject_mask s1; subject_mask s2]
            "train" "train_annotation" initial_world))
  /\ process_mris host_short_mask
       ([subject_image s2] ++ subject_image s1 :: [subject_image s2])
       [subject_mask s2; subject_mask s1; subject_mask s2] "train" "train_annotation"
       initial_world
     = (Raised IndexError,
        snd (process_mris host_short_mask [subject_image s2]
               [subject_mask s2; subject_mask s1; subject_mask s2]
               "train" "train_annotation" initial_world))
  /\ List.length
       (files_written
          (snd (process_mris host_short_mask [subject_image s2]
                  [subject_mask s2; subject_mask s1; subject_mask s2]
                  "train" "train_annotation" initial_world))) = 4.
Proof.
  split; [vm_compute; reflexivity|]. split; [|vm_compute; reflexivity].
  refine (proj1 (process_mris_stops_at_first_exception host_short_mask
                   [subject_image s2] [subject_image s2] (subject_image s1)
                   [subject_mask s2; subject_mask s1; subject_mask s2]
                   "train" "train_annotation" initial_world _ _ IndexError _ _)).
  - vm_compute. reflexivity.
  - vm_compute. reflexivity.
Defined.

(** A run of the loop over well-paired volumes ends normally and writes two
    files for each selected slice. *)
Lemma process_pairs_from (h : host) (masks : list string)
    (target_dir mask_dir : string) (l : list string) :
  forall k w,
    (forall j f, nth_error l j = Some f -> good_pair h masks (k + j) f) ->
    exists ws,
      for_each (combine (seq k (List.length l)) l)
        (process_pair h masks target_dir mask_dir) w
      = (Ok tt, wrote w ws)
      /\ List.length ws = 2 * list_sum (map (slices_of h) l).
Proof.
  induction l as [|f l IH]; intros k w Hgood.
  - exists []. cbn. now rewrite wrote_nil.
  - destruct (Hgood 0 f eq_refl) as (m & nii & nii_mask & Hf & Hidx & Hm & Vn & Vm & Hs & Hd).
    rewrite Nat.add_0_r in Hidx.
    destruct (process_pair_files h masks target_dir mask_dir k f m nii nii_mask
                Hf Hidx Hm Vn Vm Hs w Hd)
      as (mris & mx & b & c & name & img & seg & rimg & rseg
          & _ & _ & _ & _ & _ & Hrun).
    cbn zeta in Hrun.
    destruct (IH (S k) (wrote w (flat_map (fun i =>
                     [(path_join target_dir [name i], Png (astype_uint8 (rimg i)));
                      (path_join mask_dir [name i], Png (astype_uint8 (rseg i)))])
                     (seq 0 (hd 0 (shape nii) / 2)))))
      as (ws & Hrest & Hlen).
    { intros j g Hj. replace (S k + j) with (k + S j) by lia. now apply Hgood. }
    eexists. cbn [List.length seq combine for_each]. unfold bind at 1.
    rewrite Hrun, Hrest, wrote_wrote. split; [reflexivity|].
    rewrite length_app, Hlen.
    rewrite (length_flat_map_const 2), length_seq by reflexivity.
    cbn [map list_sum fold_right].
    assert (Es : slices_of h f = hd 0 (shape nii) / 2)
      by (unfold slices_of; now rewrite Hf).
    unfold list_sum in *. cbn [fold_right]. rewrite Es. lia.
Qed.

(* ------------------------------------------------------------------ *)
(** ** File names and paths *)

Lemma occurs_app (c : ascii) (a b : string) :
  occurs c (a ++ b) = (occurs c a || occurs c b)%bool.
Proof.
  induction a as [|x a IH]; [reflexivity|].
  cbn [append occurs]. rewrite IH. now rewrite orb_assoc.
Qed.

Lemma occurs_join (c : ascii) (sep : string) (l : list string) :
  occurs c sep = false ->
  Forall (fun t => occurs c t = false) l ->
  occurs c (join sep l) = false.
Proof.
  intros Hsep Hl. induction Hl as [|t l Ht Hl IH]; [reflexivity|].
  destruct l as [|u l]; [exact Ht|].
  rewrite join_cons_cons, !occurs_app, Ht, Hsep, IH. reflexivity.
Qed.

Lemma occurs_join_inv (c : ascii) (sep : string) (l : list string) :
  occurs c (join sep l) = false ->
  Forall (fun t => occurs c t = false) l.
Proof.
  induction l as [|t l IH]; intros H; [constructor|].
  destruct l as [|u l].
  - constructor; [exact H|constructor].
  - rewrite join_cons_cons, !occurs_app in H.
    apply orb_false_iff in H. destruct H as [Ht H].
    apply orb_false_iff in H. destruct H as [_ H].
    constructor; [exact Ht|now apply IH].
Qed.

Lemma Forall_firstn {A : Type} (P : A -> Prop) (n : nat) (l : list A) :
  Forall P l -> Forall P (firstn n l).
Proof.
  intros H. rewrite Forall_forall in H |- *. intros x Hx. apply H.
  rewrite <- (firstn_skipn n l). apply in_or_app. now left.
Qed.

Lemma occurs_digits (d : Decimal.uint) :
  occurs "/" (NilEmpty.string_of_uint d) = false.
Proof. induction d; cbn; assumption || reflexivity. Qed.

Lemma occurs_str_of_nat (i : nat) : occurs "/" (str_of_nat i) = false.
Proof.
  unfold str_of_nat, NilZero.string_of_uint.
  destruct (Nat.to_uint i); try reflexivity; apply (occurs_digits (_ _)).
Qed.

Lemma to_uint_not_nil (n : nat) : Nat.to_uint n <> Decimal.Nil.
Proof.
  pose proof (DecimalNat.Unsigned.to_of (Nat.to_uint n)) as H.
  rewrite DecimalNat.Unsigned.of_to in H. rewrite H.
  apply DecimalFacts.unorm_nonnil.
Qed.

Lemma str_of_nat_inj (i j : nat) : str_of_nat i = str_of_nat j -> i = j.
Proof.
  unfold str_of_nat. intros H.
  apply (f_equal NilZero.uint_of_string) in H.
  rewrite !NilZero.usu in H by apply to_uint_not_nil.
  injection H as H. now apply DecimalNat.Unsigned.to_uint_inj.
Qed.

Lemma string_length_app (a b : string) :
  String.length (a ++ b) = String.length a + String.length b.
Proof. induction a as [|x a IH]; cbn; [reflexivity|now rewrite IH]. Qed.

Lemma string_app_inv_head (a b c : string) :
  (a ++ b = a ++ c)%string -> b = c.
Proof.
  induction a as [|x a IH]; cbn; [auto|].
  intros H. injection H as H. now apply IH.
Qed.

Lemma string_app_inv_tail (a b t : string) :
  (a ++ t = b ++ t)%string -> a = b.
Proof.
  revert b. induction a as [|x a IH]; intros [|y b] H.
  - reflexivity.
  - apply (f_equal String.length) in H. cbn in H.
    rewrite string_length_app in H. lia.
  - apply (f_equal String.length) in H. cbn in H.
    rewrite string_length_app in H. lia.
  - cbn in H. injection H as -> H. f_equal. now apply IH.
Qed.

(** A split distributes over a separator. *)
Lemma split_app (sep : ascii) (s t : string) :
  split sep (s ++ String sep t) = split sep s ++ split sep t.
Proof.
  induction s as [|c s IH].
  - cbn. now rewrite Ascii.eqb_refl.
  - cbn [append split]. rewrite IH.
    destruct (Ascii.eqb c sep); [reflexivity|].
    pose proof (split_not_nil sep s) as Hn.
    destruct (split sep s) as [|u us]; [contradiction|reflexivity].
Qed.

Lemma split_whole (sep : ascii) (s : string) :
  occurs sep s = false -> split sep s = [s].
Proof.
  induction s as [|c s IH]; [reflexivity|].
  cbn [occurs split]. intros H. apply orb_false_iff in H.
  destruct H as [Hc Hs]. rewrite Hc, IH by assumption. reflexivity.
Qed.

Lemma basename_of_joined (dir name : string) :
  occurs "/" name = false ->
  basename (dir ++ String "/" name) = name.
Proof.
  intros H. unfold basename. rewrite split_app, (split_whole "/" name H).
  apply last_last.
Qed.

Lemma basename_of_plain (name : string) :
  occurs "/" name = false -> basename name = name.
Proof. intros H. unfold basename. now rewrite (split_whole "/" name H). Qed.

Lemma endswith_char_split (c : ascii) (s : string) :
  endswith_char c s = true -> exists front, s = (front ++ String c EmptyString)%string.
Proof.
  induction s as [|x s IH]; [discriminate|].
  destruct s as [|y s].
  - cbn. intros H. apply Ascii.eqb_eq in H. subst. now exists EmptyString.
  - intros H. change (endswith_char c (String y s) = true) in H.
    destruct (IH H) as [front E]. exists (String x front). cbn. now rewrite <- E.
Qed.

Lemma startswith_slash (name : string) :
  occurs "/" name = false -> startswith "/" name = false.
Proof.
  destruct name as [|c name]; [reflexivity|].
  cbn [occurs]. intros H. apply orb_false_iff in H. destruct H as [Hc _].
  unfold startswith. cbn [String.prefix].
  destruct (ascii_dec "/" c) as [E|_]; [|reflexivity].
  subst c. discriminate.
Qed.

(** [os.path.join] with a name free of ['/'] puts the name directly inside
    the directory. *)
Lemma path_join_inside (dir name : string) :
  occurs "/" name = false ->
  basename (path_join dir [name]) = name
  /\ (String.eqb dir "" = false -> endswith_char "/" dir = false ->
      path_join dir [name] = (dir ++ "/" ++ name)%string).
Proof.
  intros H. unfold path_join. cbn [fold_left]. unfold path_join2.
  rewrite (startswith_slash name H). split.
  - destruct (String.eqb_spec dir "") as [->|Hd]; cbn [orb].
    + cbn [append]. now apply basename_of_plain.
    + destruct (endswith_char "/" dir) eqn:E.
      * destruct (endswith_char_split _ _ E) as [front ->].
        rewrite string_app_assoc. cbn [append].
        now apply basename_of_joined.
      * now apply basename_of_joined.
  - intros Hd He. now rewrite Hd, He.
Qed.

Lemma new_fname_no_slash (f : string) (i : nat) (name : string) :
  new_fname f i = Ok name -> occurs "/" name = false.
Proof.
  destruct (new_fname_structure f i)
    as (stem & tokens & Hb & _ & _ & Hext & Hjoin & _ & Hname).
  rewrite Hname. intros E.
  assert (En : name = (join "_" (firstn 8 tokens)
                       ++ ("_" ++ str_of_nat i ++ ".png"))%string) by congruence.
  rewrite En. clear E En Hname.
  assert (Hstem : occurs "/" stem = false).
  { destruct Hext as [<-|[ext E]]; [assumption|].
    rewrite E, occurs_app in Hb. now apply orb_false_iff in Hb. }
  rewrite <- Hjoin in Hstem. apply occurs_join_inv in Hstem.
  rewrite !occurs_app, occurs_str_of_nat.
  rewrite (occurs_join "/" "_" (firstn 8 tokens) eq_refl (Forall_firstn _ 8 _ Hstem)).
  reflexivity.
Qed.

(** X8. Every name [new_fname] builds is free of ['/'] and ends in
    [".png"]; joined to a directory by [os.path.join] it is the base name
    of the path, that is, the file lies directly inside the image or the
    mask directory (for a directory that is not empty and has no trailing
    ['/'] the path is the directory, a ['/'] and the name). *)
Theorem slice_names_stay_inside_directory (f : string) (i : nat) :
  exists name front,
    new_fname f i = Ok name
    /\ occurs "/" name = false
    /\ name = (front ++ ".png")%string
    /\ forall dir,
         basename (path_join dir [name]) = name
         /\ (String.eqb dir "" = false -> endswith_char "/" dir = false ->
             path_join dir [name] = (dir ++ "/" ++ name)%string).
Proof.
  destruct (new_fname_structure f i) as (stem & tokens & _ & _ & _ & _ & _ & _ & Hname).
  eexists. exists (join "_" (firstn 8 tokens) ++ "_" ++ str_of_nat i)%string.
  split; [exact Hname|].
  pose proof (new_fname_no_slash f i _ Hname) as Hno.
  split; [exact Hno|]. split.
  - now rewrite !string_app_assoc.
  - intros dir. now apply path_join_inside.
Qed.

(** X9. The slices of one volume never share a file: for one source file,
    different slice indices give different names, and different paths in
    any directory. *)
Theorem slice_names_differ_by_index (f : string) (i j : nat) (ni nj : string) :
  new_fname f i = Ok ni ->
  new_fname f j = Ok nj ->
  i <> j ->
  ni <> nj /\ forall dir, path_join dir [ni] <> path_join dir [nj].
Proof.
  intros Hi Hj Hne.
  assert (Hnames : ni <> nj).
  { pose proof Hi as Hi'. pose proof Hj as Hj'.
    unfold new_fname in Hi', Hj'.
    destruct (index (split "." (basename f)) 0) as [st|]; [|discriminate].
    cbn [obind] in Hi', Hj'.
    assert (Ei : ni = (join "_" (firstn 8 (split "_" st))
                       ++ ("_" ++ str_of_nat i ++ ".png"))%string) by congruence.
    assert (Ej : nj = (join "_" (firstn 8 (split "_" st))
                       ++ ("_" ++ str_of_nat j ++ ".png"))%string) by congruence.
    intros E. apply Hne. rewrite Ei, Ej in E.
    apply string_app_inv_head in E. apply string_app_inv_head in E.
    apply string_app_inv_tail in E. now apply str_of_nat_inj. }
  split; [exact Hnames|].
  intros dir E. apply Hnames.
  rewrite <- (proj1 (path_join_inside dir ni (new_fname_no_slash f i ni Hi))).
  rewrite <- (proj1 (path_join_inside dir nj (new_fname_no_slash f j nj Hj))).
  now rewrite E.
Qed.

Lemma slice_names_differ_by_index_witness :
  new_fname (subject_image s1) 0 = Ok "OAS1_0001_MR1_mpr_n4_anon_111_t88_0.png"
  /\ new_fname (subject_image s1) 1 = Ok "OAS1_0001_MR1_mpr_n4_anon_111_t88_1.png"
  /\ path_join "/opt/ml/processing/output/train" ["OAS1_0001_MR1_mpr_n4_anon_111_t88_0.png"]
     <> path_join "/opt/ml/processing/output/train" ["OAS1_0001_MR1_mpr_n4_anon_111_t88_1.png"].
Proof.
  split; [reflexivity|]. split; [reflexivity|].
  apply (proj2 (slice_names_differ_by_index (subject_image s1) 0 1 _ _
                  eq_refl eq_refl ltac:(lia))).
Defined.

(** X10. A stem of eight tokens or fewer is kept whole: for a file
    [dir/stem.ext], with [stem] free of ['.'] and ['/'] and [ext] free of
    ['/'], whose stem has at most eight underscore-separated tokens, the
    name of slice [i] is the stem followed by ["_<i>.png"]. *)
Theorem short_stem_is_kept (dir stem ext : string) (i : nat) :
  occurs "/" stem = false ->
  occurs "." stem = false ->
  occurs "/" ext = false ->
  List.length (split "_" stem) <= 8 ->
  new_fname (dir ++ "/" ++ stem ++ "." ++ ext) i
  = Ok (stem ++ "_" ++ str_of_nat i ++ ".png")%string.
Proof.
  intros Hs Hdot He Hlen.
  change (dir ++ "/" ++ stem ++ "." ++ ext)%string
    with (dir ++ String "/" (stem ++ String "." ext))%string.
  unfold new_fname.
  rewrite basename_of_joined
    by (rewrite occurs_app; cbn [occurs]; rewrite Hs, He; reflexivity).
  rewrite split_app, (split_whole "." stem Hdot).
  cbn [app index nth_error obind].
  rewrite firstn_all2 by assumption.
  now rewrite join_split.
Qed.

Lemma short_stem_is_kept_witness :
  List.length (split "_" "sub_01_T1w") <= 8
  /\ new_fname "/data/sub_01_T1w.img" 7 = Ok "sub_01_T1w_7.png".
Proof.
  split; [cbn; lia|].
  exact (short_stem_is_kept "/data" "sub_01_T1w" "img" 7
           eq_refl eq_refl eq_refl ltac:(cbn; lia)).
Defined.

(* ------------------------------------------------------------------ *)
(** ** Subjects and mask patterns *)

Lemma endswith_char_app (c : ascii) (a b : string) :
  b <> EmptyString -> endswith_char c (a ++ b) = endswith_char c b.
Proof.
  intros Hb. induction a as [|x a IH]; [reflexivity|].
  cbn [append]. change (endswith_char c (String x (a ++ b)))
    with (match (a ++ b)%string with
          | EmptyString => Ascii.eqb x c
          | String _ _ => endswith_char c (a ++ b)
          end).
  destruct (a ++ b)%string as [|y s] eqn:E; [|exact IH].
  destruct a; [cbn in E; contradiction|discriminate].
Qed.

Lemma endswith_char_absent (c : ascii) (s : string) :
  occurs c s = false -> endswith_char c s = false.
Proof.
  induction s as [|x s IH]; [reflexivity|].
  cbn [occurs]. intros H. apply orb_false_iff in H. destruct H as [Hx Hs].
  destruct s as [|y s]; [exact Hx|]. now apply IH.
Qed.

Lemma path_join2_plain (p b : string) :
  startswith "/" b = false ->
  String.eqb p "" = false ->
  endswith_char "/" p = false ->
  path_join2 p b = (p ++ "/" ++ b)%string.
Proof. intros H1 H2 H3. unfold path_join2. now rewrite H1, H2, H3. Qed.

(** X11. The subject of a volume is the fifth component of its path,
    counted from the end, whatever comes before: for a path
    [root/S/a/b/c/file] whose last five components hold no ['/'], the
    subject index is [S]; and for a subject [S] that is not empty the mask
    pattern is [<input>/brain_mri/disc1/S/FSL_SEG/S_*_t88_masked_gfc_fseg.img],
    inside the directory of that subject. *)
Theorem subject_is_fifth_component_from_end (root S a b c file : string) :
  occurs "/" S = false ->
  occurs "/" a = false ->
  occurs "/" b = false ->
  occurs "/" c = false ->
  occurs "/" file = false ->
  S <> EmptyString ->
  subject_indices [(root ++ "/" ++ S ++ "/" ++ a ++ "/" ++ b ++ "/" ++ c ++ "/" ++ file)%string]
  = Ok [S]
  /\ mask_pattern S
     = ("/opt/ml/processing/input/brain_mri/disc1/" ++ S ++ "/FSL_SEG/"
        ++ S ++ "_*_t88_masked_gfc_fseg.img")%string.
Proof.
  intros HS Ha Hb Hc Hf Hne. split.
  - unfold subject_indices. cbn [list_comp].
    change (root ++ "/" ++ S ++ "/" ++ a ++ "/" ++ b ++ "/" ++ c ++ "/" ++ file)%string
      with (root ++ String "/" (S ++ String "/" (a ++ String "/"
              (b ++ String "/" (c ++ String "/" file)))))%string.
    rewrite !split_app.
    rewrite (split_whole "/" S HS), (split_whole "/" a Ha), (split_whole "/" b Hb),
      (split_whole "/" c Hc), (split_whole "/" file Hf).
    unfold index_neg. rewrite length_app. cbn [List.length app].
    destruct (Nat.leb_spec 5 (List.length (split "/" root) + 5)); [|lia].
    cbn [Nat.leb andb].
    replace (List.length (split "/" root) + 5 - 5) with (List.length (split "/" root) + 0)
      by lia.
    unfold index. rewrite nth_error_app2 by lia.
    replace (List.length (split "/" root) + 0 - List.length (split "/" root)) with 0 by lia.
    reflexivity.
  - assert (Hst : startswith "/" (S ++ "_*_t88_masked_gfc_fseg.img") = false).
    { destruct S as [|x S']; [contradiction|].
      cbn [occurs] in HS. apply orb_false_iff in HS. destruct HS as [Hx _].
      unfold startswith. cbn [append String.prefix].
      destruct (ascii_dec "/" x) as [E|_]; [subst x; discriminate|reflexivity]. }
    assert (Hend : forall front, endswith_char "/" (front ++ "/" ++ S) = false).
    { intros front. rewrite endswith_char_app.
      - rewrite (endswith_char_app "/" "/" S Hne).
        now apply endswith_char_absent.
      - discriminate. }
    unfold mask_pattern, path_join. cbn [fold_left].
    change (path_join2 (path_join2 input_data_path "brain_mri") "disc1")
      with "/opt/ml/processing/input/brain_mri/disc1".
    rewrite (path_join2_plain "/opt/ml/processing/input/brain_mri/disc1" S
               (startswith_slash S HS) eq_refl eq_refl).
    rewrite (path_join2_plain
               ("/opt/ml/processing/input/brain_mri/disc1" ++ "/" ++ S) "FSL_SEG"
               eq_refl eq_refl (Hend _)).
    rewrite (path_join2_plain
               (("/opt/ml/processing/input/brain_mri/disc1" ++ "/" ++ S)
                ++ "/" ++ "FSL_SEG")
               (S ++ "_*_t88_masked_gfc_fseg.img") Hst eq_refl).
    + rewrite !string_app_assoc. reflexivity.
    + rewrite endswith_char_app by discriminate. reflexivity.
Qed.

Lemma subject_is_fifth_component_from_end_witness :
  subject_indices [subject_image s1] = Ok [s1]
  /\ mask_pattern s1
     = "/opt/ml/processing/input/brain_mri/disc1/OAS1_0001_MR1/FSL_SEG/OAS1_0001_MR1_*_t88_masked_gfc_fseg.img".
Proof.
  exact (subject_is_fifth_component_from_end
           "/opt/ml/processing/input/brain_mri/disc1" s1
           "PROCESSED" "MPRAGE" "T88_111" "OAS1_0001_MR1_mpr_n4_anon_111_t88_gfc.img"
           eq_refl eq_refl eq_refl eq_refl eq_refl ltac:(discriminate)).
Defined.

(* ------------------------------------------------------------------ *)
(** ** A selection that holds a NaN *)

Lemma maximum_nan_r (x : F64.float) : F64.maximum x S754_nan = S754_nan.
Proof. destruct x; reflexivity. Qed.

Lemma maximum_nan_l (y : F64.float) : F64.maximum S754_nan y = S754_nan.
Proof. destruct y; reflexivity. Qed.

Lemma fold_maximum_from_nan (xs : list F64.float) :
  fold_left F64.maximum xs S754_nan = S754_nan.
Proof.
  induction xs as [|y xs IH]; [reflexivity|].
  cbn [fold_left]. now rewrite maximum_nan_l.
Qed.

Lemma fold_maximum_nan (xs : list F64.float) (x : F64.float) :
  In S754_nan (x :: xs) -> fold_left F64.maximum xs x = S754_nan.
Proof.
  revert x. induction xs as [|y xs IH]; intros x [Hx|Hin].
  - now subst.
  - contradiction.
  - subst. apply fold_maximum_from_nan.
  - cbn [fold_left]. destruct Hin as [Hy|Hin].
    + subst. rewrite maximum_nan_r. apply fold_maximum_from_nan.
    + apply IH. now right.
Qed.

Lemma rescale_by_nan (v : F64.float) : rescale S754_nan v = S754_nan.
Proof. destruct v; reflexivity. Qed.

(** X12. One NaN among the selected voxels spoils the whole volume: the
    maximum is NaN, the normalisation raises nothing, every normalised
    voxel is NaN, and every pixel converted from them is 0. *)
Theorem nan_voxel_blackens_selection (mris : ndarray F64.float) :
  In S754_nan (data mris) ->
  exists norm,
    amax mris = Ok S754_nan
    /\ normalise mris = Ok norm
    /\ shape norm = shape mris
    /\ List.length (data norm) = List.length (data mris)
    /\ Forall (fun v => v = S754_nan) (data norm)
    /\ Forall (fun p => p = 0%Z) (data (astype_uint8 norm)).
Proof.
  intros Hin.
  assert (Hmax : amax mris = Ok S754_nan).
  { unfold amax. destruct (data mris) as [|x xs]; [contradiction|].
    now rewrite fold_maximum_nan. }
  exists (amap (rescale S754_nan) mris).
  split; [exact Hmax|]. split; [unfold normalise; now rewrite Hmax|].
  split; [reflexivity|]. split; [apply length_map|].
  assert (Hall : Forall (fun v => v = S754_nan) (data (amap (rescale S754_nan) mris))).
  { unfold amap. cbn [data]. apply Forall_forall. intros v Hv.
    apply in_map_iff in Hv. destruct Hv as (u & <- & _). apply rescale_by_nan. }
  split; [exact Hall|].
  unfold astype_uint8. unfold amap at 1. cbn [data].
  apply Forall_forall. intros p Hp. apply in_map_iff in Hp.
  destruct Hp as (v & <- & Hv). rewrite Forall_forall in Hall.
  now rewrite (Hall v Hv).
Qed.

Lemma nan_voxel_blackens_selection_witness :
  select_odd vol_nan vol_nan
  = Ok (mk_ndarray [1; 2; 2] [fl 5; S754_nan; fl 7; fl 8])
  /\ exists norm,
       normalise (mk_ndarray [1; 2; 2] [fl 5; S754_nan; fl 7; fl 8]) = Ok norm
       /\ List.length (data norm) = 4
       /\ Forall (fun p => p = 0%Z) (data (astype_uint8 norm)).
Proof.
  split; [reflexivity|].
  destruct (nan_voxel_blackens_selection
              (mk_ndarray [1; 2; 2] [fl 5; S754_nan; fl 7; fl 8])
              ltac:(right; left; reflexivity))
    as (norm & _ & Hn & _ & Hl & _ & Hz).
  exists norm. repeat split; assumption.
Defined.

(* ------------------------------------------------------------------ *)
(** ** Directories *)

Lemma join_app (sep : string) (a b : list string) :
  a <> [] -> b <> [] ->
  join sep (a ++ b) = (join sep a ++ sep ++ join sep b)%string.
Proof.
  intros Ha Hb. induction a as [|x a IH]; [contradiction|].
  destruct a as [|y a].
  - destruct b as [|z b]; [contradiction|]. reflexivity.
  - change ((x :: y :: a) ++ b) with (x :: y :: (a ++ b)).
    rewrite !join_cons_cons.
    change (y :: a ++ b) with ((y :: a) ++ b).
    rewrite IH by discriminate.
    now rewrite !string_app_assoc.
Qed.

(** The paths [ancestors] lists lie above the path. *)
Lemma ancestors_above (q d : string) : In q (ancestors d) -> above q d.
Proof.
  unfold ancestors. intros H. apply filter_In in H. destruct H as [Hin Hc].
  apply andb_true_iff in Hc. destruct Hc as [Hne Hend].
  apply in_map_iff in Hin. destruct Hin as (k & Hq & Hk). apply in_seq in Hk.
  split; [|split].
  - intros E. rewrite E in Hne. discriminate.
  - now destruct (endswith_char "/" q).
  - exists (join "/" (skipn k (split "/" d))).
    rewrite <- Hq, <- join_app.
    + now rewrite firstn_skipn, join_split.
    + intros E. apply (f_equal (@List.length string)) in E.
      rewrite length_firstn in E. cbn in E. lia.
    + intros E. apply (f_equal (@List.length string)) in E.
      rewrite length_skipn in E. cbn in E. lia.
Qed.

(** Every path above the path is listed. *)
Lemma above_ancestors (q d : string) : above q d -> In q (ancestors d).
Proof.
  intros (Hne & Hend & rest & ->). unfold ancestors.
  apply filter_In. split.
  - apply in_map_iff. exists (List.length (split "/" q)).
    change (q ++ "/" ++ rest)%string with (q ++ String "/" rest)%string.
    rewrite split_app. split.
    + rewrite firstn_app, Nat.sub_diag, firstn_all. cbn [firstn].
      rewrite app_nil_r. apply join_split.
    + apply in_seq. rewrite length_app.
      pose proof (split_not_nil "/" q) as H1.
      pose proof (split_not_nil "/" rest) as H2.
      destruct (split "/" q); [contradiction|].
      destruct (split "/" rest); [contradiction|]. cbn [List.length]. lia.
  - rewrite Hend. destruct (String.eqb_spec q "") as [E|_]; [contradiction|].
    reflexivity.
Qed.

(** X1. [create_dir_if_not_exist] touches directories only: no file and
    no printed line changes, no directory is lost, and the directories it
    adds did not exist and are [d] or paths above [d]. A path that exists
    leaves the world as it is; the empty path is refused with
    [FileNotFoundError] in an unchanged world. When the call returns,
    [d] exists, and if [d] had to be created every path above it exists
    as well. A second call changes nothing. *)
Theorem create_dir_ensures_and_is_idempotent (d : string) (w : world) :
  (exists ds,
     snd (create_dir_if_not_exist d w)
     = mk_world (files_written w) (stdout w) (dirs w ++ ds)
     /\ Forall (fun q => path_exists q w = false /\ (q = d \/ above q d)) ds)
  /\ (path_exists d w = true -> create_dir_if_not_exist d w = (Ok tt, w))
  /\ (d = "" -> create_dir_if_not_exist d w = (Raised FileNotFoundError, w))
  /\ (fst (create_dir_if_not_exist d w) = Ok tt ->
        path_exists d (snd (create_dir_if_not_exist d w)) = true
        /\ (path_exists d w = false ->
            forall q, above q d ->
              path_exists q (snd (create_dir_if_not_exist d w)) = true))
  /\ bind (create_dir_if_not_exist d) (fun _ => create_dir_if_not_exist d) w
     = create_dir_if_not_exist d w.
Proof.
  destruct (create_dir_cases d w) as [[Hex E]|[[Hd E]|(Hd & Hno & E)]].
  - rewrite E. cbn [fst snd]. split; [|split; [|split; [|split]]].
    + exists []. rewrite app_nil_r. destruct w. split; [reflexivity|constructor].
    + reflexivity.
    + intros ->. discriminate.
    + intros _. split; [assumption|]. congruence.
    + unfold bind. now rewrite E.
  - rewrite E. cbn [fst snd]. split; [|split; [|split; [|split]]].
    + exists []. rewrite app_nil_r. destruct w. split; [reflexivity|constructor].
    + subst d. discriminate.
    + reflexivity.
    + discriminate.
    + unfold bind. now rewrite E.
  - set (ds := filter (fun q => negb (path_exists q w)) (ancestors d) ++ [d]) in E.
    set (w' := mk_world (files_written w) (stdout w) (dirs w ++ ds)) in E.
    assert (Hnew : path_exists d w' = true).
    { apply path_exists_In; [assumption|]. cbn [w' dirs]. apply in_or_app. right.
      unfold ds. apply in_or_app. right. now left. }
    rewrite E. cbn [fst snd]. split; [|split; [|split; [|split]]].
    + exists ds. split; [reflexivity|]. unfold ds. apply Forall_app. split.
      * apply Forall_forall. intros q Hq. apply filter_In in Hq.
        destruct Hq as [Hq Hc]. split; [now destruct (path_exists q w)|].
        right. now apply ancestors_above.
      * constructor; [split; [assumption|now left]|constructor].
    + congruence.
    + contradiction.
    + intros _. split; [assumption|]. intros _ q Hq.
      destruct (path_exists q w) eqn:Eq.
      * apply (path_exists_mono q w w'); [|assumption].
        intros x Hx. cbn [w' dirs]. apply in_or_app. now left.
      * apply path_exists_In; [exact (proj1 Hq)|].
        cbn [w' dirs]. apply in_or_app. right. unfold ds. apply in_or_app. left.
        apply filter_In. split; [now apply above_ancestors|now rewrite Eq].
    + unfold bind. rewrite E.
      destruct (create_dir_cases d w') as [[_ E']|[[Hd' _]|(_ & Hno' & _)]];
        [exact E'|contradiction|congruence].
Qed.

Lemma create_dir_ensures_and_is_idempotent_witness :
  path_exists "/opt/ml/processing/output/train" initial_world = false
  /\ above "/opt/ml/processing/output" "/opt/ml/processing/output/train"
  /\ create_dir_if_not_exist "/opt/ml/processing/output/train" initial_world
     = (Ok tt,
        mk_world [] []
          ["/opt"; "/opt/ml"; "/opt/ml/processing"; "/opt/ml/processing/output";
           "/opt/ml/processing/output/train"])
  /\ path_exists "/opt/ml/processing/output"
       (snd (create_dir_if_not_exist "/opt/ml/processing/output/train" initial_world))
     = true
  /\ create_dir_if_not_exist "" initial_world = (Raised FileNotFoundError, initial_world).
Proof.
  assert (Ha : above "/opt/ml/processing/output" "/opt/ml/processing/output/train").
  { split; [discriminate|]. split; [reflexivity|]. now exists "train". }
  split; [reflexivity|]. split; [exact Ha|]. split; [reflexivity|].
  destruct (create_dir_ensures_and_is_idempotent "/opt/ml/processing/output/train"
              initial_world) as (_ & _ & _ & Hpost & _).
  split.
  - exact (proj2 (Hpost eq_refl) eq_refl "/opt/ml/processing/output" Ha).
  - exact (proj1 (proj2 (proj2 (create_dir_ensures_and_is_idempotent "" initial_world)))
             eq_refl).
Defined.

(* ------------------------------------------------------------------ *)
(** ** What [main] leaves behind *)

Lemma slice_file_is_output_file (images : list string) (dir mdir : string)
    (pc : string * content) :
  In dir slice_dirs -> In mdir slice_dirs ->
  slice_file images dir mdir pc -> output_file pc.
Proof.
  intros Hd Hm (f & i & name & a & _ & Hname & Hpath & Hpng & Hbytes).
  left. pose proof (new_fname_no_slash f i name Hname) as Hno.
  assert (Hplain : forall d, In d slice_dirs ->
            path_join d [name] = (d ++ "/" ++ name)%string).
  { intros d Hin. apply (path_join_inside d name Hno);
      cbn in Hin; decompose [or] Hin; subst; try reflexivity; contradiction. }
  destruct Hpath as [E|E].
  - exists dir, name, a. rewrite E, (Hplain dir Hd). now repeat split.
  - exists mdir, name, a. rewrite E, (Hplain mdir Hm). now repeat split.
Qed.

Lemma process_mris_output_effect (h : host) (images masks : list string)
    (dir mdir : string) :
  In dir slice_dirs -> In mdir slice_dirs ->
  effect output_file mismatch_line (fun d => In d created_dirs)
    (process_mris h images masks dir mdir).
Proof.
  intros Hd Hm.
  apply (effect_weaken (slice_file images dir mdir) output_file
           mismatch_line mismatch_line no_directory (fun d => In d created_dirs)).
  - intros pc. now apply slice_file_is_output_file.
  - auto.
  - intros d [].
  - unfold process_mris. apply effect_for_each.
    intros [idx f] Hin. apply in_combine_r in Hin. now apply process_pair_effect.
Qed.

(** An output directory and the paths above it are among the directories
    [main] can create. *)
Lemma output_dir_created (d : string) :
  In d output_dirs ->
  (forall q, In q (ancestors d) -> In q created_dirs) /\ In d created_dirs.
Proof.
  intros Hd. split.
  - intros q Hq. cbn in Hd.
    decompose [or] Hd; try contradiction; subst d; vm_compute in Hq;
      decompose [or] Hq; try contradiction; subst q; cbn; tauto.
  - unfold created_dirs. apply in_or_app. now right.
Qed.

Lemma effect_output_dir (d : string) :
  In d output_dirs ->
  effect output_file mismatch_line (fun d => In d created_dirs)
    (create_dir_if_not_exist d).
Proof.
  intros Hd. destruct (output_dir_created d Hd) as [HA HD].
  now apply effect_create_dir.
Qed.

(** What follows the creation of the four slice directories in [main]. *)
Lemma main_tail_effect (h : host) (tri vai trm vam : list string) :
  effect output_file mismatch_line (fun d => In d created_dirs)
    (process_mris h tri trm (path_join output_data_path ["train"])
       (path_join output_data_path ["train_annotation"]) ;;
     process_mris h vai vam (path_join output_data_path ["validation"])
       (path_join output_data_path ["validation_annotation"]) ;;
     create_dir_if_not_exist (path_join output_data_path ["label_map"]) ;;
     json_dump label_map
       (path_join (path_join output_data_path ["label_map"]) ["train_label_map.json"])).
Proof.
  apply effect_bind.
  { apply process_mris_output_effect; [left; reflexivity|].
    right; right; left; reflexivity. }
  intros _ _ _ _. apply effect_bind.
  { apply process_mris_output_effect; [right; left; reflexivity|].
    right; right; right; left; reflexivity. }
  intros _ _ _ _. apply effect_bind.
  { apply effect_output_dir. unfold output_dirs. apply in_or_app. right.
    left. reflexivity. }
  intros _ _ _ _. apply effect_json_dump. right. reflexivity.
Qed.

(** X13. Whatever the input and however the run ends, [main] only adds to
    the world, and only at the output root: every file it writes is an
    image of bytes lying directly inside one of the four slice
    directories, or the label map with its constant text; every line it
    prints is a shape-mismatch line; every directory it creates is one of
    the five output directories, the output root, or a directory above
    the output root. *)
Theorem main_writes_only_output_files (h : host) :
  effect output_file mismatch_line (fun d => In d created_dirs) (main h).
Proof.
  unfold main.
  apply effect_bind_lift. intros indices _.
  apply effect_bind_lift. intros masks _.
  apply effect_bind_lift. intros [[[tri vai] trm] vam] _.
  cbn beta iota zeta.
  apply effect_bind.
  { apply effect_output_dir. unfold output_dirs. apply in_or_app. left.
    left. reflexivity. }
  intros _ _ _ _. apply effect_bind.
  { apply effect_output_dir. unfold output_dirs. apply in_or_app. left.
    right; left. reflexivity. }
  intros _ _ _ _. apply effect_bind.
  { apply effect_output_dir. unfold output_dirs. apply in_or_app. left.
    right; right; left. reflexivity. }
  intros _ _ _ _. apply effect_bind.
  { apply effect_output_dir. unfold output_dirs. apply in_or_app. left.
    right; right; right; left. reflexivity. }
  intros _ _ _ _. apply main_tail_effect.
Qed.

Lemma effect_keeps_dirs (P : string * content -> Prop) (Q D : string -> Prop)
    {A : Type} (c : M A) (w : world) (d : string) :
  effect P Q D c -> In d (dirs w) -> In d (dirs (snd (c w))).
Proof.
  intros Hc Hd. destruct (Hc w) as (ws & ls & ds & E & _).
  rewrite E. cbn [dirs]. apply in_or_app. now left.
Qed.

(** The four slice directories exist once [main] has passed lines 67 to
    70. *)
Lemma slice_dirs_created (w : world) (d : string) :
  In d slice_dirs ->
  In d (dirs (snd (create_dir_if_not_exist (path_join output_data_path ["validation_annotation"])
          (snd (create_dir_if_not_exist (path_join output_data_path ["train_annotation"])
             (snd (create_dir_if_not_exist (path_join output_data_path ["validation"])
                (snd (create_dir_if_not_exist (path_join output_data_path ["train"]) w))))))))).
Proof.
  intros Hd. cbn in Hd. decompose [or] Hd; try contradiction; subst d.
  - do 3 apply create_dir_keeps.
    apply (create_dir_adds (path_join output_data_path ["train"]));
      [discriminate|reflexivity].
  - do 2 apply create_dir_keeps.
    apply (create_dir_adds (path_join output_data_path ["validation"]));
      [discriminate|reflexivity].
  - apply create_dir_keeps.
    apply (create_dir_adds (path_join output_data_path ["train_annotation"]));
      [discriminate|reflexivity].
  - apply (create_dir_adds (path_join output_data_path ["validation_annotation"]));
      [discriminate|reflexivity].
Qed.

(** X14. [main] touches nothing before the discovery and the split are
    done: when one of them raises (a path with too few components, a
    subject without mask file, a split with an empty training set), [main]
    ends with that exception in an unchanged world. Once they have
    succeeded, the four slice directories exist at the end of the run,
    however it ends. *)
Theorem main_creates_directories_after_discovery (h : host) (w : world) :
  (forall e, discovery h = Raised e -> main h w = (Raised e, w))
  /\ (forall sets, discovery h = Ok sets ->
        forall d, In d slice_dirs -> In d (dirs (snd (main h w)))).
Proof.
  unfold discovery, main. split.
  - intros e He.
    destruct (subject_indices (glob h image_pattern)) as [indices|e1] eqn:E1.
    + rewrite (bind_lift_ok _ _ _ _ eq_refl). cbn [obind] in He.
      destruct (select_masks h indices) as [masks|e2] eqn:E2.
      * rewrite (bind_lift_ok _ _ _ _ eq_refl). cbn [obind] in He.
        now rewrite (bind_lift_raised _ _ _ _ He).
      * cbn [obind] in He. injection He as <-.
        now rewrite (bind_lift_raised _ e2).
    + cbn [obind] in He. injection He as <-.
      now rewrite (bind_lift_raised _ e1).
  - intros sets Hs d Hd.
    destruct (subject_indices (glob h image_pattern)) as [indices|e1]; [|discriminate].
    cbn [obind] in Hs. rewrite (bind_lift_ok _ _ _ _ eq_refl).
    destruct (select_masks h indices) as [masks|e2]; [|discriminate].
    cbn [obind] in Hs. rewrite (bind_lift_ok _ _ _ _ eq_refl).
    rewrite (bind_lift_ok _ _ _ _ Hs).
    destruct sets as [[[tri vai] trm] vam]. cbn beta iota zeta.
    rewrite !bind_create_dir by discriminate.
    eapply effect_keeps_dirs; [apply main_tail_effect|].
    now apply slice_dirs_created.
Qed.

Lemma main_creates_directories_after_discovery_witness :
  (discovery host_missing_mask = Raised IndexError
   /\ main host_missing_mask initial_world = (Raised IndexError, initial_world))
  /\ (fst (main host_short_mask initial_world) = Raised IndexError
      /\ In "/opt/ml/processing/output/validation_annotation"
           (dirs (snd (main host_short_mask initial_world)))).
Proof.
  split.
  - split; [reflexivity|].
    exact (proj1 (main_creates_directories_after_discovery host_missing_mask
                    initial_world) IndexError eq_refl).
  - split; [vm_compute; reflexivity|].
    apply (proj2 (main_creates_directories_after_discovery host_short_mask
                    initial_world)
             (value_or ([], [], [], []) (discovery host_short_mask))).
    + vm_compute. reflexivity.
    + right; right; right; left. reflexivity.
Defined.

(** X15. [main] needs two volumes: when the pattern of the volumes matches
    no file, or one file only (whose subject and mask are found), the
    split refuses the empty training set and [main] ends with
    [ValueError]; nothing is created or written. *)
Theorem main_needs_two_volumes (h : host) (w : world) :
  (glob h image_pattern = [] -> main h w = (Raised ValueError, w))
  /\ (forall f indices masks,
        glob h image_pattern = [f] ->
        subject_indices [f] = Ok indices ->
        select_masks h indices = Ok masks ->
        main h w = (Raised ValueError, w)).
Proof.
  split.
  - intros Hg. unfold main. rewrite Hg. reflexivity.
  - intros f indices masks Hg Hi Hm. unfold main. rewrite Hg.
    rewrite (bind_lift_ok _ _ _ _ Hi), (bind_lift_ok _ _ _ _ Hm).
    apply bind_lift_raised. unfold train_test_split. cbn [List.length].
    destruct (negb (List.length masks =? 1)); reflexivity.
Qed.

Lemma main_needs_two_volumes_witness :
  (glob host_empty image_pattern = []
   /\ main host_empty initial_world = (Raised ValueError, initial_world))
  /\ (glob host_one image_pattern = [subject_image s1]
      /\ select_masks host_one [s1] = Ok [subject_mask s1]
      /\ main host_one initial_world = (Raised ValueError, initial_world)).
Proof.
  split.
  - split; [reflexivity|].
    exact (proj1 (main_needs_two_volumes host_empty initial_world) eq_refl).
  - split; [reflexivity|]. split; [reflexivity|].
    exact (proj2 (main_needs_two_volumes host_one initial_world)
             (subject_image s1) [s1] [subject_mask s1] eq_refl eq_refl eq_refl).
Defined.

(** X16. A well-formed data set: when the discovery and the split succeed
    and every volume of the training and of the validation set is well
    paired (a mask at its place, both volumes of one shape with two slices
    or more), [main] ends normally; it has written two files for each
    selected slice of each volume and then the label map, it has printed
    nothing, and the five output directories exist. *)
Theorem main_completes_on_well_formed_data (h : host) (w : world)
    (train_images validation_images train_masks validation_masks : list string) :
  discovery h = Ok (train_images, validation_images, train_masks, validation_masks) ->
  (forall idx f, nth_error train_images idx = Some f ->
     good_pair h train_masks idx f) ->
  (forall idx f, nth_error validation_images idx = Some f ->
     good_pair h validation_masks idx f) ->
  exists ws ds,
    main h w
    = (Ok tt,
       mk_world
         (files_written w ++ ws
          ++ [("/opt/ml/processing/output/label_map/train_label_map.json",
               Text scale_one_text)])
         (stdout w) ds)
    /\ List.length ws
       = 2 * (list_sum (map (slices_of h) train_images)
              + list_sum (map (slices_of h) validation_images))
    /\ (forall d, In d (dirs w) -> In d ds)
    /\ (forall d, In d output_dirs -> In d ds).
Proof.
  intros Hdisc Htrain Hval.
  unfold discovery in Hdisc. unfold main.
  destruct (subject_indices (glob h image_pattern)) as [indices|]; [|discriminate].
  cbn [obind] in Hdisc. rewrite (bind_lift_ok _ _ _ _ eq_refl).
  destruct (select_masks h indices) as [masks|]; [|discriminate].
  cbn [obind] in Hdisc. rewrite (bind_lift_ok _ _ _ _ eq_refl).
  rewrite (bind_lift_ok _ _ _ _ Hdisc). cbn beta iota zeta.
  rewrite !bind_create_dir by discriminate.
  set (w4 := snd (create_dir_if_not_exist _ (snd (create_dir_if_not_exist _
               (snd (create_dir_if_not_exist _ (snd (create_dir_if_not_exist _ w)))))))).
  assert (Hf4 : files_written w4 = files_written w /\ stdout w4 = stdout w).
  { subst w4. now rewrite !create_dir_files, !create_dir_stdout. }
  assert (Hd4 : (forall d, In d (dirs w) -> In d (dirs w4))
                /\ (forall d, In d slice_dirs -> In d (dirs w4))).
  { subst w4. split.
    - intros d Hd. now do 4 apply create_dir_keeps.
    - intros d Hd. now apply slice_dirs_created. }
  clearbody w4.
  destruct (process_pairs_from h train_masks
              (path_join output_data_path ["train"])
              (path_join output_data_path ["train_annotation"])
              train_images 0 w4 Htrain) as (ws1 & Hrun1 & Hlen1).
  destruct (process_pairs_from h validation_masks
              (path_join output_data_path ["validation"])
              (path_join output_data_path ["validation_annotation"])
              validation_images 0 (wrote w4 ws1) Hval) as (ws2 & Hrun2 & Hlen2).
  unfold process_mris, enumerate.
  unfold bind at 1. rewrite Hrun1. unfold bind at 1. rewrite Hrun2.
  rewrite bind_create_dir by discriminate. unfold json_dump.
  set (w5 := snd (create_dir_if_not_exist _ (wrote (wrote w4 ws1) ws2))).
  assert (H5 : files_written w5 = files_written w ++ ws1 ++ ws2
               /\ stdout w5 = stdout w
               /\ (forall d, In d (dirs w4) -> In d (dirs w5))
               /\ In "/opt/ml/processing/output/label_map" (dirs w5)).
  { subst w5. destruct Hf4 as [Ef Es].
    rewrite create_dir_files, create_dir_stdout.
    cbn [files_written stdout wrote]. rewrite Ef, Es, <- app_assoc.
    split; [reflexivity|]. split; [reflexivity|]. split.
    - intros d Hd. now apply create_dir_keeps.
    - apply (create_dir_adds (path_join output_data_path ["label_map"]));
        [discriminate|reflexivity]. }
  clearbody w5. destruct H5 as (Ef5 & Es5 & Hd5 & Hl5).
  exists (ws1 ++ ws2), (dirs w5).
  split; [|split; [|split]].
  - rewrite Ef5, Es5, <- !app_assoc. reflexivity.
  - rewrite length_app, Hlen1, Hlen2. lia.
  - intros d Hd. apply Hd5. now apply (proj1 Hd4).
  - intros d Hd. unfold output_dirs in Hd. apply in_app_or in Hd.
    destruct Hd as [Hd|[<-|[]]]; [|exact Hl5].
    apply Hd5. now apply (proj2 Hd4).
Qed.

Lemma main_completes_on_well_formed_data_witness :
  discovery host_two
  = Ok ([subject_image s2], [subject_image s1], [subject_mask s2], [subject_mask s1])
  /\ exists ws ds,
       main host_two initial_world
       = (Ok tt,
          mk_world
            (ws ++ [("/opt/ml/processing/output/label_map/train_label_map.json",
                     Text scale_one_text)])
            [] ds)
       /\ List.length ws = 6.
Proof.
  split; [reflexivity|].
  destruct (main_completes_on_well_formed_data host_two initial_world
              [subject_image s2] [subject_image s1]
              [subject_mask s2] [subject_mask s1] eq_refl)
    as (ws & ds & Hrun & Hlen & _).
  - intros [|[|idx]] f Hf; try discriminate.
    injection Hf as <-. exists (subject_mask s2), vol_dark_odd, mask_small.
    repeat split; try reflexivity; cbn; lia.
  - intros [|[|idx]] f Hf; try discriminate.
    injection Hf as <-. exists (subject_mask s1), vol_plain, mask_plain.
    repeat split; try reflexivity; cbn; lia.
  - exists ws, ds. split; [exact Hrun|]. rewrite Hlen. reflexivity.
Defined.

(** X18. [main] creates before it writes. Once the discovery and the
    split have succeeded, whatever the world [main] starts in, lines 67 to
    70 leave a world [w4] in which the four slice directories exist and
    in which no file and no line has been added yet; everything [main]
    writes is written from [w4] on, by the two calls of [process_mris]
    and by the label map, whose directory exists when line 78 is
    passed. *)
Theorem main_creates_before_it_writes (h : host) (w : world)
    (tri vai trm vam : list string) :
  discovery h = Ok (tri, vai, trm, vam) ->
  exists w4,
    files_written w4 = files_written w
    /\ stdout w4 = stdout w
    /\ (forall d, In d (dirs w) -> In d (dirs w4))
    /\ (forall d, In d slice_dirs -> path_exists d w4 = true)
    /\ main h w
       = (process_mris h tri trm
            "/opt/ml/processing/output/train"
            "/opt/ml/processing/output/train_annotation" ;;
          process_mris h vai vam
            "/opt/ml/processing/output/validation"
            "/opt/ml/processing/output/validation_annotation" ;;
          create_dir_if_not_exist "/opt/ml/processing/output/label_map" ;;
          json_dump label_map
            "/opt/ml/processing/output/label_map/train_label_map.json") w4
    /\ forall w5,
         path_exists "/opt/ml/processing/output/label_map"
           (snd (create_dir_if_not_exist "/opt/ml/processing/output/label_map" w5))
         = true.
Proof.
  intros Hdisc. unfold discovery in Hdisc. unfold main.
  destruct (subject_indices (glob h image_pattern)) as [indices|]; [|discriminate].
  cbn [obind] in Hdisc. rewrite (bind_lift_ok _ _ _ _ eq_refl).
  destruct (select_masks h indices) as [masks|]; [|discriminate].
  cbn [obind] in Hdisc. rewrite (bind_lift_ok _ _ _ _ eq_refl).
  rewrite (bind_lift_ok _ _ _ _ Hdisc). cbn beta iota zeta.
  rewrite !bind_create_dir by discriminate.
  eexists. split; [|split; [|split; [|split; [|split; [reflexivity|]]]]].
  - now rewrite !create_dir_files.
  - now rewrite !create_dir_stdout.
  - intros d Hd. now do 4 apply create_dir_keeps.
  - intros d Hd. apply path_exists_In.
    + cbn in Hd. decompose [or] Hd; try contradiction; subst d; discriminate.
    + now apply slice_dirs_created.
  - intros w5. now apply create_dir_exists.
Qed.

Lemma main_creates_before_it_writes_witness :
  discovery host_two
  = Ok ([subject_image s2], [subject_image s1], [subject_mask s2], [subject_mask s1])
  /\ exists w4,
       files_written w4 = []
       /\ stdout w4 = []
       /\ path_exists "/opt/ml/processing/output/train" w4 = true
       /\ path_exists "/opt/ml/processing/output/train_annotation" w4 = true
       /\ main host_two initial_world
          = (process_mris host_two [subject_image s2] [subject_mask s2]
               "/opt/ml/processing/output/train"
               "/opt/ml/processing/output/train_annotation" ;;
             process_mris host_two [subject_image s1] [subject_mask s1]
               "/opt/ml/processing/output/validation"
               "/opt/ml/processing/output/validation_annotation" ;;
             create_dir_if_not_exist "/opt/ml/processing/output/label_map" ;;
             json_dump label_map
               "/opt/ml/processing/output/label_map/train_label_map.json") w4.
Proof.
  split; [reflexivity|].
  destruct (main_creates_before_it_writes host_two initial_world
              [subject_image s2] [subject_image s1]
              [subject_mask s2] [subject_mask s1] eq_refl)
    as (w4 & Hf & Hs & _ & Hd & Hrun & _).
  exists w4. split; [exact Hf|]. split; [exact Hs|].
  split; [apply Hd; left; reflexivity|].
  split; [apply Hd; right; right; left; reflexivity|].
  exact Hrun.
Defined.

(* ------------------------------------------------------------------ *)
(** ** The two ends of the grey scale *)

Lemma rescale_zero (mx v : F64.float) :
  F64.is_finite mx = true -> F64.is_zero mx = false -> F64.is_zero v = true ->
  F64.to_uint8 (rescale mx v) = 0%Z.
Proof.
  destruct mx as [s|s| |s m e]; try discriminate.
  destruct v as [sv|sv| |sv mv ev]; try discriminate.
  intros _ _ _. reflexivity.
Qed.

(** X17. When the maximum of the selection is finite and not zero, the
    normalisation keeps the two ends of the scale exact: at every position
    of the selection a zero voxel becomes the pixel 0 (the background
    stays black) and a voxel equal to the maximum becomes the pixel
    255. *)
Theorem background_black_and_maximum_white (mris : ndarray F64.float)
    (mx : F64.float) :
  amax mris = Ok mx ->
  F64.is_finite mx = true ->
  F64.is_zero mx = false ->
  exists norm,
    normalise mris = Ok norm
    /\ forall k v, nth_error (data mris) k = Some v ->
         (F64.is_zero v = true ->
            nth_error (data (astype_uint8 norm)) k = Some 0%Z)
         /\ (v = mx -> nth_error (data (astype_uint8 norm)) k = Some 255%Z).
Proof.
  intros Hmx Hfin Hnz.
  exists (amap (rescale mx) mris).
  split; [unfold normalise; now rewrite Hmx|].
  intros k v Hk. unfold astype_uint8, amap. cbn [data].
  rewrite !nth_error_map, Hk. cbn [option_map]. split.
  - intros Hz. now rewrite rescale_zero.
  - intros ->. now rewrite rescale_self, to_uint8_255.
Qed.

Lemma background_black_and_maximum_white_witness :
  amax (mk_ndarray [1; 2; 2] [fl 0; fl 4; fl 2; fl 0]) = Ok (fl 4)
  /\ exists norm,
       normalise (mk_ndarray [1; 2; 2] [fl 0; fl 4; fl 2; fl 0]) = Ok norm
       /\ nth_error (data (astype_uint8 norm)) 0 = Some 0%Z
       /\ nth_error (data (astype_uint8 norm)) 1 = Some 255%Z.
Proof.
  split; [reflexivity|].
  destruct (background_black_and_maximum_white
              (mk_ndarray [1; 2; 2] [fl 0; fl 4; fl 2; fl 0]) (fl 4)
              eq_refl eq_refl eq_refl) as (norm & Hn & Hall).
  exists norm. split; [exact Hn|]. split.
  - exact (proj1 (Hall 0 (fl 0) eq_refl) eq_refl).
  - exact (proj2 (Hall 1 (fl 4) eq_refl) eq_refl).
Defined.
